(** * The span-lifecycle core of the Jaeger tracer (tracer.go)

    A shallow embedding of [Tracer.startSpanWithOptions],
    [Tracer.startSpanInternal], [Tracer.addCodec], [Tracer.Inject],
    [Tracer.Extract], [Tracer.reportSpan] and [Tracer.randomID], followed by
    the properties of the tracer's specification that concern them.

    Conventions of the embedding:
    - a Go [uint64] and a Go [byte] are integers of [Z]; the code performs no
      arithmetic on identifiers (it copies and compares them), and the only
      operation on the flag byte is a bitwise or / and, written with [Z.lor]
      and [Z.land];
    - a Go [map[string]string] is a reference: a [SpanContext] holds the
      address of its baggage map, and the maps themselves live in the heap
      component of the [World];
    - the collaborators of the tracer (random source, sampler, debug
      throttler, clock, injectors, extractors) are state transformers on an
      abstract environment [Env]; every call that crosses the boundary of the
      core is also recorded, in order, in the [calls] component of the
      [World];
    - the [for val == 0] loop of [randomID] is bounded by a fuel argument;
      [None] means that the fuel ran out. *)

From Stdlib Require Import ZArith Lia.
From stdpp Require Import base option list strings gmap fin_maps.

Open Scope Z_scope.

(** ** Identifiers and span contexts *)

(** [TraceID] of the repository: two 64-bit words. *)
Record TraceID := mkTraceID { High : Z; Low : Z }.

(** A heap address of a Go [map[string]string]. *)
Definition loc := nat.

(** [SpanContext] (declared in context.go; the fields are the ones that
    tracer.go reads and writes).  [baggage = None] is the nil map. *)
Record SpanContext := mkSpanContext {
  traceID  : TraceID;
  spanID   : Z;
  parentID : Z;
  flags    : Z;
  baggage  : option loc;
  debugID  : string
}.

(** The zero value of [SpanContext] ([var ctx SpanContext]). *)
Definition emptyContext : SpanContext :=
  mkSpanContext (mkTraceID 0 0) 0 0 0 None "".

(** Modelled from the spec: the flag bits are declared in context.go, which
    is not among the sources; the data model gives [flags] a bit `sampled`
    and a bit `debug`. *)
Definition flagSampled : Z := 1.

(** Modelled from the spec: the `debug` bit of [flags], declared in
    context.go like [flagSampled]. *)
Definition flagDebug : Z := 2.

(** Modelled from the spec: [TraceID.IsValid] is declared in context.go; a
    trace ID is a pair of words and is valid when it is not zero. *)
Definition TraceID_IsValid (t : TraceID) : bool :=
  negb (High t =? 0) || negb (Low t =? 0).

(** Modelled from the spec: [SpanContext.IsValid] is declared in
    context.go; "a context is valid iff traceID <> 0 and spanID <> 0". *)
Definition IsValid (c : SpanContext) : bool :=
  TraceID_IsValid (traceID c) && negb (spanID c =? 0).

(** Modelled from the spec: [SpanContext.isDebugIDContainerOnly] is declared
    in context.go; a context "carrying a client-forced-sampling token before
    a real trace exists". *)
Definition isDebugIDContainerOnly (c : SpanContext) : bool :=
  negb (TraceID_IsValid (traceID c)) && negb (String.eqb (debugID c) "").

(** Modelled from the spec: [SpanContext.IsSampled] is declared in
    context.go; the `sampled` bit of the flags is set. *)
Definition IsSampled (c : SpanContext) : bool :=
  Z.land (flags c) flagSampled =? flagSampled.

(** Modelled from the spec: [SpanContext.IsDebug] is declared in
    context.go; the `debug` bit of the flags is set. *)
Definition IsDebug (c : SpanContext) : bool :=
  Z.land (flags c) flagDebug =? flagDebug.

(** ** References *)

(** [opentracing.SpanReferenceType] ([ChildOfRef], [FollowsFromRef])
    together with the marker [selfRefType] that the repository declares
    for [SelfRef]. *)
Inductive SpanReferenceType := ChildOfRef | FollowsFromRef | selfRefType.

(** A value of the interface [opentracing.SpanContext]: either this
    tracer's [SpanContext] or anything else, on which the type assertion
    [.(SpanContext)] fails. *)
Inductive OTSpanContext :=
| JaegerContext (c : SpanContext)
| ForeignContext (descr : string).

(** [opentracing.SpanReference]. *)
Record SpanReference := mkSpanReference {
  Type_ : SpanReferenceType;
  ReferencedContext : OTSpanContext
}.

(** [Reference] of the repository (a reference whose context is known to
    be a [SpanContext]). *)
Record Reference := mkReference {
  refType : SpanReferenceType;
  refContext : SpanContext
}.

(** [SelfRef] (tracer.go:475). *)
Definition SelfRef (ctx : SpanContext) : SpanReference :=
  mkSpanReference selfRefType (JaegerContext ctx).

(** ** Tags *)

(** The values of [interface{}] that tags carry: strings, the string-based
    type [ext.SpanKindEnum], [uint16] (0 <= n < 65536), booleans and other
    integers. *)
Inductive TagValue :=
| VString (s : string)
| VSpanKind (s : string)
| VUint16 (n : Z)
| VBool (b : bool)
| VInt (n : Z).

Record Tag := mkTag { key : string; value : TagValue }.

(** Tag keys and values of opentracing-go/ext: [ext.SpanKindRPCServer.Key],
    [ext.SpanKindRPCServerEnum] and [ext.SamplingPriority]. *)
Definition SpanKindRPCServer_Key : string := "span.kind".
Definition SpanKindRPCServerEnum : string := "server".
Definition SamplingPriority : string := "sampling.priority".

(** Modelled from the spec: [JaegerDebugHeader] is declared in
    constants.go; it is the key of the "tag carrying the debug-id value".
    No property below depends on the string. *)
Definition JaegerDebugHeader : string := "jaeger-debug-id".

(** [opentracing.StartSpanOptions].  [Tags] is a Go map: the list holds its
    entries in the order in which [range] happens to yield them, and its
    keys are pairwise distinct ([wf_tags]).  [StartTime = 0] is the zero
    time. *)
Record StartSpanOptions := mkStartSpanOptions {
  References : list SpanReference;
  StartTime  : Z;
  Tags       : list (string * TagValue)
}.

Definition wf_tags (tags : list (string * TagValue)) : Prop :=
  NoDup (tags.*1).

(** [options.Tags[k]]. *)
Fixpoint lookupTag (k : string) (tags : list (string * TagValue)) : option TagValue :=
  match tags with
  | [] => None
  | (k', v) :: rest => if String.eqb k' k then Some v else lookupTag k rest
  end.

(** ** Spans *)

(** [Span] (declared in span.go), without its lock and its observer
    handle, whose calls are recorded in the call trace, and without its
    back-reference to the tracer: the tracer is passed to the functions
    that reach it through the span. *)
Record Span := mkSpan {
  context        : SpanContext;
  operationName  : string;
  startTime      : Z;
  duration       : Z;
  tags           : list Tag;
  references     : list Reference;
  firstInProcess : bool
}.

(** Modelled from the spec: [SpanAllocator.Get] is an interface method with
    no implementation among the sources; the allocator hands records out
    "clean". *)
Definition blankSpan : Span :=
  mkSpan emptyContext "" 0 0 [] [] false.

Definition setContext (sp : Span) (c : SpanContext) : Span :=
  mkSpan c (operationName sp) (startTime sp) (duration sp) (tags sp)
         (references sp) (firstInProcess sp).

Definition setFlags (c : SpanContext) (f : Z) : SpanContext :=
  mkSpanContext (traceID c) (spanID c) (parentID c) f (baggage c) (debugID c).

(** Modelled from the spec: [Span.setTagNoLocking] is declared in span.go;
    a span's tags are an "ordered sequence of Tag" and the tag is stored at
    its end. *)
Definition setTagNoLocking (sp : Span) (k : string) (v : TagValue) : Span :=
  mkSpan (context sp) (operationName sp) (startTime sp) (duration sp)
         (tags sp ++ [mkTag k v]) (references sp) (firstInProcess sp).

(** ** Errors, formats, events *)

(** The errors of opentracing-go that [Inject] and [Extract] return
    themselves ([ErrUnsupportedFormat], [ErrInvalidSpanContext]) and the
    ones that a codec may report. *)
Inductive Error :=
| ErrUnsupportedFormat
| ErrInvalidSpanContext
| ErrSpanContextNotFound
| ErrSpanContextCorrupted
| ErrInvalidCarrier
| ErrOther (msg : string).

(** The keys of the codec registry ([interface{}] values used as map
    keys): opentracing's [BuiltinFormat] integers and the string formats of
    the repository. *)
Inductive Format :=
| BuiltinFormat (n : Z)
| NamedFormat (s : string).

Definition Binary : Format := BuiltinFormat 0.
Definition TextMap : Format := BuiltinFormat 1.
Definition HTTPHeaders : Format := BuiltinFormat 2.
Definition SpanContextFormat : Format := NamedFormat "jaeger.SpanContext".
Definition ZipkinSpanFormat : Format := NamedFormat "zipkin-span-format".

#[global] Instance Format_eq_dec : EqDecision Format.
Proof. solve_decision. Defined.

#[global] Instance Format_countable : Countable Format.
Proof.
  refine (inj_countable'
            (fun f => match f with
                      | BuiltinFormat n => inl n
                      | NamedFormat s => inr s
                      end)
            (fun x => match x with
                      | inl n => BuiltinFormat n
                      | inr s => NamedFormat s
                      end) _).
  intros []; reflexivity.
Defined.

(** The counters of [Metrics] that tracer.go increments. *)
Inductive Counter :=
| SpansStartedSampled
| SpansStartedNotSampled
| TracesStartedSampled
| TracesStartedNotSampled
| TracesJoinedSampled
| TracesJoinedNotSampled
| SpansFinished.

(** One entry per call that leaves the core. *)
Inductive Event :=
| EvLoggerError (msg : string)
| EvTimeNow
| EvRandomNumber
| EvHighTraceID
| EvIsDebugAllowed (operation : string)
| EvIsSampled (id : TraceID) (operation : string)
| EvAllocatorGet
| EvOnStartSpan (sp : Span) (operation : string)
| EvOnSetTag (k : string) (v : TagValue)
| EvInc (c : Counter) (delta : Z)
| EvReport (sp : Span)
| EvRelease (sp : Span).

(** ** The world outside the core *)

(** The state that a call of the tracer can read and change: the hidden
    state [env] of the collaborators, the heap of baggage maps, and the
    trace of the calls made so far (oldest first). *)
Record World (Env : Type) := mkWorld {
  env   : Env;
  heap  : gmap loc (gmap string string);
  calls : list Event
}.
Arguments mkWorld {Env} _ _ _.
Arguments env {Env} _.
Arguments heap {Env} _.
Arguments calls {Env} _.

(** Computations of the core: state passing over the world; [None] only
    when the fuel of [randomID] runs out. *)
Definition M (Env : Type) (A : Type) : Type := World Env -> option (A * World Env).

Definition ret {Env A} (a : A) : M Env A :=
  fun w => Some (a, w).

Definition bind {Env A B} (m : M Env A) (k : A -> M Env B) : M Env B :=
  fun w =>
    match m w with
    | Some (a, w') => k a w'
    | None => None
    end.

Notation "'let*' x ':=' m 'in' k" := (bind m (fun x => k))
  (at level 10, x pattern, m at level 100, k at level 200).

Notation "m '>>' k" := (bind m (fun _ => k))
  (at level 100, k at level 200, right associativity).

(** Record a call in the trace. *)
Definition call {Env} (e : Event) : M Env unit :=
  fun w => Some (tt, mkWorld (env w) (heap w) (calls w ++ [e])).

(** Run a collaborator on the environment. *)
Definition liftEnv {Env A} (f : Env -> A * Env) : M Env A :=
  fun w => let '(a, e') := f (env w) in Some (a, mkWorld e' (heap w) (calls w)).

(** Run a collaborator that may also touch the heap (codecs). *)
Definition liftWorld {Env A} (f : World Env -> A * World Env) : M Env A :=
  fun w => Some (f w).

Definition getHeap {Env} : M Env (gmap loc (gmap string string)) :=
  fun w => Some (heap w, w).

Definition putHeap {Env} (h : gmap loc (gmap string string)) : M Env unit :=
  fun w => Some (tt, mkWorld (env w) h (calls w)).

(** ** Go maps in the heap *)

(** The contents of the baggage map of a context; the nil map is empty. *)
Definition baggageOf (h : gmap loc (gmap string string)) (c : SpanContext)
  : gmap string string :=
  match baggage c with
  | Some l => default ∅ (h !! l)
  | None => ∅
  end.

(** [m[k] = v] on the map at address [l]. *)
Definition mapassign (l : loc) (k v : string) (h : gmap loc (gmap string string))
  : gmap loc (gmap string string) :=
  alter (insert k v) l h.

(** Any in-place update of the map at address [l]. *)
Definition mapmutate (l : loc) (f : gmap string string -> gmap string string)
  (h : gmap loc (gmap string string)) : gmap loc (gmap string string) :=
  alter f l h.

(** [make(map[string]string, n)]: a new, empty map at an unused address. *)
Definition makemap (h : gmap loc (gmap string string))
  : loc * gmap loc (gmap string string) :=
  let l := fresh (dom h) in (l, <[l := ∅]> h).

(** [for k, v := range src { dst[k] = v }], with [entries] the order in
    which [range] yields the entries of [src]. *)
Definition copyEntries (l : loc) (entries : list (string * string))
  (h : gmap loc (gmap string string)) : gmap loc (gmap string string) :=
  fold_left (fun h kv => mapassign l kv.1 kv.2 h) entries h.

(** ** The tracer *)

Section Tracer.
Context {Env Carrier : Type}.

(** The interfaces [Injector] and [Extractor] of the repository. *)
Definition Injector : Type :=
  SpanContext -> Carrier -> World Env -> option Error * World Env.
Definition Extractor : Type :=
  Carrier -> World Env -> (SpanContext * option Error) * World Env.

(** [Tracer.options]. *)
Record TracerOptions := mkTracerOptions {
  gen128Bit                   : bool;
  zipkinSharedRPCSpan         : bool;
  highTraceIDGenerator        : Env -> Z * Env;
  maxTagValueLength           : Z;
  noDebugFlagOnForcedSampling : bool
}.

(** [Tracer].  The interface-typed fields are given by the one method
    that tracer.go calls on them: [sampler] is [Sampler.IsSampled] and
    [debugThrottler] is [Throttler.IsAllowed].  The reporter, the
    metrics, the logger, the allocator and the observer return nothing
    that the core reads; their calls appear in the trace. *)
Record Tracer := mkTracer {
  serviceName    : string;
  sampler        : TraceID -> string -> Env -> (bool * list Tag) * Env;
  timeNow        : Env -> Z * Env;
  randomNumber   : Env -> Z * Env;
  options        : TracerOptions;
  injectors      : gmap Format Injector;
  extractors     : gmap Format Extractor;
  debugThrottler : string -> Env -> bool * Env
}.

(** *** addCodec (tracer.go:192) *)

Definition addCodec (t : Tracer) (format : Format)
  (injector : Injector) (extractor : Extractor) : Tracer :=
  let injectors' :=
    match injectors t !! format with
    | Some _ => injectors t
    | None => <[format := injector]> (injectors t)
    end in
  let extractors' :=
    match extractors t !! format with
    | Some _ => extractors t
    | None => <[format := extractor]> (extractors t)
    end in
  mkTracer (serviceName t) (sampler t) (timeNow t) (randomNumber t)
           (options t) injectors' extractors' (debugThrottler t).

(** A sequence of [addCodec] calls, as in [NewTracer] (tracer.go:98-112). *)
Definition addCodecs (t : Tracer) (regs : list (Format * Injector * Extractor))
  : Tracer :=
  fold_left (fun t r => addCodec t r.1.1 r.1.2 r.2) regs t.

(** The first registration for [format] in a sequence of calls. *)
Fixpoint firstRegistration (format : Format)
  (regs : list (Format * Injector * Extractor))
  : option (Injector * Extractor) :=
  match regs with
  | [] => None
  | (f, i, e) :: rest =>
      if decide (f = format) then Some (i, e) else firstRegistration format rest
  end.

(** *** randomID (tracer.go:454) *)

Definition callRandomNumber (t : Tracer) : M Env Z :=
  call EvRandomNumber >> liftEnv (randomNumber t).

(** The loop [for val == 0 { val = t.randomNumber() }]; [fuel] bounds the
    number of iterations. *)
Fixpoint randomID_loop (fuel : nat) (t : Tracer) (val : Z) : M Env Z :=
  if val =? 0 then
    match fuel with
    | O => fun _ => None
    | S fuel' => let* val' := callRandomNumber t in randomID_loop fuel' t val'
    end
  else ret val.

Definition randomID (fuel : nat) (t : Tracer) : M Env Z :=
  let* val := callRandomNumber t in randomID_loop fuel t val.

(** The world after [n] calls of [t.randomNumber], and the value that
    the next call yields there. *)
Fixpoint afterDraws (t : Tracer) (n : nat) (w : World Env) : World Env :=
  match n with
  | O => w
  | S n' =>
      match callRandomNumber t w with
      | Some (_, w') => afterDraws t n' w'
      | None => w
      end
  end.

Definition nextDraw (t : Tracer) (w : World Env) : Z :=
  (randomNumber t (env w)).1.

(** *** isDebugAllowed (tracer.go:468) and the other collaborators *)

Definition isDebugAllowed (t : Tracer) (operation : string) : M Env bool :=
  call (EvIsDebugAllowed operation) >> liftEnv (debugThrottler t operation).

Definition callIsSampled (t : Tracer) (id : TraceID) (operation : string)
  : M Env (bool * list Tag) :=
  call (EvIsSampled id operation) >> liftEnv (sampler t id operation).

Definition callHighTraceID (t : Tracer) : M Env Z :=
  call EvHighTraceID >> liftEnv (highTraceIDGenerator (options t)).

Definition callTimeNow (t : Tracer) : M Env Z :=
  call EvTimeNow >> liftEnv (timeNow t).

(** [newSpan] (tracer.go:385). *)
Definition newSpan (t : Tracer) : M Env Span :=
  call EvAllocatorGet >> ret blankSpan.

(** *** startSpanWithOptions, reference resolution (tracer.go:217-261) *)

(** The closure [isValidReference] (tracer.go:223). *)
Definition isValidReference (h : gmap loc (gmap string string))
  (ctx : SpanContext) : bool :=
  IsValid ctx || isDebugIDContainerOnly ctx
  || negb (Nat.eqb (size (baggageOf h ctx)) 0).

(** The local variables of [startSpanWithOptions] after line 261. *)
Record Resolution := mkResolution {
  res_startTime  : Z;
  res_references : list Reference;
  res_parent     : SpanContext;
  res_hasParent  : bool;
  res_ctx        : SpanContext;
  res_isSelfRef  : bool
}.

(** One iteration of the loop over [options.References]. *)
Definition resolveStep (acc : Resolution) (ref : SpanReference)
  : M Env Resolution :=
  match ReferencedContext ref with
  | ForeignContext descr =>
      call (EvLoggerError
              ("Reference contains invalid type of SpanReference: " +:+ descr)) >>
      ret acc
  | JaegerContext ctxRef =>
      let* h := getHeap in
      if negb (isValidReference h ctxRef) then ret acc
      else
        match Type_ ref with
        | selfRefType =>
            ret (mkResolution (res_startTime acc) (res_references acc)
                    (res_parent acc) (res_hasParent acc) ctxRef true)
        | ty =>
            let references' := res_references acc ++ [mkReference ty ctxRef] in
            if negb (res_hasParent acc) then
              ret (mkResolution (res_startTime acc) references' ctxRef
                      (match ty with ChildOfRef => true | _ => false end)
                      (res_ctx acc) (res_isSelfRef acc))
            else
              ret (mkResolution (res_startTime acc) references'
                      (res_parent acc) (res_hasParent acc)
                      (res_ctx acc) (res_isSelfRef acc))
        end
  end.

Fixpoint resolveLoop (acc : Resolution) (refs : list SpanReference)
  : M Env Resolution :=
  match refs with
  | [] => ret acc
  | ref :: rest => let* acc' := resolveStep acc ref in resolveLoop acc' rest
  end.

(** Lines 217-261: the start time, the loop and the follows-from
    fallback. *)
Definition resolveReferences (t : Tracer) (opts : StartSpanOptions)
  : M Env Resolution :=
  let* start := (if StartTime opts =? 0 then callTimeNow t else ret (StartTime opts)) in
  let* acc := resolveLoop (mkResolution start [] emptyContext false emptyContext false)
                    (References opts) in
  let* h := getHeap in
  if negb (res_hasParent acc) && isValidReference h (res_parent acc) then
    ret (mkResolution (res_startTime acc) (res_references acc)
            (res_parent acc) true (res_ctx acc) (res_isSelfRef acc))
  else ret acc.
End Tracer.

Arguments Injector : clear implicits.
Arguments Extractor : clear implicits.
Arguments TracerOptions : clear implicits.
Arguments Tracer : clear implicits.

Section StartSpan.
Context {Env Carrier : Type}.

(** *** startSpanWithOptions, the new context (tracer.go:263-308) *)

(** Lines 263-266: is the span tagged as the server side of an RPC? *)
Definition isRPCServer (tags : list (string * TagValue)) : bool :=
  match lookupTag SpanKindRPCServer_Key tags with
  | Some (VSpanKind s) => String.eqb s SpanKindRPCServerEnum
  | Some (VString s) => String.eqb s SpanKindRPCServerEnum
  | _ => false
  end.

(** What lines 263-308 hand over to [startSpanInternal]. *)
Record Derived := mkDerived {
  d_ctx         : SpanContext;
  d_samplerTags : list Tag;
  d_newTrace    : bool;
  d_rpcServer   : bool
}.

(** Lines 272-286: the context of a new trace and its sampling
    decision. *)
Definition startNewTrace (fuel : nat) (t : Tracer Env Carrier) (operation : string)
  (res : Resolution) : M Env (SpanContext * list Tag) :=
  let parent := res_parent res in
  let ctx := res_ctx res in
  let* low := randomID fuel t in
  let* high := (if gen128Bit (options t) then callHighTraceID t
          else ret (High (traceID ctx))) in
  let ctx := mkSpanContext (mkTraceID high low) low 0 0
                           (baggage ctx) (debugID ctx) in
  let* allowed := (if res_hasParent res && isDebugIDContainerOnly parent
             then isDebugAllowed t operation else ret false) in
  if allowed then
    ret (setFlags ctx (Z.lor (flags ctx) (Z.lor flagSampled flagDebug)),
          [mkTag JaegerDebugHeader (VString (debugID parent))])
  else
    let* (sampled, tags) := callIsSampled t (traceID ctx) operation in
    if sampled then ret (setFlags ctx (Z.lor (flags ctx) flagSampled), tags)
    else ret (ctx, []).

(** Lines 288-297: the context of a span that joins its parent's
    trace. *)
Definition joinTrace (fuel : nat) (t : Tracer Env Carrier) (rpcServer : bool)
  (res : Resolution) : M Env SpanContext :=
  let parent := res_parent res in
  let ctx := res_ctx res in
  if rpcServer && zipkinSharedRPCSpan (options t) then
    ret (mkSpanContext (traceID parent) (spanID parent) (parentID parent)
            (flags parent) (baggage ctx) (debugID ctx))
  else
    let* id := randomID fuel t in
    ret (mkSpanContext (traceID parent) id (spanID parent)
            (flags parent) (baggage ctx) (debugID ctx)).

(** Lines 299-307: the baggage of the parent is copied into a new map. *)
Definition copyBaggage (parent ctx : SpanContext) : M Env SpanContext :=
  let* h := getHeap in
  let items := baggageOf h parent in
  if (0 <? size items)%nat then
    let '(l, h') := makemap h in
    putHeap (copyEntries l (map_to_list items) h') >>
    ret (mkSpanContext (traceID ctx) (spanID ctx) (parentID ctx)
            (flags ctx) (Some l) (debugID ctx))
  else ret ctx.

Definition deriveContext (fuel : nat) (t : Tracer Env Carrier) (operation : string)
  (opts : StartSpanOptions) (res : Resolution) : M Env Derived :=
  let rpcServer := isRPCServer (Tags opts) in
  if res_isSelfRef res then ret (mkDerived (res_ctx res) [] false rpcServer)
  else
    let* (ctx, samplerTags, newTrace) :=
      (if negb (res_hasParent res) || negb (IsValid (res_parent res)) then
         let* (ctx, samplerTags) := startNewTrace fuel t operation res in
         ret (ctx, samplerTags, true)
       else
         let* ctx := joinTrace fuel t rpcServer res in
         ret (ctx, [], false)) in
    let* ctx := (if res_hasParent res then copyBaggage (res_parent res) ctx
           else ret ctx) in
    ret (mkDerived ctx samplerTags newTrace rpcServer).

(** *** startSpanInternal (tracer.go:389) *)

(** Modelled from the spec: [setSamplingPriority] is declared in span.go.
    A value that is not a [uint16] changes nothing and is reported as not
    applied.  The value 0 clears the sampled flag.  A value greater than 0
    is sampling forced by the client, which "debug sampling" is: it is
    "subject to per-operation throttling", the debug throttler
    "rate-limits client-forced (debug) sampling per operation name".  So
    the throttler is asked through [isDebugAllowed] (tracer.go:468, "span
    must hold the lock before making this call") with the operation name
    of the span: when it allows, the sampled and the debug flag are set;
    when it denies, nothing changes and the value is reported as not
    applied.  With the option [noDebugFlagOnForcedSampling]
    (tracer.go:54), which tracer.go itself never reads, only the sampled
    flag is set and the throttler is not asked.  The result tells the
    caller whether the flags were updated, which is how tracer.go:410 uses
    it.  The tracer is the one that line 399 has put into the span. *)
Definition setSamplingPriority (t : Tracer Env Carrier) (sp : Span) (v : TagValue)
  : M Env (bool * Span) :=
  match v with
  | VUint16 n =>
      if n =? 0 then
        ret (true, setContext sp (setFlags (context sp)
                     (Z.land (flags (context sp)) (Z.lxor 255 flagSampled))))
      else if noDebugFlagOnForcedSampling (options t) then
        ret (true, setContext sp (setFlags (context sp)
                     (Z.lor (flags (context sp)) flagSampled)))
      else
        let* allowed := isDebugAllowed t (operationName sp) in
        if allowed then
          ret (true, setContext sp (setFlags (context sp)
                       (Z.lor (Z.lor (flags (context sp)) flagDebug) flagSampled)))
        else ret (false, sp)
  | _ => ret (false, sp)
  end.

(** The loop over the caller's tags (lines 408-414). *)
Fixpoint applyTags (t : Tracer Env Carrier) (sp : Span)
  (tags : list (string * TagValue)) : M Env Span :=
  match tags with
  | [] => ret sp
  | (k, v) :: rest =>
      call (EvOnSetTag k v) >>
      if String.eqb k SamplingPriority then
        let* (ok, sp') := setSamplingPriority t sp v in
        if negb ok then applyTags t sp' rest
        else applyTags t (setTagNoLocking sp' k v) rest
      else applyTags t (setTagNoLocking sp k v) rest
  end.

(** Lines 417-435. *)
Definition emitMetrics (sp : Span) (newTrace : bool) : M Env unit :=
  if IsSampled (context sp) then
    call (EvInc SpansStartedSampled 1) >>
    if newTrace then call (EvInc TracesStartedSampled 1)
    else if firstInProcess sp then call (EvInc TracesJoinedSampled 1)
    else ret tt
  else
    call (EvInc SpansStartedNotSampled 1) >>
    if newTrace then call (EvInc TracesStartedNotSampled 1)
    else if firstInProcess sp then call (EvInc TracesJoinedNotSampled 1)
    else ret tt.

Definition startSpanInternal (t : Tracer Env Carrier) (sp : Span) (operation : string)
  (start : Z) (internalTags : list Tag) (spanTags : list (string * TagValue))
  (newTrace rpcServer : bool) (refs : list Reference) : M Env Span :=
  let sp := mkSpan (context sp) operation start 0 (tags sp) refs
                   (rpcServer || (parentID (context sp) =? 0)) in
  let* sp := (if (0 <? length spanTags)%nat || (0 <? length internalTags)%nat
              then
                applyTags t (mkSpan (context sp) (operationName sp) (startTime sp)
                             (duration sp) internalTags (references sp)
                             (firstInProcess sp)) spanTags
              else ret sp) in
  emitMetrics sp newTrace >>
  ret sp.

(** *** startSpanWithOptions (tracer.go:213) and StartSpan (tracer.go:202) *)

Definition startSpanWithOptions (fuel : nat) (t : Tracer Env Carrier) (operation : string)
  (opts : StartSpanOptions) : M Env Span :=
  let* res := resolveReferences t opts in
  let* d := deriveContext fuel t operation opts res in
  let* sp := newSpan t in
  let sp := setContext sp (d_ctx d) in
  call (EvOnStartSpan sp operation) >>
  startSpanInternal t sp operation (res_startTime res) (d_samplerTags d)
    (Tags opts) (d_newTrace d) (d_rpcServer d) (res_references res).

(** [StartSpan] applies each option to an empty [StartSpanOptions]; the
    options are modelled by the functions they apply. *)
Definition StartSpan (fuel : nat) (t : Tracer Env Carrier) (operation : string)
  (opts : list (StartSpanOptions -> StartSpanOptions)) : M Env Span :=
  let sso := fold_left (fun sso o => o sso) opts (mkStartSpanOptions [] 0 []) in
  startSpanWithOptions fuel t operation sso.

(** *** Inject (tracer.go:326) and Extract (tracer.go:338) *)

Definition Inject (t : Tracer Env Carrier) (ctx : OTSpanContext) (format : Format)
  (carrier : Carrier) : M Env (option Error) :=
  match ctx with
  | ForeignContext _ => ret (Some ErrInvalidSpanContext)
  | JaegerContext c =>
      match injectors t !! format with
      | Some injector => liftWorld ((injector : Injector Env Carrier) c carrier)
      | None => ret (Some ErrUnsupportedFormat)
      end
  end.

Definition Extract (t : Tracer Env Carrier) (format : Format) (carrier : Carrier)
  : M Env (option SpanContext * option Error) :=
  match extractors t !! format with
  | Some extractor =>
      let* (spanCtx, err) := liftWorld ((extractor : Extractor Env Carrier) carrier) in
      match err with
      | Some e => ret (None, Some e)
      | None => ret (Some spanCtx, None)
      end
  | None => ret (None, Some ErrUnsupportedFormat)
  end.

(** *** reportSpan (tracer.go:439) *)

(** Modelled from the spec: [Span.Release] is declared in span.go; it
    "returns the record to the pool".  The call is recorded in the
    trace. *)
Definition Release (sp : Span) : M Env unit :=
  call (EvRelease sp).

Definition reportSpan (t : Tracer Env Carrier) (sp : Span) : M Env unit :=
  call (EvInc SpansFinished 1) >>
  (if IsSampled (context sp) then call (EvReport sp) else ret tt) >>
  Release sp.
End StartSpan.

(** ** Vocabulary of the properties *)

Section Vocabulary.
Context {Env : Type}.

(** The candidates for the parent: the references that survive lines
    233-248, that is, those that carry a context of this tracer which
    [isValidReference] accepts and that are not self-references, in the
    caller's order. *)
Definition candidate (h : gmap loc (gmap string string)) (ref : SpanReference)
  : option (SpanReferenceType * SpanContext) :=
  match ReferencedContext ref, Type_ ref with
  | ForeignContext _, _ => None
  | JaegerContext _, selfRefType => None
  | JaegerContext c, ty => if isValidReference h c then Some (ty, c) else None
  end.

Definition candidates (h : gmap loc (gmap string string))
  (refs : list SpanReference) : list (SpanReferenceType * SpanContext) :=
  omap (candidate h) refs.

Definition isChildOf (p : SpanReferenceType * SpanContext) : bool :=
  match p.1 with ChildOfRef => true | _ => false end.

(** The context of the first [ChildOf] candidate. *)
Fixpoint firstChildOf (cands : list (SpanReferenceType * SpanContext))
  : option SpanContext :=
  match cands with
  | [] => None
  | p :: rest => if isChildOf p then Some p.2 else firstChildOf rest
  end.

(** The parent as the specification words it: the first [ChildOf]
    candidate, or else the first candidate of any type. *)
Definition specParent (cands : list (SpanReferenceType * SpanContext))
  : option SpanContext :=
  match firstChildOf cands with
  | Some c => Some c
  | None => head (cands.*2)
  end.

(** The parent that the loop of tracer.go:232-256 computes: the first
    [ChildOf] candidate, or else the last candidate of any type. *)
Definition loopParent (cands : list (SpanReferenceType * SpanContext))
  : option SpanContext :=
  match firstChildOf cands with
  | Some c => Some c
  | None => last (cands.*2)
  end.

(** The parent that [startSpanWithOptions] works with after line 261. *)
Definition resolvedParent (res : Resolution) : option SpanContext :=
  if res_hasParent res then Some (res_parent res) else None.

(** Two contexts that differ at most in their flags. *)
Definition sameIdentity (c1 c2 : SpanContext) : Prop :=
  traceID c1 = traceID c2 /\ spanID c1 = spanID c2 /\ parentID c1 = parentID c2
  /\ baggage c1 = baggage c2 /\ debugID c1 = debugID c2.

(** Two spans that differ at most in their context and their tags. *)
Definition sameHeader (sp1 sp2 : Span) : Prop :=
  operationName sp1 = operationName sp2 /\ startTime sp1 = startTime sp2
  /\ duration sp1 = duration sp2 /\ references sp1 = references sp2
  /\ firstInProcess sp1 = firstInProcess sp2.

(** Is a tag kept by the loop of tracer.go:408-414?  Every tag is, except
    a sampling-priority tag that was not applied to the flags;
    [accepted] tells whether it was. *)
Definition isStored (accepted : bool) (kv : string * TagValue) : bool :=
  negb (String.eqb kv.1 SamplingPriority) || accepted.

Definition storedTags (accepted : bool) (spanTags : list (string * TagValue))
  : list Tag :=
  (fun kv => mkTag kv.1 kv.2)
    <$> filter (fun kv => isStored accepted kv = true) spanTags.

(** The calls made between two worlds. *)
Definition newCalls (w w' : World Env) : list Event :=
  drop (length (calls w)) (calls w').

Definition isIncOf (c : Counter) (e : Event) : bool :=
  match e with
  | EvInc c' _ =>
      match c, c' with
      | SpansStartedSampled, SpansStartedSampled
      | SpansStartedNotSampled, SpansStartedNotSampled
      | TracesStartedSampled, TracesStartedSampled
      | TracesStartedNotSampled, TracesStartedNotSampled
      | TracesJoinedSampled, TracesJoinedSampled
      | TracesJoinedNotSampled, TracesJoinedNotSampled
      | SpansFinished, SpansFinished => true
      | _, _ => false
      end
  | _ => false
  end.

Definition isReport (e : Event) : bool :=
  match e with EvReport _ => true | _ => false end.

Definition isRelease (e : Event) : bool :=
  match e with EvRelease _ => true | _ => false end.

Definition isSamplerCall (e : Event) : bool :=
  match e with EvIsSampled _ _ => true | _ => false end.

Definition isHighTraceIDCall (e : Event) : bool :=
  match e with EvHighTraceID => true | _ => false end.

(** The sum of the deltas that a trace adds to a counter. *)
Definition counterTotal (c : Counter) (evs : list Event) : Z :=
  foldr (fun e acc => match e with
                      | EvInc _ d => if isIncOf c e then d + acc else acc
                      | _ => acc
                      end) 0 evs.
End Vocabulary.

(** *** The sampling-priority tag *)

Section TagVocabulary.
Context {Env Carrier : Type}.

(** Does a sampling-priority value make the tracer ask the debug
    throttler?  Only a [uint16] greater than 0 does, and only without the
    option [noDebugFlagOnForcedSampling]. *)
Definition asksThrottler (t : Tracer Env Carrier) (v : TagValue) : bool :=
  match v with
  | VUint16 n => negb (n =? 0) && negb (noDebugFlagOnForcedSampling (options t))
  | _ => false
  end.

(** Is a sampling-priority value applied to the flags, when the throttler
    is asked in the environment [e]? *)
Definition priorityAccepted (t : Tracer Env Carrier) (operation : string)
  (e : Env) (v : TagValue) : bool :=
  match v with
  | VUint16 n =>
      (n =? 0) || noDebugFlagOnForcedSampling (options t)
      || (debugThrottler t operation e).1
  | _ => false
  end.

(** The flags that a sampling-priority value leaves. *)
Definition priorityFlags (t : Tracer Env Carrier) (operation : string)
  (e : Env) (f : Z) (v : TagValue) : Z :=
  match v with
  | VUint16 n =>
      if n =? 0 then Z.land f (Z.lxor 255 flagSampled)
      else if noDebugFlagOnForcedSampling (options t) then Z.lor f flagSampled
      else if (debugThrottler t operation e).1
           then Z.lor (Z.lor f flagDebug) flagSampled
           else f
  | _ => f
  end.

(** The tags of the caller for which the throttler is asked. *)
Definition throttledTags (t : Tracer Env Carrier)
  (spanTags : list (string * TagValue)) : list (string * TagValue) :=
  filter (fun kv => String.eqb kv.1 SamplingPriority && asksThrottler t kv.2 = true)
    spanTags.

(** The calls of the loop of tracer.go:408-414: the observer for every
    tag, and the throttler after it where it is asked. *)
Fixpoint tagEvents (t : Tracer Env Carrier) (operation : string)
  (spanTags : list (string * TagValue)) : list Event :=
  match spanTags with
  | [] => []
  | (k, v) :: rest =>
      EvOnSetTag k v
      :: (if String.eqb k SamplingPriority && asksThrottler t v
          then [EvIsDebugAllowed operation] else [])
      ++ tagEvents t operation rest
  end.

(** The environment after the loop: the throttler has seen every question
    that was put to it. *)
Fixpoint tagEnv (t : Tracer Env Carrier) (operation : string) (e : Env)
  (spanTags : list (string * TagValue)) : Env :=
  match spanTags with
  | [] => e
  | (k, v) :: rest =>
      tagEnv t operation
        (if String.eqb k SamplingPriority && asksThrottler t v
         then (debugThrottler t operation e).2 else e)
        rest
  end.

(** Whether the sampling-priority tag of the caller, if there is one, is
    applied. *)
Definition tagsAccepted (t : Tracer Env Carrier) (operation : string) (e : Env)
  (spanTags : list (string * TagValue)) : bool :=
  match lookupTag SamplingPriority spanTags with
  | Some v => priorityAccepted t operation e v
  | None => true
  end.
End TagVocabulary.

(** ** A concrete tracer, used to run the definitions *)

Module Demo.
(** The environment counts the calls of the random source. *)
Definition Env : Type := nat.
Definition Carrier : Type := list (string * string).

(** A random source that yields 0 twice and then 7 for ever. *)
Definition zerosThenSeven (n : nat) : Z * nat :=
  (if (n <? 2)%nat then 0 else 7, S n).

Definition neverSample (id : TraceID) (operation : string) (e : nat)
  : (bool * list Tag) * nat := ((false, []), e).

Definition allowAll (operation : string) (e : nat) : bool * nat := (true, e).

Definition clock (e : nat) : Z * nat := (1000, e).

Definition opts (zipkin : bool) : TracerOptions Env :=
  mkTracerOptions false zipkin zerosThenSeven 256 false.

(** A codec that writes nothing and reads nothing. *)
Definition nullInjector : Injector Env Carrier :=
  fun _ _ w => (None, w).
Definition failingExtractor : Extractor Env Carrier :=
  fun _ w => ((mkSpanContext (mkTraceID 0 5) 5 0 0 None "", Some ErrSpanContextCorrupted), w).

Definition tracer (zipkin : bool) : Tracer Env Carrier :=
  mkTracer "demo" neverSample clock zerosThenSeven (opts zipkin)
           (<[TextMap := nullInjector]> ∅) (<[TextMap := failingExtractor]> ∅)
           allowAll.

Definition ctxA : SpanContext := mkSpanContext (mkTraceID 0 11) 7 0 1 None "".
Definition ctxB : SpanContext := mkSpanContext (mkTraceID 0 22) 2 1 0 (Some 0%nat) "".
Definition ctxDebug : SpanContext := mkSpanContext (mkTraceID 0 0) 0 0 0 None "dbg".

(** A heap with the baggage map of [ctxB] at address 0. *)
Definition world0 : World Env :=
  mkWorld 0%nat (<[0%nat := <["k" := "v"]> ∅]> ∅) [].

(** Two follows-from references, no child-of reference, no
    self-reference. *)
Definition followsFromTwice : StartSpanOptions :=
  mkStartSpanOptions
    [mkSpanReference FollowsFromRef (JaegerContext ctxA);
     mkSpanReference FollowsFromRef (JaegerContext ctxB)] 0 [].

(** One child-of reference to a valid context without baggage. *)
Definition childOfA : StartSpanOptions :=
  mkStartSpanOptions [mkSpanReference ChildOfRef (JaegerContext ctxA)] 0 [].

(** One child-of reference to a valid context with baggage. *)
Definition childOfB : StartSpanOptions :=
  mkStartSpanOptions [mkSpanReference ChildOfRef (JaegerContext ctxB)] 0 [].

(** One child-of reference to a debug-id container. *)
Definition childOfDebug : StartSpanOptions :=
  mkStartSpanOptions [mkSpanReference ChildOfRef (JaegerContext ctxDebug)] 0 [].

(** A self-reference together with a child-of reference whose context
    carries baggage. *)
Definition selfRefWithParent : StartSpanOptions :=
  mkStartSpanOptions
    [SelfRef ctxA; mkSpanReference ChildOfRef (JaegerContext ctxB)] 0 [].

(** No reference, and the sampling-priority tag with value 1. *)
Definition forcedSampling : StartSpanOptions :=
  mkStartSpanOptions [] 0 [(SamplingPriority, VUint16 1)].

(** A reference of a foreign type between two usable ones, an explicit
    start time and two tags. *)
Definition mixedOptions : StartSpanOptions :=
  mkStartSpanOptions
    [mkSpanReference FollowsFromRef (JaegerContext ctxA);
     mkSpanReference ChildOfRef (ForeignContext "mock");
     mkSpanReference ChildOfRef (JaegerContext ctxB)]
    42
    [("component", VString "db"); (SamplingPriority, VString "high")].

(** No option at all. *)
Definition noOptions : StartSpanOptions := mkStartSpanOptions [] 0 [].

(** A throttler that denies everything, and the tracer with it. *)
Definition denyAll (operation : string) (e : nat) : bool * nat := (false, e).

Definition strictTracer : Tracer Env Carrier :=
  mkTracer "demo" neverSample clock zerosThenSeven (opts false)
           (<[TextMap := nullInjector]> ∅) (<[TextMap := failingExtractor]> ∅)
           denyAll.

(** A child-of reference to the valid context [ctxB], and a
    self-reference to [ctxA], each with the sampling-priority tag 1. *)
Definition childOfBForced : StartSpanOptions :=
  mkStartSpanOptions [mkSpanReference ChildOfRef (JaegerContext ctxB)] 0
    [(SamplingPriority, VUint16 1)].

Definition selfRefForced : StartSpanOptions :=
  mkStartSpanOptions [SelfRef ctxA] 0 [(SamplingPriority, VUint16 1)].
End Demo.


(** ** Vocabulary of the further properties *)

(** The context of a usable self-reference (tracer.go:233-247). *)
Definition selfCandidate (h : gmap loc (gmap string string)) (ref : SpanReference)
  : option SpanContext :=
  match ReferencedContext ref, Type_ ref with
  | JaegerContext c, selfRefType => if isValidReference h c then Some c else None
  | _, _ => None
  end.

Definition selfCandidates (h : gmap loc (gmap string string))
  (refs : list SpanReference) : list SpanContext :=
  omap (selfCandidate h) refs.

(** The logger call that a reference of a foreign type causes
    (tracer.go:235-237). *)
Definition foreignError (ref : SpanReference) : option Event :=
  match ReferencedContext ref with
  | ForeignContext descr =>
      Some (EvLoggerError
              ("Reference contains invalid type of SpanReference: " +:+ descr))
  | JaegerContext _ => None
  end.

Definition foreignErrors (refs : list SpanReference) : list Event :=
  omap foreignError refs.

(** The references of the span that the candidates become
    (tracer.go:250). *)
Definition referencesOf (cands : list (SpanReferenceType * SpanContext))
  : list Reference :=
  (fun p => mkReference p.1 p.2) <$> cands.

(** Classes of calls. *)
Definition isLoggerCall (e : Event) : bool :=
  match e with EvLoggerError _ => true | _ => false end.

Definition isClockCall (e : Event) : bool :=
  match e with EvTimeNow => true | _ => false end.

Definition isRandomCall (e : Event) : bool :=
  match e with EvRandomNumber => true | _ => false end.

Definition isThrottlerCall (e : Event) : bool :=
  match e with EvIsDebugAllowed _ => true | _ => false end.

Definition isObserverCall (e : Event) : bool :=
  match e with EvOnStartSpan _ _ | EvOnSetTag _ _ => true | _ => false end.

Definition isAllocatorCall (e : Event) : bool :=
  match e with EvAllocatorGet => true | _ => false end.

(** The calls of the loop over the caller's tags. *)
Definition isTagCall (e : Event) : bool :=
  match e with EvOnSetTag _ _ | EvIsDebugAllowed _ => true | _ => false end.

Definition isMetricCall (e : Event) : bool :=
  match e with EvInc _ _ => true | _ => false end.

(** The calls that the construction of a context can make: the random
    source, the high-word generator, the throttler and the sampler. *)
Definition isDeriveCall (e : Event) : bool :=
  isRandomCall e || isHighTraceIDCall e || isThrottlerCall e || isSamplerCall e.

(** What lines 417-435 add to a counter, for a span that ends up sampled
    or not, in a new trace or not, first in its process or not. *)
Definition expectedInc (c : Counter) (sampled newTrace first : bool) : Z :=
  match c with
  | SpansStartedSampled => if sampled then 1 else 0
  | SpansStartedNotSampled => if sampled then 0 else 1
  | TracesStartedSampled => if sampled && newTrace then 1 else 0
  | TracesStartedNotSampled => if negb sampled && newTrace then 1 else 0
  | TracesJoinedSampled => if sampled && negb newTrace && first then 1 else 0
  | TracesJoinedNotSampled =>
      if negb sampled && negb newTrace && first then 1 else 0
  | SpansFinished => 0
  end.

(** ** Construction of a tracer: NewTracer (tracer.go:77-189) *)

(** [Process], as [NewTracer] fills it (tracer.go:179-183). *)
Record Process := mkProcess {
  Service     : string;
  UUID        : string;
  ProcessTags : list Tag
}.

(** How a Go call ends: with a value or by a run-time panic. *)
Inductive Outcome (A : Type) :=
| Returned (a : A)
| Panicked (reason : string).
Arguments Returned {A} _.
Arguments Panicked {A} _.

(** The double quote, for messages that contain one. *)
Definition dquote : string :=
  String (Ascii.Ascii false true false false false true false false) EmptyString.

Section Construction.
Context {Env Carrier MetricsT ManagerT : Type}.

(** What [NewTracer] takes from outside tracer.go: constants of
    constants.go, constructors of the propagators and of the baggage
    restriction manager, the operating system, the helpers of the utils
    package and strconv.  They are parameters of the model.  A propagator
    implements both [Injector] and [Extractor] and is given as a pair.
    [DefaultThrottler] is the [IsAllowed] method of the default throttler
    and [DefaultThrottler_SetProcess] its [SetProcess] method, if it has
    one; [pooledRandomNumber] is the random source of lines 124-136.  An
    error is given by its message. *)
Record Platform := mkPlatform {
  JaegerClientVersionTagKey : string;
  JaegerClientVersion       : string;
  TracerHostnameTagKey      : string;
  TracerIPTagKey            : string;
  DefaultMaxTagValueLength  : Z;
  NewNullMetrics            : MetricsT;
  NewTextMapPropagator      : MetricsT -> Injector Env Carrier * Extractor Env Carrier;
  NewHTTPHeaderPropagator   : MetricsT -> Injector Env Carrier * Extractor Env Carrier;
  NewBinaryPropagator       : Injector Env Carrier * Extractor Env Carrier;
  jaegerTraceContextPropagator : Injector Env Carrier * Extractor Env Carrier;
  zipkinPropagator          : Injector Env Carrier * Extractor Env Carrier;
  NewDefaultRestrictionManager : ManagerT;
  DefaultThrottler          : string -> Env -> bool * Env;
  DefaultThrottler_SetProcess : option (Process -> Env -> Env);
  pooledRandomNumber        : Env -> Z * Env;
  time_Now                  : Env -> Z * Env;
  os_Hostname               : Env -> option string * Env;
  HostIP                    : Env -> (list Z + string) * Env;
  IP_String                 : list Z -> string;
  PackIPAsUint32            : list Z -> Z;
  ParseIPToUint32           : string -> Z + string;
  FormatUint16              : Z -> string
}.

(** The [Tracer] struct while it is being built.  [core] holds the fields
    that the span life cycle uses.  A function field of Go that may be nil
    is a function together with a flag: the flag tells whether the field is
    set, and the function beside a cleared flag is never called.
    [processSetter] is the [SetProcess] method of the debug throttler when
    the throttler implements [ProcessSetter]. *)
Record TracerStruct := mkTracerStruct {
  core                      : Tracer Env Carrier;
  timeNowSet                : bool;
  randomNumberSet           : bool;
  highTraceIDGeneratorSet   : bool;
  debugThrottlerSet         : bool;
  loggerSet                 : bool;
  processSetter             : option (Process -> Env -> Env);
  hostIPv4                  : Z;
  metrics                   : MetricsT;
  tracerTags                : list Tag;
  process                   : Process;
  baggageRestrictionManager : option ManagerT;
  baggageSetter             : option (ManagerT * MetricsT)
}.

(** [TracerOption]: a function that is applied to the tracer. *)
Definition TracerOption : Type := TracerStruct -> TracerStruct.

Definition setCore (t : TracerStruct) (c : Tracer Env Carrier) : TracerStruct :=
  mkTracerStruct c (timeNowSet t) (randomNumberSet t)
    (highTraceIDGeneratorSet t) (debugThrottlerSet t) (loggerSet t)
    (processSetter t) (hostIPv4 t) (metrics t) (tracerTags t) (process t)
    (baggageRestrictionManager t) (baggageSetter t).

Definition setTracerTags (t : TracerStruct) (l : list Tag) : TracerStruct :=
  mkTracerStruct (core t) (timeNowSet t) (randomNumberSet t)
    (highTraceIDGeneratorSet t) (debugThrottlerSet t) (loggerSet t)
    (processSetter t) (hostIPv4 t) (metrics t) l (process t)
    (baggageRestrictionManager t) (baggageSetter t).

Definition setHostIPv4 (t : TracerStruct) (ip : Z) : TracerStruct :=
  mkTracerStruct (core t) (timeNowSet t) (randomNumberSet t)
    (highTraceIDGeneratorSet t) (debugThrottlerSet t) (loggerSet t)
    (processSetter t) ip (metrics t) (tracerTags t) (process t)
    (baggageRestrictionManager t) (baggageSetter t).

Definition setOptions (c : Tracer Env Carrier) (o : TracerOptions Env)
  : Tracer Env Carrier :=
  mkTracer (serviceName c) (sampler c) (timeNow c) (randomNumber c) o
    (injectors c) (extractors c) (debugThrottler c).

(** [t.getTag] (tracer.go:374): the value of the first tag with the key. *)
Fixpoint getTagIn (l : list Tag) (k : string) : option TagValue :=
  match l with
  | [] => None
  | tag :: rest => if String.eqb (key tag) k then Some (value tag)
                   else getTagIn rest k
  end.

Definition getTag (t : TracerStruct) (k : string) : option TagValue :=
  getTagIn (tracerTags t) k.

(** [t.Tags] (tracer.go:365): the tags as [opentracing.Tag] values. *)
Definition Tracer_Tags (t : TracerStruct) : list (string * TagValue) :=
  (fun tag => (key tag, value tag)) <$> tracerTags t.

(** Lines 83-91: the tracer before the options are applied. *)
Definition initialTracer (pf : Platform) (name : string)
  (smp : TraceID -> string -> Env -> (bool * list Tag) * Env) : TracerStruct :=
  mkTracerStruct
    (mkTracer name smp (fun e => (0, e)) (fun e => (0, e))
       (mkTracerOptions false false (fun e => (0, e)) 0 false)
       ∅ ∅ (fun _ e => (false, e)))
    false false false false false None 0 (NewNullMetrics pf) []
    (mkProcess "" "" []) None None.

(** Lines 93-95. *)
Definition applyOptions (t : TracerStruct) (opts : list TracerOption)
  : TracerStruct :=
  fold_left (fun t option => option t) opts t.

(** Lines 97-112: the built-in codecs, registered unless an option has
    registered one for the format. *)
Definition registerCodecs (pf : Platform) (t : TracerStruct) : TracerStruct :=
  let textPropagator := NewTextMapPropagator pf (metrics t) in
  let c := addCodec (core t) TextMap textPropagator.1 textPropagator.2 in
  let httpHeaderPropagator := NewHTTPHeaderPropagator pf (metrics t) in
  let c := addCodec c HTTPHeaders httpHeaderPropagator.1 httpHeaderPropagator.2 in
  let binaryPropagator := NewBinaryPropagator pf in
  let c := addCodec c Binary binaryPropagator.1 binaryPropagator.2 in
  let interopPropagator := jaegerTraceContextPropagator pf in
  let c := addCodec c SpanContextFormat interopPropagator.1 interopPropagator.2 in
  let zipkin := zipkinPropagator pf in
  let c := addCodec c ZipkinSpanFormat zipkin.1 zipkin.2 in
  setCore t c.

(** Lines 114-143: the baggage setter and the defaults of the throttler,
    the random source, the clock and the logger. *)
Definition installDefaults (pf : Platform) (t : TracerStruct) : TracerStruct :=
  let setter :=
    match baggageRestrictionManager t with
    | Some manager => (manager, metrics t)
    | None => (NewDefaultRestrictionManager pf, metrics t)
    end in
  let c := core t in
  let throttler := if debugThrottlerSet t then debugThrottler c
                   else DefaultThrottler pf in
  let random := if randomNumberSet t then randomNumber c
                else pooledRandomNumber pf in
  let clock := if timeNowSet t then timeNow c else time_Now pf in
  mkTracerStruct
    (mkTracer (serviceName c) (sampler c) clock random (options c)
       (injectors c) (extractors c) throttler)
    true true (highTraceIDGeneratorSet t) true true
    (if debugThrottlerSet t then processSetter t
     else DefaultThrottler_SetProcess pf)
    (hostIPv4 t) (metrics t) (tracerTags t) (process t)
    (baggageRestrictionManager t) (Some setter).

(** Lines 144-151: the version tag and the host name. *)
Definition addHostTags (pf : Platform) (t : TracerStruct) : M Env TracerStruct :=
  let t := setTracerTags t
             (tracerTags t
                ++ [mkTag (JaegerClientVersionTagKey pf)
                          (VString (JaegerClientVersion pf))]) in
  match getTag t (TracerHostnameTagKey pf) with
  | Some _ => ret t
  | None =>
      let* r := liftEnv (os_Hostname pf) in
      match r with
      | Some hostname =>
          ret (setTracerTags t
                 (tracerTags t
                    ++ [mkTag (TracerHostnameTagKey pf) (VString hostname)]))
      | None => ret t
      end
  end.

(** Lines 153-166: the IP address of the host.  The type assertion
    [ipval.(string)] panics on a tag value that is not a string. *)
Definition addIPTag (pf : Platform) (t : TracerStruct)
  : M Env (Outcome TracerStruct) :=
  match getTag t (TracerIPTagKey pf) with
  | Some ipval =>
      match ipval with
      | VString s =>
          match ParseIPToUint32 pf s with
          | inr err =>
              call (EvLoggerError
                      ("Unable to convert the externally provided ip to uint32: "
                         +:+ err)) >>
              ret (Returned (setHostIPv4 t 0))
          | inl ipv4 => ret (Returned (setHostIPv4 t ipv4))
          end
      | _ =>
          ret (Panicked "interface conversion: interface {} is not string")
      end
  | None =>
      let* r := liftEnv (HostIP pf) in
      match r with
      | inl ip =>
          ret (Returned
                 (setHostIPv4
                    (setTracerTags t
                       (tracerTags t
                          ++ [mkTag (TracerIPTagKey pf) (VString (IP_String pf ip))]))
                    (PackIPAsUint32 pf ip)))
      | inr err =>
          call (EvLoggerError
                  ("Unable to determine this host's IP address: " +:+ err)) >>
          ret (Returned t)
      end
  end.

(** Lines 168-178: the generator of the high word and the bound on tag
    values. *)
Definition finishOptions (pf : Platform) (t : TracerStruct) : M Env TracerStruct :=
  let c := core t in
  let o := options c in
  let* t :=
    (if gen128Bit o then
       if highTraceIDGeneratorSet t then ret t
       else
         ret (mkTracerStruct
                (setOptions c
                   (mkTracerOptions (gen128Bit o) (zipkinSharedRPCSpan o)
                      (randomNumber c) (maxTagValueLength o)
                      (noDebugFlagOnForcedSampling o)))
                (timeNowSet t) (randomNumberSet t) true (debugThrottlerSet t)
                (loggerSet t) (processSetter t) (hostIPv4 t) (metrics t)
                (tracerTags t) (process t) (baggageRestrictionManager t)
                (baggageSetter t))
     else if highTraceIDGeneratorSet t then
       call (EvLoggerError
               ("Overriding high trace ID generator but not generating "
                  +:+ "128 bit trace IDs, consider enabling the "
                  +:+ dquote +:+ "Gen128Bit" +:+ dquote +:+ " option")) >>
       ret t
     else ret t) in
  let c := core t in
  let o := options c in
  if maxTagValueLength o =? 0 then
    ret (setCore t
           (setOptions c
              (mkTracerOptions (gen128Bit o) (zipkinSharedRPCSpan o)
                 (highTraceIDGenerator o) (DefaultMaxTagValueLength pf)
                 (noDebugFlagOnForcedSampling o))))
  else ret t.

(** Lines 179-186: the process, announced to a throttler that wants it. *)
Definition describeProcess (pf : Platform) (name : string) (t : TracerStruct)
  : M Env TracerStruct :=
  let* n := callRandomNumber (core t) in
  let p := mkProcess name (FormatUint16 pf n) (tracerTags t) in
  let t := mkTracerStruct (core t) (timeNowSet t) (randomNumberSet t)
             (highTraceIDGeneratorSet t) (debugThrottlerSet t) (loggerSet t)
             (processSetter t) (hostIPv4 t) (metrics t) (tracerTags t) p
             (baggageRestrictionManager t) (baggageSetter t) in
  match processSetter t with
  | Some SetProcess => liftEnv (fun e => (tt, SetProcess p e)) >> ret t
  | None => ret t
  end.

Definition NewTracer (pf : Platform) (name : string)
  (smp : TraceID -> string -> Env -> (bool * list Tag) * Env)
  (opts : list TracerOption) : M Env (Outcome TracerStruct) :=
  let t := initialTracer pf name smp in
  let t := applyOptions t opts in
  let t := registerCodecs pf t in
  let t := installDefaults pf t in
  let* t := addHostTags pf t in
  let* r := addIPTag pf t in
  match r with
  | Panicked reason => ret (Panicked reason)
  | Returned t =>
      let* t := finishOptions pf t in
      let* t := describeProcess pf name t in
      ret (Returned t)
  end.
End Construction.

Arguments Platform : clear implicits.
Arguments TracerStruct : clear implicits.
Arguments TracerOption : clear implicits.

(** ** Vocabulary of the properties of the construction *)

Section ConstructionVocabulary.
Context {Env Carrier MetricsT ManagerT : Type}.

(** The tracer as the options leave it (tracer.go:83-95). *)
Definition configured (pf : Platform Env Carrier MetricsT ManagerT)
  (name : string) (smp : TraceID -> string -> Env -> (bool * list Tag) * Env)
  (opts : list (TracerOption Env Carrier MetricsT ManagerT))
  : TracerStruct Env Carrier MetricsT ManagerT :=
  applyOptions (initialTracer pf name smp) opts.

(** The five registrations of lines 97-112, in their order. *)
Definition builtinCodecs (pf : Platform Env Carrier MetricsT ManagerT)
  (m : MetricsT) : list (Format * Injector Env Carrier * Extractor Env Carrier) :=
  [ (TextMap, (NewTextMapPropagator pf m).1, (NewTextMapPropagator pf m).2);
    (HTTPHeaders, (NewHTTPHeaderPropagator pf m).1, (NewHTTPHeaderPropagator pf m).2);
    (Binary, (NewBinaryPropagator pf).1, (NewBinaryPropagator pf).2);
    (SpanContextFormat, (jaegerTraceContextPropagator pf).1,
       (jaegerTraceContextPropagator pf).2);
    (ZipkinSpanFormat, (zipkinPropagator pf).1, (zipkinPropagator pf).2) ].

Definition versionTag (pf : Platform Env Carrier MetricsT ManagerT) : Tag :=
  mkTag (JaegerClientVersionTagKey pf) (VString (JaegerClientVersion pf)).

Definition isStringValue (v : TagValue) : bool :=
  match v with VString _ => true | _ => false end.

Definition isPanicked {A} (r : Outcome A) : bool :=
  match r with Panicked _ => true | Returned _ => false end.

(** The message of line 157 and the one of line 165. *)
Definition ipParseError (err : string) : Event :=
  EvLoggerError ("Unable to convert the externally provided ip to uint32: " +:+ err).
Definition hostIPError (err : string) : Event :=
  EvLoggerError ("Unable to determine this host's IP address: " +:+ err).

(** The message of lines 173-174. *)
Definition generatorError : Event :=
  EvLoggerError
    ("Overriding high trace ID generator but not generating "
       +:+ "128 bit trace IDs, consider enabling the "
       +:+ dquote +:+ "Gen128Bit" +:+ dquote +:+ " option").

Definition isGeneratorError (e : Event) : bool :=
  match e, generatorError with
  | EvLoggerError m, EvLoggerError m' => String.eqb m m'
  | _, _ => false
  end.

(** Two tracers that differ at most in their tags and in [hostIPv4]. *)
Definition sameButHost (t t' : TracerStruct Env Carrier MetricsT ManagerT) : Prop :=
  core t' = core t
  /\ timeNowSet t' = timeNowSet t
  /\ randomNumberSet t' = randomNumberSet t
  /\ highTraceIDGeneratorSet t' = highTraceIDGeneratorSet t
  /\ debugThrottlerSet t' = debugThrottlerSet t
  /\ loggerSet t' = loggerSet t
  /\ processSetter t' = processSetter t
  /\ metrics t' = metrics t
  /\ process t' = process t
  /\ baggageRestrictionManager t' = baggageRestrictionManager t
  /\ baggageSetter t' = baggageSetter t.
End ConstructionVocabulary.

(** ** A concrete platform, used to run the construction *)

Module DemoPlatform.
Definition textInjector : Injector Demo.Env Demo.Carrier :=
  fun c carrier w => (None, w).
Definition textExtractor : Extractor Demo.Env Demo.Carrier :=
  fun carrier w => ((Demo.ctxA, None), w).

(** The only address that parses. *)
Definition parseIP (s : string) : Z + string :=
  if String.eqb s "10.0.0.1" then inl 167772161 else inr "invalid IP".

(** A host named node1 at 192.168.0.7; the environment counts the calls of
    the operating system and of the random source. *)
Definition platform : Platform Demo.Env Demo.Carrier unit unit :=
  mkPlatform "jaeger.version" "Go-2.15.0" "hostname" "ip" 256 tt
    (fun _ => (textInjector, textExtractor))
    (fun _ => (textInjector, textExtractor))
    (Demo.nullInjector, Demo.failingExtractor)
    (Demo.nullInjector, Demo.failingExtractor)
    (Demo.nullInjector, Demo.failingExtractor)
    tt Demo.allowAll None
    (fun e => (7, S e)) Demo.clock
    (fun e => (Some "node1", S e))
    (fun e => (inl [192; 168; 0; 7], S e))
    (fun _ => "192.168.0.7")
    (fun _ => 3232235527)
    parseIP
    (fun n => if n =? 7 then "7" else "0").

(** A platform without network: neither the host name nor the address can
    be determined. *)
Definition offline : Platform Demo.Env Demo.Carrier unit unit :=
  mkPlatform "jaeger.version" "Go-2.15.0" "hostname" "ip" 256 tt
    (fun _ => (textInjector, textExtractor))
    (fun _ => (textInjector, textExtractor))
    (Demo.nullInjector, Demo.failingExtractor)
    (Demo.nullInjector, Demo.failingExtractor)
    (Demo.nullInjector, Demo.failingExtractor)
    tt Demo.allowAll None
    (fun e => (7, S e)) Demo.clock
    (fun e => (None, S e))
    (fun e => (inr "no address", S e))
    (fun _ => "")
    (fun _ => 0)
    parseIP
    (fun n => if n =? 7 then "7" else "0").

(** Options in the style of tracer_options.go: a tracer-level tag, a codec,
    a random source, a generator of the high word, 128-bit trace IDs. *)
Definition tagOption (k : string) (v : TagValue)
  : TracerOption Demo.Env Demo.Carrier unit unit :=
  fun t => setTracerTags t (tracerTags t ++ [mkTag k v]).

Definition injectorOption (f : Format) (i : Injector Demo.Env Demo.Carrier)
  : TracerOption Demo.Env Demo.Carrier unit unit :=
  fun t =>
    let c := core t in
    setCore t (mkTracer (serviceName c) (sampler c) (timeNow c) (randomNumber c)
                 (options c) (<[f := i]> (injectors c)) (extractors c)
                 (debugThrottler c)).

Definition randomOption (r : Demo.Env -> Z * Demo.Env)
  : TracerOption Demo.Env Demo.Carrier unit unit :=
  fun t =>
    let c := core t in
    mkTracerStruct
      (mkTracer (serviceName c) (sampler c) (timeNow c) r (options c)
         (injectors c) (extractors c) (debugThrottler c))
      (timeNowSet t) true (highTraceIDGeneratorSet t) (debugThrottlerSet t)
      (loggerSet t) (processSetter t) (hostIPv4 t) (metrics t) (tracerTags t)
      (process t) (baggageRestrictionManager t) (baggageSetter t).

Definition highGeneratorOption (g : Demo.Env -> Z * Demo.Env)
  : TracerOption Demo.Env Demo.Carrier unit unit :=
  fun t =>
    let c := core t in
    let o := options c in
    mkTracerStruct
      (setOptions c (mkTracerOptions (gen128Bit o) (zipkinSharedRPCSpan o) g
                       (maxTagValueLength o) (noDebugFlagOnForcedSampling o)))
      (timeNowSet t) (randomNumberSet t) true (debugThrottlerSet t)
      (loggerSet t) (processSetter t) (hostIPv4 t) (metrics t) (tracerTags t)
      (process t) (baggageRestrictionManager t) (baggageSetter t).

Definition gen128BitOption : TracerOption Demo.Env Demo.Carrier unit unit :=
  fun t =>
    let c := core t in
    let o := options c in
    setCore t
      (setOptions c (mkTracerOptions true (zipkinSharedRPCSpan o)
                       (highTraceIDGenerator o) (maxTagValueLength o)
                       (noDebugFlagOnForcedSampling o))).

(** A throttler that wants the process: it allows everything and counts
    the announcement in the environment. *)
Definition throttlerOption : TracerOption Demo.Env Demo.Carrier unit unit :=
  fun t =>
    let c := core t in
    mkTracerStruct
      (mkTracer (serviceName c) (sampler c) (timeNow c) (randomNumber c)
         (options c) (injectors c) (extractors c) Demo.allowAll)
      (timeNowSet t) (randomNumberSet t) (highTraceIDGeneratorSet t) true
      (loggerSet t) (Some (fun _ e => (e + 100)%nat)) (hostIPv4 t) (metrics t)
      (tracerTags t) (process t) (baggageRestrictionManager t) (baggageSetter t).

Definition world : World Demo.Env := mkWorld 0%nat ∅ [].
End DemoPlatform.
(** * Properties *)

(** Unfolding of the state-passing combinators. *)
Ltac unfold_m :=
  unfold bind, ret, call, liftEnv, liftWorld, getHeap, putHeap in *.

Ltac step_m := unfold_m; cbn [env heap calls fst snd] in *.

(** ** Reference resolution *)

Section ResolutionFacts.
Context {Env Carrier : Type}.
Implicit Types (w : World Env) (acc res : Resolution) (t : Tracer Env Carrier).

(** One iteration returns, and touches neither the environment nor the
    heap. *)
Lemma resolveStep_frame acc ref w :
  exists acc' evs,
    resolveStep acc ref w
    = Some (acc', mkWorld (env w) (heap w) (calls w ++ evs))
    /\ res_startTime acc' = res_startTime acc.
Proof.
  unfold resolveStep.
  destruct (ReferencedContext ref) as [c|d]; step_m.
  - destruct (isValidReference (heap w) c); cbn.
    + destruct (Type_ ref); cbn; [| |];
        try destruct (res_hasParent acc); cbn;
        eexists _, []; rewrite app_nil_r; destruct w; split; reflexivity.
    + eexists _, []; rewrite app_nil_r; destruct w; split; reflexivity.
  - eexists _, [_]. split; reflexivity.
Qed.

Lemma resolveLoop_frame refs : forall acc w,
  exists acc' evs,
    resolveLoop acc refs w
    = Some (acc', mkWorld (env w) (heap w) (calls w ++ evs))
    /\ res_startTime acc' = res_startTime acc.
Proof.
  induction refs as [|ref refs IH]; intros acc w; cbn [resolveLoop].
  - exists acc, []. rewrite app_nil_r. destruct w. split; reflexivity.
  - destruct (resolveStep_frame acc ref w) as (acc1 & evs1 & E1 & T1).
    unfold bind at 1. rewrite E1.
    destruct (IH acc1 (mkWorld (env w) (heap w) (calls w ++ evs1)))
      as (acc2 & evs2 & E2 & T2).
    rewrite E2. cbn [env heap calls].
    exists acc2, (evs1 ++ evs2). rewrite app_assoc. split; [reflexivity|congruence].
Qed.

(** What one iteration does to the parent, in terms of the candidate that
    the reference yields. *)
Lemma resolveStep_parent acc ref w acc' w' :
  resolveStep acc ref w = Some (acc', w') ->
  match candidate (heap w) ref with
  | None =>
      res_parent acc' = res_parent acc /\ res_hasParent acc' = res_hasParent acc
  | Some p =>
      if res_hasParent acc
      then res_parent acc' = res_parent acc /\ res_hasParent acc' = true
      else res_parent acc' = p.2 /\ res_hasParent acc' = isChildOf p
  end.
Proof.
  unfold resolveStep, candidate.
  destruct (ReferencedContext ref) as [c|d]; step_m.
  - destruct (isValidReference (heap w) c); cbn.
    + destruct (Type_ ref); cbn;
        try (destruct (res_hasParent acc) eqn:HP; cbn);
        intros [= <- <-]; cbn; auto.
    + destruct (Type_ ref); intros [= <- <-]; auto.
  - intros [= <- <-]; auto.
Qed.

Lemma resolveLoop_parent refs : forall acc w acc' w',
  resolveLoop acc refs w = Some (acc', w') ->
  if res_hasParent acc
  then res_parent acc' = res_parent acc /\ res_hasParent acc' = true
  else match firstChildOf (candidates (heap w) refs) with
       | Some c => res_parent acc' = c /\ res_hasParent acc' = true
       | None =>
           res_parent acc'
           = default (res_parent acc) (last ((candidates (heap w) refs).*2))
           /\ res_hasParent acc' = false
       end.
Proof.
  induction refs as [|ref refs IH]; intros acc w acc' w'; cbn [resolveLoop].
  - intros [= <- <-]. destruct (res_hasParent acc) eqn:HP; cbn; auto.
  - unfold bind at 1.
    destruct (resolveStep_frame acc ref w) as (acc1 & evs1 & E1 & _).
    rewrite E1. intros Hloop.
    pose proof (resolveStep_parent _ _ _ _ _ E1) as Hstep.
    specialize (IH _ _ _ _ Hloop). cbn [heap] in IH.
    unfold candidates. cbn [omap list_omap].
    fold (candidates (heap w) refs).
    destruct (candidate (heap w) ref) as [p|] eqn:Hc.
    + destruct (res_hasParent acc) eqn:HP.
      * destruct Hstep as [Hp Hh]. rewrite Hh in IH. rewrite <- Hp. exact IH.
      * destruct Hstep as [Hp Hh]. cbn [firstChildOf].
        rewrite Hh in IH. destruct (isChildOf p) eqn:Hco.
        -- rewrite <- Hp. exact IH.
        -- destruct (firstChildOf (candidates (heap w) refs)); [exact IH|].
           destruct IH as [-> ->]. split; [|reflexivity].
           rewrite Hp. cbn [fmap list_fmap].
           destruct ((candidates (heap w) refs).*2) as [|x l] eqn:El using rev_ind.
           ++ reflexivity.
           ++ rewrite app_comm_cons, !last_snoc. reflexivity.
    + destruct Hstep as [Hp Hh]. rewrite Hh, Hp in IH. exact IH.
Qed.

(** Every candidate is a reference that [isValidReference] accepts. *)
Lemma candidates_usable h refs c :
  c ∈ (candidates h refs).*2 -> isValidReference h c = true.
Proof.
  unfold candidates. intros Hin.
  apply list_elem_of_fmap in Hin as ([ty c'] & -> & Hin).
  apply list_elem_of_omap in Hin as (ref & _ & Hc).
  unfold candidate in Hc.
  destruct (ReferencedContext ref) as [c0|]; [|discriminate].
  destruct (Type_ ref); try discriminate;
    destruct (isValidReference h c0) eqn:Hv; try discriminate;
    injection Hc as <- <-; exact Hv.
Qed.

Lemma firstChildOf_elem (cands : list (SpanReferenceType * SpanContext)) c :
  firstChildOf cands = Some c -> c ∈ cands.*2.
Proof.
  induction cands as [|p cands IH]; cbn; [discriminate|].
  destruct (isChildOf p).
  - intros [= <-]. left.
  - intros H. right. auto.
Qed.

Lemma isValidReference_emptyContext h : isValidReference h emptyContext = false.
Proof. reflexivity. Qed.

(** [resolveReferences] always returns; it leaves the heap alone. *)
Lemma resolveReferences_total t opts w :
  exists res w',
    resolveReferences t opts w = Some (res, w') /\ heap w' = heap w.
Proof.
  unfold resolveReferences.
  destruct (StartTime opts =? 0).
  - unfold callTimeNow. step_m.
    destruct (timeNow t (env w)) as [now e'] eqn:Ht. cbn.
    match goal with |- context [resolveLoop ?a ?r ?w0] =>
      destruct (resolveLoop_frame r a w0) as (acc & evs & E & _) end.
    rewrite E. cbn.
    destruct (negb (res_hasParent acc) && isValidReference (heap w) (res_parent acc));
      eexists _, _; split; reflexivity.
  - step_m.
    match goal with |- context [resolveLoop ?a ?r ?w0] =>
      destruct (resolveLoop_frame r a w0) as (acc & evs & E & _) end.
    rewrite E. cbn.
    destruct (negb (res_hasParent acc) && isValidReference (heap w) (res_parent acc));
      eexists _, _; split; reflexivity.
Qed.
End ResolutionFacts.

Section ParentResolution.
Context {Env Carrier : Type}.

(** C1 (as the code has it).  For every ordered list of references handed to
    [StartSpan], [startSpanWithOptions] resolves the parent as follows:
    after dropping the references whose context is unusable (not of this
    tracer's type, or neither valid, nor debug-id-only, nor
    baggage-bearing) and the self-references, the parent is the first
    [ChildOf] reference that remains; if no [ChildOf] reference remains,
    the parent is the LAST remaining reference, of any type, in the
    caller's order; if nothing remains there is no parent. *)
Theorem resolveReferences_parent (t : Tracer Env Carrier) (opts : StartSpanOptions)
  (w : World Env) :
  exists res w',
    resolveReferences t opts w = Some (res, w')
    /\ resolvedParent res = loopParent (candidates (heap w) (References opts)).
Proof.
  destruct (resolveReferences_total t opts w) as (res & w' & E & _).
  exists res, w'. split; [exact E|].
  revert E. unfold resolveReferences, bind at 1.
  assert (Hstart : exists start w0,
             (if StartTime opts =? 0 then callTimeNow t else ret (StartTime opts)) w
             = Some (start, w0) /\ heap w0 = heap w).
  { destruct (StartTime opts =? 0).
    - unfold callTimeNow. step_m. destruct (timeNow t (env w)); eauto.
    - step_m. eauto. }
  destruct Hstart as (start & w0 & -> & Hh).
  unfold bind at 1.
  destruct (resolveLoop_frame (References opts)
              (mkResolution start [] emptyContext false emptyContext false) w0)
    as (acc & evs & Eloop & _).
  rewrite Eloop. step_m.
  pose proof (resolveLoop_parent _ _ _ _ _ Eloop) as HP.
  cbn [res_hasParent res_parent] in HP. rewrite Hh in *.
  unfold loopParent, resolvedParent.
  destruct (firstChildOf (candidates (heap w) (References opts))) as [c|] eqn:Hfc.
  - destruct HP as [Hp Hhas]. rewrite Hhas. cbn.
    intros [= <- _]. rewrite Hhas, Hp. reflexivity.
  - destruct HP as [Hp Hhas]. rewrite Hhas, Hp. cbn [negb andb].
    destruct (last ((candidates (heap w) (References opts)).*2)) as [c|] eqn:Hl.
    + cbn [default from_option id].
      rewrite (candidates_usable (heap w) (References opts) c).
      * intros [= <- _]. reflexivity.
      * apply last_Some_elem_of. exact Hl.
    + cbn [default from_option id]. rewrite isValidReference_emptyContext.
      intros [= <- _]. rewrite Hhas. reflexivity.
Qed.
End ParentResolution.

(** C1 (as the specification words it) fails: with two follows-from
    references and no child-of reference the code takes the second one as
    the parent, the specification the first one. *)
Lemma first_usable_parent_counterexample :
  Forall (fun ref => Type_ ref <> selfRefType) (References Demo.followsFromTwice)
  /\ (resolvedParent <$>
        (fst <$> resolveReferences (Demo.tracer false) Demo.followsFromTwice Demo.world0))
     = Some (Some Demo.ctxB)
  /\ specParent (candidates (heap Demo.world0) (References Demo.followsFromTwice))
     = Some Demo.ctxA
  /\ Demo.ctxA <> Demo.ctxB.
Proof.
  split; [|split; [|split]].
  - repeat constructor; discriminate.
  - vm_compute. reflexivity.
  - vm_compute. reflexivity.
  - discriminate.
Qed.

(** ** Identifier generation *)

Section RandomID.
Context {Env Carrier : Type}.
Implicit Types (w : World Env) (t : Tracer Env Carrier).

Lemma callRandomNumber_eq t w :
  callRandomNumber t w = Some (nextDraw t w, afterDraws t 1 w).
Proof.
  unfold nextDraw. cbn [afterDraws]. unfold callRandomNumber. step_m.
  destruct (randomNumber t (env w)); reflexivity.
Qed.

Lemma afterDraws_S t n w :
  afterDraws t (S n) w = afterDraws t n (afterDraws t 1 w).
Proof.
  cbn [afterDraws]. rewrite callRandomNumber_eq. reflexivity.
Qed.

Lemma afterDraws_frame t n : forall w,
  heap (afterDraws t n w) = heap w
  /\ calls (afterDraws t n w) = calls w ++ replicate n EvRandomNumber.
Proof.
  induction n as [|n IH]; intros w.
  - cbn. rewrite app_nil_r. auto.
  - rewrite afterDraws_S. destruct (IH (afterDraws t 1 w)) as [-> ->].
    cbn [afterDraws]. unfold callRandomNumber. step_m.
    destruct (randomNumber t (env w)); cbn.
    split; [reflexivity|]. rewrite <- app_assoc. reflexivity.
Qed.

(** A value that leaves the loop is not zero. *)
Lemma randomID_loop_nonzero t fuel : forall val w v w',
  randomID_loop fuel t val w = Some (v, w') -> v <> 0.
Proof.
  induction fuel as [|fuel IH]; intros val w v w'; cbn [randomID_loop];
    destruct (val =? 0) eqn:Hz.
  - discriminate.
  - unfold ret. intros [= <- _]. apply Z.eqb_neq. exact Hz.
  - unfold bind. rewrite callRandomNumber_eq. apply IH.
  - unfold ret. intros [= <- _]. apply Z.eqb_neq. exact Hz.
Qed.

Lemma randomID_nonzero t fuel w v w' :
  randomID fuel t w = Some (v, w') -> v <> 0.
Proof.
  unfold randomID, bind. rewrite callRandomNumber_eq.
  apply randomID_loop_nonzero.
Qed.

(** When the loop runs on a zero it draws again: one more round of
    [randomID]. *)
Lemma randomID_retry t fuel w :
  nextDraw t w = 0 ->
  randomID (S fuel) t w = randomID fuel t (afterDraws t 1 w).
Proof.
  intros Hz. unfold randomID at 1, bind. rewrite callRandomNumber_eq, Hz.
  reflexivity.
Qed.

Lemma randomID_first t fuel w :
  nextDraw t w <> 0 ->
  randomID fuel t w = Some (nextDraw t w, afterDraws t 1 w).
Proof.
  intros Hnz. unfold randomID, bind. rewrite callRandomNumber_eq.
  apply Z.eqb_neq in Hnz. destruct fuel; cbn [randomID_loop]; rewrite Hnz;
    reflexivity.
Qed.

(** If the [n]-th further draw is not zero, [n] rounds of the loop are
    enough, and more fuel does not change the result. *)
Lemma randomID_enough_fuel t n : forall w,
  nextDraw t (afterDraws t n w) <> 0 ->
  exists v k,
    v <> 0 /\ (k <= n)%nat /\
    forall fuel, (n <= fuel)%nat ->
      randomID fuel t w = Some (v, afterDraws t (S k) w).
Proof.
  induction n as [|n IH]; intros w Hn.
  - cbn [afterDraws] in Hn. exists (nextDraw t w), 0%nat.
    split; [exact Hn|]. split; [lia|]. intros fuel _.
    apply randomID_first. exact Hn.
  - destruct (Z.eq_dec (nextDraw t w) 0) as [Hz|Hnz].
    + rewrite afterDraws_S in Hn.
      destruct (IH _ Hn) as (v & k & Hv & Hk & Hrun).
      exists v, (S k). split; [exact Hv|]. split; [lia|].
      intros [|fuel] Hle; [lia|].
      rewrite randomID_retry by exact Hz.
      rewrite Hrun by lia. rewrite (afterDraws_S t (S k)). reflexivity.
    + exists (nextDraw t w), 0%nat. split; [exact Hnz|]. split; [lia|].
      intros fuel _. apply randomID_first. exact Hnz.
Qed.

(** The world after [randomID]: only draws happened. *)
Lemma randomID_frame t fuel : forall w v w',
  randomID fuel t w = Some (v, w') ->
  exists k, w' = afterDraws t (S k) w.
Proof.
  induction fuel as [|fuel IH]; intros w v w' H.
  - destruct (Z.eq_dec (nextDraw t w) 0) as [Hz|Hnz].
    + revert H. unfold randomID, bind. rewrite callRandomNumber_eq, Hz.
      discriminate.
    + rewrite randomID_first in H by exact Hnz. injection H as _ <-.
      exists 0%nat. reflexivity.
  - destruct (Z.eq_dec (nextDraw t w) 0) as [Hz|Hnz].
    + rewrite randomID_retry in H by exact Hz.
      destruct (IH _ _ _ H) as [k ->]. exists (S k).
      rewrite (afterDraws_S t (S k)). reflexivity.
    + rewrite randomID_first in H by exact Hnz. injection H as _ <-.
      exists 0%nat. reflexivity.
Qed.

(** C9.  Provided that the random source of the tracer yields a non-zero
    value at some point, [randomID] returns, and the identifier it returns
    is not 0: the loop draws again as long as the value is 0.  (And whenever
    [randomID] returns at all, what it returns is not 0.) *)
Theorem randomID_never_zero t w :
  (exists n, nextDraw t (afterDraws t n w) <> 0) ->
  (exists v w' fuel0,
      v <> 0 /\
      forall fuel, (fuel0 <= fuel)%nat -> randomID fuel t w = Some (v, w'))
  /\ (forall fuel v w', randomID fuel t w = Some (v, w') -> v <> 0).
Proof.
  intros [n Hn]. split.
  - destruct (randomID_enough_fuel t n w Hn) as (v & k & Hv & _ & Hrun).
    exists v, (afterDraws t (S k) w), n. split; [exact Hv|exact Hrun].
  - intros fuel v w'. apply randomID_nonzero.
Qed.
End RandomID.

(** C9 at the demo tracer, whose source yields 0, 0, 7, ... *)
Lemma randomID_never_zero_witness :
  (exists v w' fuel0,
      v <> 0 /\
      forall fuel, (fuel0 <= fuel)%nat ->
        randomID fuel (Demo.tracer false) Demo.world0 = Some (v, w'))
  /\ (forall fuel v w',
        randomID fuel (Demo.tracer false) Demo.world0 = Some (v, w') -> v <> 0).
Proof.
  apply (randomID_never_zero (Demo.tracer false) Demo.world0).
  exists 2%nat. vm_compute. discriminate.
Defined.

(** ** The codec registry *)

Section Codecs.
Context {Env Carrier : Type}.
Implicit Types (w : World Env) (t : Tracer Env Carrier) (format : Format).

(** One [addCodec] call, read back at any key. *)
Lemma addCodec_lookup t format (i : Injector Env Carrier)
  (e : Extractor Env Carrier) (f : Format) :
  injectors (addCodec t format i e) !! f
  = (if decide (format = f)
     then Some (default i (injectors t !! format))
     else injectors t !! f)
  /\ extractors (addCodec t format i e) !! f
     = (if decide (format = f)
        then Some (default e (extractors t !! format))
        else extractors t !! f).
Proof.
  unfold addCodec. cbn [injectors extractors].
  split.
  - destruct (injectors t !! format) as [i0|] eqn:Hi.
    + destruct (decide (format = f)) as [<-|]; [exact Hi|reflexivity].
    + rewrite lookup_insert. destruct (decide (format = f)); reflexivity.
  - destruct (extractors t !! format) as [e0|] eqn:He.
    + destruct (decide (format = f)) as [<-|]; [exact He|reflexivity].
    + rewrite lookup_insert. destruct (decide (format = f)); reflexivity.
Qed.

(** C6.  After any sequence of [addCodec] calls, the injector (and,
    separately, the extractor) registered for a format key is the one that
    was there before the sequence if there was one, and otherwise the one
    of the first call of the sequence for that key: later calls for a key
    that is already present change nothing, and a call for a fresh key
    adds both its injector and its extractor.  The first two conjuncts say
    the same of a single call. *)
Theorem addCodec_first_registration_wins t
  (regs : list (Format * Injector Env Carrier * Extractor Env Carrier))
  (format : Format) (i : Injector Env Carrier) (e : Extractor Env Carrier) :
  injectors (addCodec t format i e) !! format
  = Some (default i (injectors t !! format))
  /\ extractors (addCodec t format i e) !! format
     = Some (default e (extractors t !! format))
  /\ injectors (addCodecs t regs) !! format
     = match injectors t !! format with
       | Some i0 => Some i0
       | None => fst <$> firstRegistration format regs
       end
  /\ extractors (addCodecs t regs) !! format
     = match extractors t !! format with
       | Some e0 => Some e0
       | None => snd <$> firstRegistration format regs
       end.
Proof.
  split; [|split].
  - destruct (addCodec_lookup t format i e format) as [H _].
    rewrite H. destruct (decide (format = format)); [reflexivity|congruence].
  - destruct (addCodec_lookup t format i e format) as [_ H].
    rewrite H. destruct (decide (format = format)); [reflexivity|congruence].
  - clear i e. revert t.
    induction regs as [|[[f i] e] regs IH]; intros t.
    + cbn. split; destruct (_ !! format); reflexivity.
    + unfold addCodecs in *. cbn [fold_left fst snd firstRegistration].
      destruct (IH (addCodec t f i e)) as [IHi IHe].
      rewrite IHi, IHe.
      destruct (addCodec_lookup t f i e format) as [-> ->].
      destruct (decide (f = format)) as [->|Hne].
      * split.
        -- destruct (injectors t !! format); reflexivity.
        -- destruct (extractors t !! format); reflexivity.
      * split; reflexivity.
Qed.

(** ** Inject and Extract *)


(** C10.  [Inject] checks the type of the context before it looks the
    format up: with a context that is not this tracer's [SpanContext] and a
    format key that has no registered injector, the error is
    [ErrInvalidSpanContext], not [ErrUnsupportedFormat]. *)
Theorem Inject_checks_context_type_first t format (carrier : Carrier) w descr :
  injectors t !! format = None ->
  Inject t (ForeignContext descr) format carrier w
  = Some (Some ErrInvalidSpanContext, w)
  /\ Inject t (ForeignContext descr) format carrier w
     <> Some (Some ErrUnsupportedFormat, w).
Proof.
  intros _. split; [reflexivity|]. cbn. unfold ret. intros [=].
Qed.

(** ** reportSpan *)

(** C8.  [reportSpan] returns after exactly these calls: one increment, by
    one, of the finished-span counter; then the reporter's [Report] on the
    span if and only if the context of the span has the sampled flag; then
    [Release] on the span, in every case.  Nothing else is called and no
    other span is reported or released. *)
Theorem reportSpan_effects t (sp : Span) w :
  exists evs,
    reportSpan t sp w = Some (tt, mkWorld (env w) (heap w) (calls w ++ evs))
    /\ length (filter (fun e => isIncOf SpansFinished e = true) evs) = 1%nat
    /\ counterTotal SpansFinished evs = 1
    /\ filter (fun e => isReport e = true) evs
       = (if IsSampled (context sp) then [EvReport sp] else [])
    /\ filter (fun e => isRelease e = true) evs = [EvRelease sp]
    /\ last evs = Some (EvRelease sp).
Proof.
  unfold reportSpan, Release. step_m.
  destruct (IsSampled (context sp)); step_m.
  - exists [EvInc SpansFinished 1; EvReport sp; EvRelease sp].
    rewrite <- !app_assoc. repeat split.
  - exists [EvInc SpansFinished 1; EvRelease sp].
    rewrite <- !app_assoc. repeat split.
Qed.
End Codecs.



(** C10 at the demo tracer. *)
Lemma Inject_checks_context_type_first_witness :
  Inject (Demo.tracer false) (ForeignContext "noop") ZipkinSpanFormat []
    Demo.world0
  = Some (Some ErrInvalidSpanContext, Demo.world0)
  /\ Inject (Demo.tracer false) (ForeignContext "noop") ZipkinSpanFormat []
       Demo.world0
     <> Some (Some ErrUnsupportedFormat, Demo.world0).
Proof.
  apply (Inject_checks_context_type_first (Demo.tracer false) ZipkinSpanFormat
           [] Demo.world0 "noop").
  vm_compute. reflexivity.
Defined.

(** ** startSpanInternal *)

Section Internal.
Context {Env Carrier : Type}.
Implicit Types (w : World Env) (t : Tracer Env Carrier) (sp : Span).

Lemma sameIdentity_refl c : sameIdentity c c.
Proof. repeat split. Qed.

Lemma sameIdentity_trans c1 c2 c3 :
  sameIdentity c1 c2 -> sameIdentity c2 c3 -> sameIdentity c1 c3.
Proof.
  unfold sameIdentity. intros (?&?&?&?&?) (?&?&?&?&?).
  repeat split; congruence.
Qed.

Lemma sameHeader_refl sp : sameHeader sp sp.
Proof. repeat split. Qed.

Lemma sameHeader_trans sp1 sp2 sp3 :
  sameHeader sp1 sp2 -> sameHeader sp2 sp3 -> sameHeader sp1 sp3.
Proof.
  unfold sameHeader. intros (?&?&?&?&?) (?&?&?&?&?).
  repeat split; congruence.
Qed.

(** Two contexts with the same identity and the same flags are equal. *)
Lemma context_eq (c1 c2 : SpanContext) :
  sameIdentity c1 c2 -> flags c1 = flags c2 -> c1 = c2.
Proof.
  destruct c1, c2. unfold sameIdentity. cbn. intros (?&?&?&?&?) ?. congruence.
Qed.

(** [setSamplingPriority] returns; it only touches the flags, asks the
    throttler when [asksThrottler] says so and nobody else, and leaves the
    heap alone. *)
Lemma setSamplingPriority_spec t sp (v : TagValue) w :
  exists sp',
    setSamplingPriority t sp v w
    = Some ((priorityAccepted t (operationName sp) (env w) v, sp'),
            mkWorld (if asksThrottler t v
                     then (debugThrottler t (operationName sp) (env w)).2
                     else env w)
              (heap w)
              (calls w ++ (if asksThrottler t v
                           then [EvIsDebugAllowed (operationName sp)] else [])))
    /\ sameIdentity (context sp') (context sp)
    /\ flags (context sp')
       = priorityFlags t (operationName sp) (env w) (flags (context sp)) v
    /\ tags sp' = tags sp
    /\ sameHeader sp' sp.
Proof.
  destruct w as [e h c].
  unfold setSamplingPriority, priorityAccepted, priorityFlags, asksThrottler.
  cbn [env heap calls].
  destruct v as [s|s|n|b|n];
    try (exists sp; unfold ret; rewrite app_nil_r;
         split; [reflexivity|]; split; [apply sameIdentity_refl|];
         split; [reflexivity|]; split; [reflexivity|apply sameHeader_refl]).
  destruct (n =? 0); cbn [negb andb orb].
  { eexists. unfold ret. rewrite app_nil_r. split; [reflexivity|].
    cbn. repeat split. }
  destruct (noDebugFlagOnForcedSampling (options t)); cbn [negb andb orb].
  { eexists. unfold ret. rewrite app_nil_r. split; [reflexivity|].
    cbn. repeat split. }
  unfold isDebugAllowed. step_m.
  destruct (debugThrottler t (operationName sp) e) as [allowed e'] eqn:Hth.
  cbn [fst snd]. destruct allowed.
  - eexists. split; [reflexivity|]. cbn. repeat split.
  - exists sp. split; [reflexivity|]. split; [apply sameIdentity_refl|].
    split; [reflexivity|]. split; [reflexivity|apply sameHeader_refl].
Qed.

Lemma lookupTag_None k (l : list (string * TagValue)) :
  k ∉ l.*1 -> lookupTag k l = None.
Proof.
  induction l as [|[k' v] l IH]; cbn; [reflexivity|].
  intros Hn. apply not_elem_of_cons in Hn as [Hne Hn].
  destruct (String.eqb k' k) eqn:E.
  - apply String.eqb_eq in E. congruence.
  - auto.
Qed.

Lemma storedTags_cons (accepted : bool) (k : string) (v : TagValue)
  (rest : list (string * TagValue)) :
  storedTags accepted ((k, v) :: rest)
  = (if negb (String.eqb k SamplingPriority) || accepted then [mkTag k v] else [])
    ++ storedTags accepted rest.
Proof.
  unfold storedTags, isStored. cbn [filter list_filter fst snd].
  destruct (negb (String.eqb k SamplingPriority) || accepted) eqn:E.
  - rewrite decide_True by reflexivity. reflexivity.
  - rewrite decide_False by discriminate. reflexivity.
Qed.

(** Without a sampling-priority entry every tag is stored, the throttler
    is not asked and the environment stays. *)
Lemma no_priority_tags t (operation : string) (e : Env) (accepted : bool)
  (spanTags : list (string * TagValue)) :
  lookupTag SamplingPriority spanTags = None ->
  storedTags accepted spanTags = (fun kv => mkTag kv.1 kv.2) <$> spanTags
  /\ tagEvents t operation spanTags
     = (fun kv => EvOnSetTag kv.1 kv.2) <$> spanTags
  /\ tagEnv t operation e spanTags = e.
Proof.
  induction spanTags as [|[k v] rest IH]; cbn [lookupTag]; [repeat split|].
  destruct (String.eqb k SamplingPriority) eqn:Hk; [discriminate|].
  intros Hnone. destruct (IH Hnone) as (H1 & H2 & H3).
  rewrite storedTags_cons, Hk. cbn [negb orb tagEvents tagEnv andb].
  rewrite Hk. cbn [andb]. rewrite H1, H2, H3.
  split; [reflexivity|]. split; reflexivity.
Qed.

Lemma no_priority_throttled t (spanTags : list (string * TagValue)) :
  lookupTag SamplingPriority spanTags = None -> throttledTags t spanTags = [].
Proof.
  unfold throttledTags.
  induction spanTags as [|[k v] rest IH]; cbn [lookupTag]; [reflexivity|].
  destruct (String.eqb k SamplingPriority) eqn:Hk; [discriminate|].
  intros Hnone. rewrite filter_cons_False; [exact (IH Hnone)|].
  cbn [fst]. rewrite Hk. discriminate.
Qed.

(** The loop over the caller's tags: it returns, calls the observer once
    per tag and the throttler for a sampling-priority entry that asks for
    it, leaves the heap alone, appends the tags it keeps, and changes the
    context only in its flags and only through a sampling-priority
    entry. *)
Lemma applyTags_spec t (spanTags : list (string * TagValue)) : forall sp w,
  exists sp' kept,
    applyTags t sp spanTags w
    = Some (sp', mkWorld (tagEnv t (operationName sp) (env w) spanTags) (heap w)
                   (calls w ++ tagEvents t (operationName sp) spanTags))
    /\ sameIdentity (context sp') (context sp)
    /\ sameHeader sp' sp
    /\ tags sp' = tags sp ++ kept
    /\ (lookupTag SamplingPriority spanTags = None ->
        context sp' = context sp
        /\ kept = (fun kv => mkTag kv.1 kv.2) <$> spanTags)
    /\ (wf_tags spanTags ->
        flags (context sp')
        = match lookupTag SamplingPriority spanTags with
          | Some v => priorityFlags t (operationName sp) (env w)
                        (flags (context sp)) v
          | None => flags (context sp)
          end
        /\ kept = storedTags (tagsAccepted t (operationName sp) (env w) spanTags)
                    spanTags).
Proof.
  induction spanTags as [|[k v] rest IH]; intros sp w.
  - exists sp, []. cbn. rewrite !app_nil_r. destruct w.
    split; [reflexivity|]. split; [apply sameIdentity_refl|].
    split; [apply sameHeader_refl|]. split; [reflexivity|].
    split; [split; reflexivity|]. intros _. split; reflexivity.
  - cbn [applyTags tagEvents tagEnv lookupTag]. unfold bind at 1, call.
    cbn [env heap calls].
    destruct (String.eqb k SamplingPriority) eqn:Hk; cbn [andb].
    + destruct (setSamplingPriority_spec t sp v
                  (mkWorld (env w) (heap w) (calls w ++ [EvOnSetTag k v])))
        as (sp1 & E1 & Hid1 & Hfl1 & Htg1 & Hhd1).
      cbn [env heap calls] in E1, Hfl1. unfold bind at 1. rewrite E1.
      pose proof Hhd1 as (Hop1 & _).
      destruct (priorityAccepted t (operationName sp) (env w) v) eqn:Hacc;
        cbn [negb].
      * destruct (IH (setTagNoLocking sp1 k v)
                    (mkWorld (if asksThrottler t v
                              then (debugThrottler t (operationName sp) (env w)).2
                              else env w) (heap w)
                       ((calls w ++ [EvOnSetTag k v])
                          ++ (if asksThrottler t v
                              then [EvIsDebugAllowed (operationName sp)]
                              else []))))
          as (sp' & kept & E & Hid' & Hhd' & Ht' & Hno' & _).
        cbn [setTagNoLocking operationName context tags env heap calls] in *.
        rewrite Hop1 in E.
        exists sp', (mkTag k v :: kept). rewrite E.
        split; [rewrite <- !app_assoc; reflexivity|].
        split; [eapply sameIdentity_trans; [exact Hid'|exact Hid1]|].
        split; [eapply sameHeader_trans; [exact Hhd'|exact Hhd1]|].
        split; [rewrite Ht', Htg1, <- app_assoc; reflexivity|].
        split; [discriminate|].
        intros Hwf. apply NoDup_cons in Hwf as [Hnin Hwf].
        apply String.eqb_eq in Hk. subst k.
        pose proof (lookupTag_None _ _ Hnin) as Hnone.
        destruct (Hno' Hnone) as [Hc' Hk'].
        split; [rewrite Hc'; exact Hfl1|].
        unfold tagsAccepted. cbn [lookupTag]. rewrite String.eqb_refl, Hacc.
        rewrite storedTags_cons, orb_true_r, Hk'.
        destruct (no_priority_tags t (operationName sp) (env w) true rest Hnone)
          as (-> & _). reflexivity.
      * destruct (IH sp1
                    (mkWorld (if asksThrottler t v
                              then (debugThrottler t (operationName sp) (env w)).2
                              else env w) (heap w)
                       ((calls w ++ [EvOnSetTag k v])
                          ++ (if asksThrottler t v
                              then [EvIsDebugAllowed (operationName sp)]
                              else []))))
          as (sp' & kept & E & Hid' & Hhd' & Ht' & Hno' & _).
        cbn [env heap calls] in *.
        rewrite Hop1 in E.
        exists sp', kept. rewrite E.
        split; [rewrite <- !app_assoc; reflexivity|].
        split; [eapply sameIdentity_trans; [exact Hid'|exact Hid1]|].
        split; [eapply sameHeader_trans; [exact Hhd'|exact Hhd1]|].
        split; [rewrite Ht', Htg1; reflexivity|].
        split; [discriminate|].
        intros Hwf. apply NoDup_cons in Hwf as [Hnin Hwf].
        apply String.eqb_eq in Hk. subst k.
        pose proof (lookupTag_None _ _ Hnin) as Hnone.
        destruct (Hno' Hnone) as [Hc' Hk'].
        split; [rewrite Hc'; exact Hfl1|].
        unfold tagsAccepted. cbn [lookupTag]. rewrite String.eqb_refl, Hacc.
        rewrite storedTags_cons, String.eqb_refl. cbn [negb orb app]. rewrite Hk'.
        destruct (no_priority_tags t (operationName sp) (env w) false rest Hnone)
          as (-> & _). reflexivity.
    + destruct (IH (setTagNoLocking sp k v)
                  (mkWorld (env w) (heap w) (calls w ++ [EvOnSetTag k v])))
        as (sp' & kept & E & Hid' & Hhd' & Ht' & Hno' & Hwf').
      cbn [setTagNoLocking operationName context tags env heap calls] in *.
      exists sp', (mkTag k v :: kept). rewrite E.
      split; [rewrite <- !app_assoc; reflexivity|].
      split; [exact Hid'|]. split; [exact Hhd'|].
      split; [rewrite Ht', <- app_assoc; reflexivity|].
      split.
      * intros Hnone. destruct (Hno' Hnone) as [-> ->]. split; reflexivity.
      * intros Hwf. apply NoDup_cons in Hwf as [Hnin Hwf].
        destruct (Hwf' Hwf) as [Hf ->]. split; [exact Hf|].
        unfold tagsAccepted. cbn [lookupTag]. rewrite Hk.
        rewrite storedTags_cons, Hk. reflexivity.
Qed.

(** Without a sampling-priority entry the loop leaves the context alone
    (whether or not the keys are distinct). *)
Lemma applyTags_no_priority t (spanTags : list (string * TagValue)) sp w sp' w' :
  lookupTag SamplingPriority spanTags = None ->
  applyTags t sp spanTags w = Some (sp', w') ->
  context sp' = context sp.
Proof.
  intros Hnone Hrun.
  destruct (applyTags_spec t spanTags sp w) as (sp0 & kept & E & _ & _ & _ & Hno & _).
  rewrite E in Hrun. injection Hrun as <- _. apply Hno. exact Hnone.
Qed.

Lemma emitMetrics_frame sp (newTrace : bool) w :
  exists evs,
    emitMetrics sp newTrace w
    = Some (tt, mkWorld (env w) (heap w) (calls w ++ evs))
    /\ Forall (fun e => isMetricCall e = true) evs.
Proof.
  unfold emitMetrics.
  destruct (IsSampled (context sp)), newTrace, (firstInProcess sp); step_m;
    rewrite <- ?app_assoc;
    (eexists; split; [try reflexivity; instantiate (1 := [_]); reflexivity|]);
    repeat constructor.
Qed.

Lemma no_throttler_metrics (evs : list Event) :
  Forall (fun e => isMetricCall e = true) evs ->
  filter (fun e => isThrottlerCall e = true) evs = [].
Proof.
  induction 1 as [|e evs He _ IH]; [reflexivity|].
  rewrite filter_cons_False; [exact IH|].
  destruct e; cbn in *; congruence.
Qed.

(** The throttler calls of the loop: one for every tag that asks for it. *)
Lemma tagEvents_throttler t (operation : string)
  (spanTags : list (string * TagValue)) :
  filter (fun e => isThrottlerCall e = true) (tagEvents t operation spanTags)
  = (fun _ => EvIsDebugAllowed operation) <$> throttledTags t spanTags.
Proof.
  unfold throttledTags.
  induction spanTags as [|[k v] rest IH]; [reflexivity|].
  cbn [tagEvents]. rewrite filter_cons_False by (cbn; discriminate).
  rewrite filter_app, IH.
  destruct (String.eqb k SamplingPriority && asksThrottler t v) eqn:E.
  - rewrite (filter_cons_True _ (k, v)) by (cbn [fst snd]; exact E).
    reflexivity.
  - rewrite (filter_cons_False _ (k, v))
      by (cbn [fst snd]; rewrite E; discriminate).
    reflexivity.
Qed.

(** With distinct keys the throttler is asked at most once. *)
Lemma throttledTags_wf t (spanTags : list (string * TagValue)) :
  wf_tags spanTags ->
  throttledTags t spanTags
  = match lookupTag SamplingPriority spanTags with
    | Some v => if asksThrottler t v then [(SamplingPriority, v)] else []
    | None => []
    end.
Proof.
  induction spanTags as [|[k v] rest IH]; [reflexivity|].
  intros Hwf. apply NoDup_cons in Hwf as [Hnin Hwf].
  cbn [lookupTag]. unfold throttledTags in *.
  destruct (String.eqb k SamplingPriority) eqn:Hk.
  - apply String.eqb_eq in Hk. subst k.
    pose proof (lookupTag_None _ _ Hnin) as Hnone.
    pose proof (no_priority_throttled t rest Hnone) as Hth.
    unfold throttledTags in Hth.
    destruct (asksThrottler t v) eqn:Ha.
    + rewrite filter_cons_True by (cbn [fst snd]; rewrite Ha; reflexivity).
      rewrite Hth. reflexivity.
    + rewrite filter_cons_False
        by (cbn [fst snd]; rewrite Ha, andb_false_r; discriminate).
      exact Hth.
  - rewrite filter_cons_False by (cbn [fst snd]; rewrite Hk; discriminate).
    apply IH. exact Hwf.
Qed.

Lemma length_zero_nil {A} (l : list A) : (0 <? length l)%nat = false -> l = [].
Proof. destruct l; [reflexivity|discriminate]. Qed.

(** [startSpanInternal] on a span that comes from the allocator. *)
Lemma startSpanInternal_spec t sp (operation : string) (start : Z)
  (internalTags : list Tag) (spanTags : list (string * TagValue))
  (newTrace rpcServer : bool) (refs : list Reference) w :
  tags sp = [] ->
  exists sp' evs kept,
    startSpanInternal t sp operation start internalTags spanTags newTrace
      rpcServer refs w
    = Some (sp', mkWorld (tagEnv t operation (env w) spanTags) (heap w)
                   (calls w ++ evs))
    /\ sameIdentity (context sp') (context sp)
    /\ tags sp' = internalTags ++ kept
    /\ operationName sp' = operation
    /\ startTime sp' = start
    /\ references sp' = refs
    /\ firstInProcess sp' = rpcServer || (parentID (context sp) =? 0)
    /\ (lookupTag SamplingPriority spanTags = None ->
        context sp' = context sp
        /\ kept = (fun kv => mkTag kv.1 kv.2) <$> spanTags)
    /\ (wf_tags spanTags ->
        flags (context sp')
        = match lookupTag SamplingPriority spanTags with
          | Some v => priorityFlags t operation (env w) (flags (context sp)) v
          | None => flags (context sp)
          end
        /\ kept = storedTags (tagsAccepted t operation (env w) spanTags) spanTags)
    /\ filter (fun e => isThrottlerCall e = true) evs
       = (fun _ => EvIsDebugAllowed operation) <$> throttledTags t spanTags.
Proof.
  intros Hblank. unfold startSpanInternal.
  destruct ((0 <? length spanTags)%nat || (0 <? length internalTags)%nat) eqn:Hlen.
  - match goal with |- context [applyTags t ?s spanTags] =>
      destruct (applyTags_spec t spanTags s w)
        as (sp' & kept & E & Hid & Hhd & Ht & Hno & Hwf)
    end.
    unfold bind at 1. rewrite E.
    cbn [operationName context tags] in Hid, Ht, Hno, Hwf |- *.
    destruct (emitMetrics_frame sp' newTrace
                (mkWorld (tagEnv t operation (env w) spanTags) (heap w)
                   (calls w ++ tagEvents t operation spanTags)))
      as (evs & Em & Hmet).
    unfold bind. rewrite Em. cbn [env heap calls]. unfold ret.
    exists sp', (tagEvents t operation spanTags ++ evs), kept.
    rewrite app_assoc. split; [reflexivity|].
    destruct Hhd as (Hop & Hst & Hdu & Hre & Hfi). cbn in Hop, Hst, Hdu, Hre, Hfi.
    split; [exact Hid|]. split; [exact Ht|]. split; [exact Hop|].
    split; [exact Hst|]. split; [exact Hre|]. split; [exact Hfi|].
    split; [exact Hno|]. split; [exact Hwf|].
    rewrite filter_app, tagEvents_throttler, (no_throttler_metrics evs Hmet).
    apply app_nil_r.
  - apply orb_false_elim in Hlen as [H1 H2].
    apply length_zero_nil in H1, H2. subst spanTags internalTags.
    unfold bind at 1, ret at 1.
    match goal with |- context [emitMetrics ?s newTrace] =>
      destruct (emitMetrics_frame s newTrace w) as (evs & Em & Hmet) end.
    unfold bind. rewrite Em. unfold ret.
    eexists _, evs, []. split; [reflexivity|]. cbn.
    split; [apply sameIdentity_refl|].
    split; [exact Hblank|].
    repeat (split; [reflexivity|]). split; [split; reflexivity|].
    split; [intros _; split; reflexivity|].
    apply (no_throttler_metrics evs Hmet).
Qed.
End Internal.

(** ** The new context *)

Section Derive.
Context {Env Carrier : Type}.
Implicit Types (w : World Env) (t : Tracer Env Carrier) (res : Resolution).

(** Without a usable self-reference the variable [ctx] still holds its
    zero value after the loop. *)
Lemma resolveStep_selfref res ref w res' w' :
  resolveStep res ref w = Some (res', w') ->
  res_isSelfRef res' = false ->
  res_isSelfRef res = false /\ res_ctx res' = res_ctx res.
Proof.
  unfold resolveStep.
  destruct (ReferencedContext ref) as [c|d]; step_m.
  - destruct (isValidReference (heap w) c); cbn.
    + destruct (Type_ ref); cbn;
        try (destruct (res_hasParent res); cbn);
        intros [= <- <-]; cbn; auto; discriminate.
    + intros [= <- <-]; auto.
  - intros [= <- <-]; auto.
Qed.

Lemma resolveLoop_selfref refs : forall res w res' w',
  resolveLoop res refs w = Some (res', w') ->
  res_isSelfRef res' = false ->
  res_isSelfRef res = false /\ res_ctx res' = res_ctx res.
Proof.
  induction refs as [|ref refs IH]; intros res w res' w'; cbn [resolveLoop].
  - unfold ret. intros [= <- _]. auto.
  - unfold bind at 1.
    destruct (resolveStep res ref w) as [[res1 w1]|] eqn:E1; [|discriminate].
    intros Hloop Hno.
    destruct (IH _ _ _ _ Hloop Hno) as [Hno1 Hctx1].
    destruct (resolveStep_selfref _ _ _ _ _ E1 Hno1) as [Hno0 Hctx0].
    split; [exact Hno0|congruence].
Qed.

Lemma resolveReferences_facts t opts w res w1 :
  resolveReferences t opts w = Some (res, w1) ->
  heap w1 = heap w
  /\ (res_isSelfRef res = false -> res_ctx res = emptyContext).
Proof.
  intros E. split.
  - destruct (resolveReferences_total t opts w) as (res' & w' & E' & Hh).
    rewrite E in E'. injection E' as -> ->. exact Hh.
  - revert E. unfold resolveReferences, bind at 1.
    destruct ((if StartTime opts =? 0 then callTimeNow t else ret (StartTime opts)) w)
      as [[start w0]|]; [|discriminate].
    unfold bind at 1.
    destruct (resolveLoop _ (References opts) w0) as [[acc w0']|] eqn:El;
      [|discriminate].
    step_m.
    destruct (negb (res_hasParent acc) && isValidReference (heap w0') (res_parent acc));
      intros [= <- _]; cbn; intros Hno;
      destruct (resolveLoop_selfref _ _ _ _ _ El Hno) as [_ Hc]; exact Hc.
Qed.

(** *** Copying the baggage *)

Lemma alter_present (h : gmap loc (gmap string string)) l m
  (f : gmap string string -> gmap string string) :
  h !! l = Some m -> alter f l h = <[l := f m]> h.
Proof.
  intros Hl. apply map_eq. intros l'.
  rewrite lookup_alter, lookup_insert.
  destruct (decide (l = l')) as [<-|]; [rewrite Hl|]; reflexivity.
Qed.

Lemma copyEntries_insert l (entries : list (string * string)) :
  forall (h : gmap loc (gmap string string)) m0,
    h !! l = Some m0 ->
    copyEntries l entries h
    = <[l := fold_left (fun m kv => <[kv.1 := kv.2]> m) entries m0]> h.
Proof.
  unfold copyEntries.
  induction entries as [|[k v] entries IH]; intros h m0 Hl; cbn [fold_left].
  - symmetry. apply insert_id. exact Hl.
  - unfold mapassign at 2. rewrite (alter_present h l m0) by exact Hl.
    rewrite (IH _ (<[k := v]> m0)) by apply lookup_insert_eq.
    rewrite insert_insert_eq. reflexivity.
Qed.

Lemma fold_insert_union (entries : list (string * string)) :
  NoDup entries.*1 ->
  forall m0 : gmap string string,
    fold_left (fun m kv => <[kv.1 := kv.2]> m) entries m0
    = list_to_map entries ∪ m0.
Proof.
  induction entries as [|[k v] entries IH]; intros Hnd m0; cbn [fold_left].
  - cbn. rewrite (left_id_L ∅ (∪)). reflexivity.
  - rewrite fmap_cons in Hnd. apply NoDup_cons in Hnd as [Hnin Hnd].
    rewrite (IH Hnd). cbn [list_to_map foldr fst snd].
    rewrite <- insert_union_l. symmetry.
    apply insert_union_r, not_elem_of_list_to_map_1. exact Hnin.
Qed.

(** The copy loop rebuilds the source map, in whatever order [range]
    yields its entries. *)
Lemma copyEntries_any_order l (m : gmap string string)
  (entries : list (string * string)) (h : gmap loc (gmap string string)) :
  entries ≡ₚ map_to_list m ->
  copyEntries l entries (<[l := ∅]> h) = <[l := m]> h.
Proof.
  intros Hperm.
  rewrite (copyEntries_insert l entries _ ∅) by apply lookup_insert_eq.
  rewrite insert_insert_eq. f_equal.
  assert (Hnd : NoDup entries.*1).
  { rewrite Hperm. apply NoDup_fst_map_to_list. }
  rewrite (fold_insert_union entries Hnd), (right_id_L ∅ (∪)).
  rewrite (list_to_map_proper entries (map_to_list m) Hnd Hperm).
  apply list_to_map_to_list.
Qed.

Lemma copyBaggage_spec (parent ctx : SpanContext) w :
  let items := baggageOf (heap w) parent in
  let l := fresh (dom (heap w)) in
  copyBaggage parent ctx w
  = Some (if (0 <? size items)%nat
          then (mkSpanContext (traceID ctx) (spanID ctx) (parentID ctx)
                  (flags ctx) (Some l) (debugID ctx),
                mkWorld (env w) (<[l := items]> (heap w)) (calls w))
          else (ctx, w)).
Proof.
  intros items l. unfold copyBaggage. step_m. fold items.
  destruct (0 <? size items)%nat; [|reflexivity].
  unfold makemap. fold l. cbn.
  rewrite (copyEntries_any_order l items) by reflexivity. reflexivity.
Qed.

Lemma fresh_heap_None (h : gmap loc (gmap string string)) :
  h !! fresh (dom h) = None.
Proof. apply not_elem_of_dom, is_fresh. Qed.

(** *** The two ways to a context *)

(** Lines 272-286, step by step: the draws of [randomID], then the high
    word (128-bit mode only), then the debug throttler (only for a parent
    that is a debug-id container), then the sampler (only when debug
    sampling was not forced). *)
Lemma startNewTrace_spec fuel t (operation : string) res w1 low w2 :
  randomID fuel t w1 = Some (low, w2) ->
  let hi := if gen128Bit (options t)
            then highTraceIDGenerator (options t) (env w2)
            else (High (traceID (res_ctx res)), env w2) in
  let hiCalls := if gen128Bit (options t) then [EvHighTraceID] else [] in
  let consult := res_hasParent res && isDebugIDContainerOnly (res_parent res) in
  let th := if consult then debugThrottler t operation hi.2 else (false, hi.2) in
  let thCalls := if consult then [EvIsDebugAllowed operation] else [] in
  let tid := mkTraceID hi.1 low in
  let base := mkSpanContext tid low 0 0 (baggage (res_ctx res))
                            (debugID (res_ctx res)) in
  let sm := sampler t tid operation th.2 in
  startNewTrace fuel t operation res w1
  = Some (if th.1
          then (setFlags base (Z.lor flagSampled flagDebug),
                [mkTag JaegerDebugHeader (VString (debugID (res_parent res)))],
                mkWorld th.2 (heap w2) (calls w2 ++ hiCalls ++ thCalls))
          else (if sm.1.1 then setFlags base flagSampled else base,
                if sm.1.1 then sm.1.2 else [],
                mkWorld sm.2 (heap w2)
                  (calls w2 ++ hiCalls ++ thCalls ++ [EvIsSampled tid operation]))).
Proof.
  intros Hrand. cbv zeta. unfold startNewTrace, bind at 1. rewrite Hrand.
  unfold callHighTraceID, isDebugAllowed, callIsSampled.
  destruct (gen128Bit (options t)); step_m.
  - destruct (highTraceIDGenerator (options t) (env w2)) as [high e3]. cbn.
    destruct (res_hasParent res && isDebugIDContainerOnly (res_parent res)); cbn.
    + destruct (debugThrottler t operation e3) as [[|] e4]; cbn.
      * rewrite <- ?app_assoc. reflexivity.
      * destruct (sampler t (mkTraceID high low) operation e4) as [[[|] stags] e5];
          cbn; rewrite <- ?app_assoc; reflexivity.
    + destruct (sampler t (mkTraceID high low) operation e3) as [[[|] stags] e5];
        cbn; rewrite <- ?app_assoc; reflexivity.
  - destruct (res_hasParent res && isDebugIDContainerOnly (res_parent res)); cbn.
    + destruct (debugThrottler t operation (env w2)) as [[|] e4]; cbn.
      * rewrite <- ?app_assoc. destruct w2; reflexivity.
      * destruct (sampler t _ operation e4) as [[[|] stags] e5];
          cbn; rewrite <- ?app_assoc; reflexivity.
    + destruct (sampler t _ operation (env w2)) as [[[|] stags] e5];
        cbn; rewrite <- ?app_assoc; reflexivity.
Qed.

(** Lines 288-297. *)
Lemma joinTrace_spec fuel t (rpcServer : bool) res w1 id w2 :
  randomID fuel t w1 = Some (id, w2) ->
  joinTrace fuel t rpcServer res w1
  = Some (if rpcServer && zipkinSharedRPCSpan (options t)
          then (mkSpanContext (traceID (res_parent res)) (spanID (res_parent res))
                  (parentID (res_parent res)) (flags (res_parent res))
                  (baggage (res_ctx res)) (debugID (res_ctx res)), w1)
          else (mkSpanContext (traceID (res_parent res)) id
                  (spanID (res_parent res)) (flags (res_parent res))
                  (baggage (res_ctx res)) (debugID (res_ctx res)), w2)).
Proof.
  intros Hrand. unfold joinTrace.
  destruct (rpcServer && zipkinSharedRPCSpan (options t)); [reflexivity|].
  unfold bind. rewrite Hrand. reflexivity.
Qed.

(** [deriveContext] returns as soon as [randomID] does. *)
Lemma deriveContext_total fuel t (operation : string) opts res w1 id w2 :
  randomID fuel t w1 = Some (id, w2) ->
  exists d w3, deriveContext fuel t operation opts res w1 = Some (d, w3).
Proof.
  intros Hrand. unfold deriveContext.
  destruct (res_isSelfRef res); [unfold ret; eauto|].
  destruct (negb (res_hasParent res) || negb (IsValid (res_parent res))).
  - unfold bind at 1. unfold bind at 1.
    rewrite (startNewTrace_spec _ _ _ _ _ _ _ Hrand). cbv zeta.
    match goal with |- context [if ?b then _ else _] => destruct b end;
      unfold ret at 1; unfold bind;
      (destruct (res_hasParent res);
       [rewrite copyBaggage_spec; cbv zeta;
        match goal with |- context [(0 <? ?n)%nat] => destruct (0 <? n)%nat end
       |]; unfold ret; eauto).
  - unfold bind at 1. unfold bind at 1.
    rewrite (joinTrace_spec _ _ _ _ _ _ _ Hrand).
    destruct (isRPCServer (Tags opts) && zipkinSharedRPCSpan (options t));
      unfold ret at 1; unfold bind;
      (destruct (res_hasParent res);
       [rewrite copyBaggage_spec; cbv zeta;
        match goal with |- context [(0 <? ?n)%nat] => destruct (0 <? n)%nat end
       |]; unfold ret; eauto).
Qed.

(** *** From the derived context to the span *)

Lemma startSpanWithOptions_spec fuel t (operation : string) opts w res w1 d w2 :
  resolveReferences t opts w = Some (res, w1) ->
  deriveContext fuel t operation opts res w1 = Some (d, w2) ->
  exists sp evs kept,
    startSpanWithOptions fuel t operation opts w
    = Some (sp, mkWorld (tagEnv t operation (env w2) (Tags opts)) (heap w2)
                  (calls w2 ++ evs))
    /\ sameIdentity (context sp) (d_ctx d)
    /\ tags sp = d_samplerTags d ++ kept
    /\ operationName sp = operation
    /\ startTime sp = res_startTime res
    /\ references sp = res_references res
    /\ (lookupTag SamplingPriority (Tags opts) = None ->
        context sp = d_ctx d
        /\ kept = (fun kv => mkTag kv.1 kv.2) <$> Tags opts)
    /\ (wf_tags (Tags opts) ->
        flags (context sp)
        = match lookupTag SamplingPriority (Tags opts) with
          | Some v => priorityFlags t operation (env w2) (flags (d_ctx d)) v
          | None => flags (d_ctx d)
          end
        /\ kept = storedTags (tagsAccepted t operation (env w2) (Tags opts))
                    (Tags opts))
    /\ filter (fun e => isThrottlerCall e = true) evs
       = (fun _ => EvIsDebugAllowed operation) <$> throttledTags t (Tags opts).
Proof.
  intros Eres Eder. unfold startSpanWithOptions.
  unfold bind at 1. rewrite Eres. unfold bind at 1. rewrite Eder.
  unfold newSpan. step_m.
  match goal with |- context [startSpanInternal t ?s _ _ _ _ _ _ _ ?w0] =>
    destruct (startSpanInternal_spec t s operation (res_startTime res)
                (d_samplerTags d) (Tags opts) (d_newTrace d) (d_rpcServer d)
                (res_references res) w0 eq_refl)
      as (sp & evs & kept & E & Hid & Ht & Hop & Hst & Hre & _ & Hno & Hctx
          & Hth)
  end.
  cbn [env heap calls] in E, Hctx.
  exists sp, ([EvAllocatorGet;
               EvOnStartSpan (setContext blankSpan (d_ctx d)) operation] ++ evs),
    kept.
  split.
  - rewrite E. rewrite <- !app_assoc. reflexivity.
  - cbn in Hid, Hno, Hctx. auto 12.
Qed.
End Derive.

(** ** StartSpan *)

Section JoinTrace.
Context {Env Carrier : Type}.
Implicit Types (w : World Env) (t : Tracer Env Carrier) (res : Resolution).

(** C2 (as the code has it).  For every [StartSpan] call that is not a
    self-reference and whose resolved parent is valid: the context that
    [startSpanWithOptions] builds has the parent's traceID and the parent's
    flags; under the RPC-server span.kind tag in Zipkin-shared-span mode
    its spanID and parentID are the parent's spanID and parentID;
    otherwise its parentID is the parent's spanID and its spanID is the
    value of [randomID], that is the next non-zero draw of the random
    source, which the code does not compare with the parent's spanID.  The
    span that is returned carries this context; only its flags can differ,
    and only when the caller supplied a sampling-priority tag. *)
Theorem StartSpan_joins_parent_trace fuel t (operation : string) opts w res w1
  id w2 :
  resolveReferences t opts w = Some (res, w1) ->
  res_isSelfRef res = false ->
  res_hasParent res = true ->
  IsValid (res_parent res) = true ->
  randomID fuel t w1 = Some (id, w2) ->
  exists d w3 sp w',
    deriveContext fuel t operation opts res w1 = Some (d, w3)
    /\ startSpanWithOptions fuel t operation opts w = Some (sp, w')
    /\ d_newTrace d = false
    /\ traceID (d_ctx d) = traceID (res_parent res)
    /\ flags (d_ctx d) = flags (res_parent res)
    /\ (if isRPCServer (Tags opts) && zipkinSharedRPCSpan (options t)
        then spanID (d_ctx d) = spanID (res_parent res)
             /\ parentID (d_ctx d) = parentID (res_parent res)
        else spanID (d_ctx d) = id /\ id <> 0
             /\ parentID (d_ctx d) = spanID (res_parent res))
    /\ sameIdentity (context sp) (d_ctx d)
    /\ (lookupTag SamplingPriority (Tags opts) = None -> context sp = d_ctx d).
Proof.
  intros Eres Hself Hhas Hvalid Hrand.
  assert (Eder : exists d w3,
             deriveContext fuel t operation opts res w1 = Some (d, w3)
             /\ d_newTrace d = false
             /\ traceID (d_ctx d) = traceID (res_parent res)
             /\ flags (d_ctx d) = flags (res_parent res)
             /\ (if isRPCServer (Tags opts) && zipkinSharedRPCSpan (options t)
                 then spanID (d_ctx d) = spanID (res_parent res)
                      /\ parentID (d_ctx d) = parentID (res_parent res)
                 else spanID (d_ctx d) = id /\ id <> 0
                      /\ parentID (d_ctx d) = spanID (res_parent res))).
  { pose proof (randomID_nonzero _ _ _ _ _ Hrand) as Hid.
    unfold deriveContext. rewrite Hself, Hhas, Hvalid. cbn [negb orb].
    unfold bind at 1. unfold bind at 1.
    rewrite (joinTrace_spec _ _ _ _ _ _ _ Hrand).
    destruct (isRPCServer (Tags opts) && zipkinSharedRPCSpan (options t));
      unfold ret at 1; unfold bind; rewrite copyBaggage_spec; cbv zeta;
      match goal with |- context [(0 <? ?n)%nat] => destruct (0 <? n)%nat end;
      unfold ret; eexists _, _; (split; [reflexivity|]); cbn; auto 10. }
  destruct Eder as (d & w3 & Eder & Hnew & Htid & Hfl & Hids).
  destruct (startSpanWithOptions_spec _ _ _ _ _ _ _ _ _ Eres Eder)
    as (sp & evs & kept & E & Hsame & _ & _ & _ & _ & Hno & _).
  exists d, w3, sp. eexists. split; [exact Eder|]. split; [exact E|].
  split; [exact Hnew|]. split; [exact Htid|]. split; [exact Hfl|].
  split; [exact Hids|]. split; [exact Hsame|].
  intros Hnone. apply Hno. exact Hnone.
Qed.
End JoinTrace.

(** C2 (as the specification words it) fails on "distinct from the
    parent's spanID": the parent below has spanID 7, the span is no RPC
    server, and the random source yields 0, 0, 7. *)
Lemma fresh_span_id_counterexample :
  (resolvedParent <$>
     (fst <$> resolveReferences (Demo.tracer false) Demo.childOfA Demo.world0))
  = Some (Some Demo.ctxA)
  /\ IsValid Demo.ctxA = true
  /\ isRPCServer (Tags Demo.childOfA) = false
  /\ ((fun r => spanID (context r.1)) <$>
        startSpanWithOptions 5 (Demo.tracer false) "op" Demo.childOfA Demo.world0)
     = Some (spanID Demo.ctxA).
Proof.
  split; [|split; [|split]]; vm_compute; reflexivity.
Qed.

(** C2 at the demo tracer in Zipkin-shared-span mode off, with a parent
    whose spanID (2) the random source does not yield. *)
Lemma StartSpan_joins_parent_trace_witness :
  exists res w1 id w2 d w3 sp w',
    resolveReferences (Demo.tracer false) Demo.childOfB Demo.world0 = Some (res, w1)
    /\ randomID 5 (Demo.tracer false) w1 = Some (id, w2)
    /\ deriveContext 5 (Demo.tracer false) "op" Demo.childOfB res w1 = Some (d, w3)
    /\ startSpanWithOptions 5 (Demo.tracer false) "op" Demo.childOfB Demo.world0
       = Some (sp, w')
    /\ d_newTrace d = false
    /\ traceID (d_ctx d) = traceID (res_parent res)
    /\ flags (d_ctx d) = flags (res_parent res)
    /\ (if isRPCServer (Tags Demo.childOfB)
           && zipkinSharedRPCSpan (options (Demo.tracer false))
        then spanID (d_ctx d) = spanID (res_parent res)
             /\ parentID (d_ctx d) = parentID (res_parent res)
        else spanID (d_ctx d) = id /\ id <> 0
             /\ parentID (d_ctx d) = spanID (res_parent res))
    /\ sameIdentity (context sp) (d_ctx d)
    /\ (lookupTag SamplingPriority (Tags Demo.childOfB) = None ->
        context sp = d_ctx d).
Proof.
  destruct (resolveReferences (Demo.tracer false) Demo.childOfB Demo.world0)
    as [[res w1]|] eqn:Eres; [|vm_compute in Eres; discriminate].
  destruct (randomID 5 (Demo.tracer false) w1) as [[id w2]|] eqn:Erand;
    [|vm_compute in Eres; injection Eres as <- <-; vm_compute in Erand;
      discriminate].
  assert (Hres : res_isSelfRef res = false /\ res_hasParent res = true
                 /\ IsValid (res_parent res) = true).
  { vm_compute in Eres. injection Eres as <- <-. repeat split. }
  destruct Hres as (Hself & Hhas & Hvalid).
  destruct (StartSpan_joins_parent_trace 5 (Demo.tracer false) "op"
              Demo.childOfB Demo.world0 res w1 id w2 Eres Hself Hhas Hvalid Erand)
    as (d & w3 & sp & w' & H).
  exists res, w1, id, w2, d, w3, sp, w'. tauto.
Defined.

Section NewTrace.
Context {Env Carrier : Type}.
Implicit Types (w : World Env) (t : Tracer Env Carrier) (res : Resolution).

Lemma filter_replicate_none (p : Event -> bool) (e : Event) n :
  p e = false -> filter (fun x => p x = true) (replicate n e) = [].
Proof.
  intros Hp. induction n as [|n IH]; [reflexivity|].
  cbn [replicate]. rewrite filter_cons_False by (rewrite Hp; discriminate).
  exact IH.
Qed.

Lemma newCalls_app w w' (evs : list Event) :
  calls w' = calls w ++ evs -> newCalls w w' = evs.
Proof.
  unfold newCalls. intros ->. apply drop_app_length.
Qed.

(** The calls of [randomID] are draws of the random source, and the heap
    stays as it is. *)
Lemma randomID_calls fuel t w v w' :
  randomID fuel t w = Some (v, w') ->
  heap w' = heap w
  /\ exists k, calls w' = calls w ++ replicate (S k) EvRandomNumber.
Proof.
  intros H. destruct (randomID_frame _ _ _ _ _ H) as [k ->].
  destruct (afterDraws_frame t (S k) w) as [Hh Hc]. eauto.
Qed.

(** C3.  For every [StartSpan] call that is not a self-reference and has no
    parent or an invalid one, the context that [startSpanWithOptions]
    builds starts a new trace: the low word of its traceID is the value of
    [randomID] (not 0), the high word is drawn from the high-word generator
    in 128-bit mode and is 0 (with no call of the generator) otherwise, the
    spanID is the low word and the parentID is 0.  The flags start from 0.
    If the parent is a debug-id container and the debug throttler allows
    the operation, the flags are sampled|debug, the one sampler tag carries
    the debug id, and the sampler is not called.  Otherwise the sampler is
    called once, with the new traceID and the operation; if it answers
    sampled the flags are the sampled bit and the sampler's tags are
    attached, and if not the flags stay 0 and no tag is attached.  The
    span that is returned carries this context (up to a sampling-priority
    tag of the caller) and its tags start with the attached ones; without
    a sampling-priority tag the tags of the caller follow them, all and in
    their order. *)
Theorem StartSpan_new_trace fuel t (operation : string) opts w res w1 low w2 :
  resolveReferences t opts w = Some (res, w1) ->
  res_isSelfRef res = false ->
  negb (res_hasParent res) || negb (IsValid (res_parent res)) = true ->
  randomID fuel t w1 = Some (low, w2) ->
  let hi := if gen128Bit (options t)
            then highTraceIDGenerator (options t) (env w2)
            else (0, env w2) in
  let consult := res_hasParent res && isDebugIDContainerOnly (res_parent res) in
  let th := if consult then debugThrottler t operation hi.2 else (false, hi.2) in
  let tid := mkTraceID hi.1 low in
  let sm := sampler t tid operation th.2 in
  exists d w3 sp w',
    deriveContext fuel t operation opts res w1 = Some (d, w3)
    /\ startSpanWithOptions fuel t operation opts w = Some (sp, w')
    /\ d_newTrace d = true
    /\ low <> 0
    /\ traceID (d_ctx d) = tid
    /\ spanID (d_ctx d) = low
    /\ parentID (d_ctx d) = 0
    /\ filter (fun e => isHighTraceIDCall e = true) (newCalls w1 w3)
       = (if gen128Bit (options t) then [EvHighTraceID] else [])
    /\ (if th.1
        then consult = true
             /\ flags (d_ctx d) = Z.lor flagSampled flagDebug
             /\ IsSampled (d_ctx d) = true /\ IsDebug (d_ctx d) = true
             /\ d_samplerTags d
                = [mkTag JaegerDebugHeader (VString (debugID (res_parent res)))]
             /\ filter (fun e => isSamplerCall e = true) (newCalls w1 w3) = []
        else filter (fun e => isSamplerCall e = true) (newCalls w1 w3)
             = [EvIsSampled tid operation]
             /\ (if sm.1.1
                 then flags (d_ctx d) = flagSampled
                      /\ IsSampled (d_ctx d) = true
                      /\ d_samplerTags d = sm.1.2
                 else flags (d_ctx d) = 0
                      /\ IsSampled (d_ctx d) = false
                      /\ d_samplerTags d = []))
    /\ sameIdentity (context sp) (d_ctx d)
    /\ (lookupTag SamplingPriority (Tags opts) = None -> context sp = d_ctx d)
    /\ exists kept,
         tags sp = d_samplerTags d ++ kept
         /\ (lookupTag SamplingPriority (Tags opts) = None ->
             kept = (fun kv => mkTag kv.1 kv.2) <$> Tags opts).
Proof.
  intros Eres Hself Hnew Hrand. cbv zeta.
  destruct (resolveReferences_facts _ _ _ _ _ Eres) as [_ Hctx0].
  specialize (Hctx0 Hself).
  pose proof (randomID_nonzero _ _ _ _ _ Hrand) as Hlow.
  destruct (randomID_calls _ _ _ _ _ Hrand) as (Hheap & k & Hcalls).
  pose proof (startNewTrace_spec fuel t operation res w1 low w2 Hrand) as Hnt.
  cbv zeta in Hnt. rewrite Hctx0 in Hnt. cbn [traceID emptyContext High baggage debugID] in Hnt.
  set (hi := if gen128Bit (options t)
             then highTraceIDGenerator (options t) (env w2)
             else (0, env w2)) in *.
  set (consult := res_hasParent res && isDebugIDContainerOnly (res_parent res)) in *.
  set (th := if consult then debugThrottler t operation hi.2 else (false, hi.2)) in *.
  set (tid := mkTraceID hi.1 low) in *.
  set (sm := sampler t tid operation th.2) in *.
  assert (Hth : th.1 = true -> consult = true).
  { subst th. destruct consult; [reflexivity|discriminate]. }
  assert (Eder : exists d w3,
    deriveContext fuel t operation opts res w1 = Some (d, w3)
    /\ d_newTrace d = true
    /\ traceID (d_ctx d) = tid /\ spanID (d_ctx d) = low /\ parentID (d_ctx d) = 0
    /\ d_samplerTags d
       = (if th.1
          then [mkTag JaegerDebugHeader (VString (debugID (res_parent res)))]
          else if sm.1.1 then sm.1.2 else [])
    /\ flags (d_ctx d)
       = (if th.1 then Z.lor flagSampled flagDebug
          else if sm.1.1 then flagSampled else 0)
    /\ newCalls w1 w3
       = replicate (S k) EvRandomNumber
         ++ (if gen128Bit (options t) then [EvHighTraceID] else [])
         ++ (if consult then [EvIsDebugAllowed operation] else [])
         ++ (if th.1 then [] else [EvIsSampled tid operation])).
  { unfold deriveContext. rewrite Hself, Hnew.
    unfold bind at 1. unfold bind at 1. rewrite Hnt.
    destruct (th.1); [|destruct (sm.1.1)];
      unfold ret at 1; unfold bind;
      (destruct (res_hasParent res);
       [rewrite copyBaggage_spec; cbv zeta;
        match goal with |- context [(0 <? ?n)%nat] => destruct (0 <? n)%nat end
       |]; unfold ret; eexists _, _; (split; [reflexivity|]); cbn;
       repeat (split; [reflexivity|]);
       apply newCalls_app; cbn [calls]; rewrite Hcalls, <- ?app_assoc;
       rewrite ?app_nil_r; reflexivity). }
  destruct Eder as (d & w3 & Eder & Hnt' & Htid & Hsid & Hpid & Htags & Hfl & Hnc).
  destruct (startSpanWithOptions_spec _ _ _ _ _ _ _ _ _ Eres Eder)
    as (sp & evs & kept & E & Hsame & Hsptags & _ & _ & _ & Hno & _).
  assert (Hno' : lookupTag SamplingPriority (Tags opts) = None ->
                 context sp = d_ctx d) by (intros H; apply Hno; exact H).
  assert (Hkept : exists kept,
             tags sp = d_samplerTags d ++ kept
             /\ (lookupTag SamplingPriority (Tags opts) = None ->
                 kept = (fun kv => mkTag kv.1 kv.2) <$> Tags opts))
    by (exists kept; split; [exact Hsptags|intros H; apply Hno; exact H]).
  clear Hno Hsptags.
  exists d, w3, sp. eexists.
  split; [exact Eder|]. split; [exact E|].
  split; [exact Hnt'|]. split; [exact Hlow|]. split; [exact Htid|].
  split; [exact Hsid|]. split; [exact Hpid|].
  split.
  { rewrite Hnc, !filter_app, filter_replicate_none by reflexivity.
    destruct (gen128Bit (options t)), consult, (th.1); reflexivity. }
  split.
  { unfold IsSampled, IsDebug. rewrite Hfl, Htags, Hnc.
    rewrite !filter_app, filter_replicate_none by reflexivity.
    destruct (th.1) eqn:Hth1.
    - rewrite (Hth eq_refl).
      destruct (gen128Bit (options t)); repeat split.
    - destruct (gen128Bit (options t)), consult, (sm.1.1); repeat split. }
  auto.
Qed.
End NewTrace.

(** C3 at the demo tracer: a child-of reference to a debug-id container,
    with a throttler that allows everything. *)
Lemma StartSpan_new_trace_witness :
  exists res w1 low w2 d w3 sp w',
    resolveReferences (Demo.tracer false) Demo.childOfDebug Demo.world0
    = Some (res, w1)
    /\ randomID 5 (Demo.tracer false) w1 = Some (low, w2)
    /\ deriveContext 5 (Demo.tracer false) "op" Demo.childOfDebug res w1
       = Some (d, w3)
    /\ startSpanWithOptions 5 (Demo.tracer false) "op" Demo.childOfDebug
         Demo.world0 = Some (sp, w')
    /\ d_newTrace d = true
    /\ low <> 0
    /\ traceID (d_ctx d) = mkTraceID 0 low
    /\ spanID (d_ctx d) = low
    /\ parentID (d_ctx d) = 0
    /\ flags (d_ctx d) = Z.lor flagSampled flagDebug
    /\ d_samplerTags d = [mkTag JaegerDebugHeader (VString "dbg")]
    /\ filter (fun e => isSamplerCall e = true) (newCalls w1 w3) = []
    /\ tags sp = d_samplerTags d.
Proof.
  destruct (resolveReferences (Demo.tracer false) Demo.childOfDebug Demo.world0)
    as [[res w1]|] eqn:Eres; [|vm_compute in Eres; discriminate].
  destruct (randomID 5 (Demo.tracer false) w1) as [[low w2]|] eqn:Erand;
    [|vm_compute in Eres; injection Eres as <- <-; vm_compute in Erand;
      discriminate].
  assert (Hres : res_isSelfRef res = false
                 /\ negb (res_hasParent res) || negb (IsValid (res_parent res)) = true
                 /\ res_hasParent res && isDebugIDContainerOnly (res_parent res) = true
                 /\ debugID (res_parent res) = "dbg").
  { vm_compute in Eres. injection Eres as <- <-. repeat split. }
  destruct Hres as (Hself & Hnew & Hconsult & Hdbg).
  pose proof (StartSpan_new_trace 5 (Demo.tracer false) "op"
                Demo.childOfDebug Demo.world0 res w1 low w2 Eres Hself Hnew Erand)
    as H.
  cbv zeta in H. rewrite Hconsult, Hdbg in H.
  cbn [Demo.tracer options gen128Bit Demo.opts debugThrottler Demo.allowAll fst snd] in H.
  destruct H as (d & w3 & sp & w' & Hd & Hs & Hnt & Hlow & Htid & Hsid & Hpid
                 & _ & (_ & Hfl & _ & _ & Htags & Hnosampler) & _ & _
                 & kept & Hsptags & Hkept).
  exists res, w1, low, w2, d, w3, sp, w'.
  rewrite Hsptags, (Hkept eq_refl). cbn [Demo.childOfDebug Tags fmap list_fmap].
  rewrite app_nil_r.
  repeat (split; [first [assumption|reflexivity]|]). reflexivity.
Defined.

Section Baggage.
Context {Env Carrier : Type}.
Implicit Types (w : World Env) (t : Tracer Env Carrier) (res : Resolution).

(** With a parent and without a self-reference, the baggage of the parent
    is copied whichever way the context is built. *)
Lemma deriveContext_baggage fuel t (operation : string) opts res w1 id w2 :
  res_isSelfRef res = false ->
  res_hasParent res = true ->
  randomID fuel t w1 = Some (id, w2) ->
  exists d w3,
    deriveContext fuel t operation opts res w1 = Some (d, w3)
    /\ let items := baggageOf (heap w1) (res_parent res) in
       let l := fresh (dom (heap w1)) in
       if (0 <? size items)%nat
       then baggage (d_ctx d) = Some l /\ heap w3 = <[l := items]> (heap w1)
       else baggage (d_ctx d) = baggage (res_ctx res) /\ heap w3 = heap w1.
Proof.
  intros Hself Hhas Hrand. cbv zeta.
  destruct (randomID_calls _ _ _ _ _ Hrand) as (Hheap & _).
  unfold deriveContext. rewrite Hself, Hhas.
  destruct (negb true || negb (IsValid (res_parent res))).
  - unfold bind at 1. unfold bind at 1.
    rewrite (startNewTrace_spec _ _ _ _ _ _ _ Hrand). cbv zeta.
    match goal with |- context [if ?b then _ else _] => destruct b end;
      [|match goal with |- context [if ?b then _ else _] => destruct b end];
      unfold ret at 1; unfold bind; rewrite copyBaggage_spec; cbv zeta;
      cbn [heap env calls]; rewrite Hheap;
      destruct (0 <? size (baggageOf (heap w1) (res_parent res)))%nat;
      unfold ret; eexists _, _; (split; [reflexivity|]); cbn; auto.
  - unfold bind at 1. unfold bind at 1.
    rewrite (joinTrace_spec _ _ _ _ _ _ _ Hrand).
    destruct (isRPCServer (Tags opts) && zipkinSharedRPCSpan (options t));
      unfold ret at 1; unfold bind; rewrite copyBaggage_spec; cbv zeta;
      cbn [heap env calls]; rewrite ?Hheap;
      destruct (0 <? size (baggageOf (heap w1) (res_parent res)))%nat;
      unfold ret; eexists _, _; (split; [reflexivity|]); cbn; auto.
Qed.

(** C4 (as the code has it).  For every [StartSpan] call that is not a
    self-reference and whose resolved parent, valid or not, carries at
    least one baggage entry: the baggage of the new span's context is a map
    at an address that was not in use before the call, its contents equal
    the contents of the parent's map, the parent's map and every other map
    are as they were, and whatever is then done to the child's map leaves
    the parent's map unchanged. *)
Theorem StartSpan_copies_baggage fuel t (operation : string) opts w res w1
  id w2 (l : loc) (m : gmap string string) :
  resolveReferences t opts w = Some (res, w1) ->
  res_isSelfRef res = false ->
  res_hasParent res = true ->
  baggage (res_parent res) = Some l ->
  heap w !! l = Some m ->
  m <> ∅ ->
  randomID fuel t w1 = Some (id, w2) ->
  exists sp w' l',
    startSpanWithOptions fuel t operation opts w = Some (sp, w')
    /\ baggage (context sp) = Some l'
    /\ heap w !! l' = None
    /\ l' <> l
    /\ heap w' !! l' = Some m
    /\ heap w' !! l = Some m
    /\ (forall l0, l0 <> l' -> heap w' !! l0 = heap w !! l0)
    /\ (forall f : gmap string string -> gmap string string,
          mapmutate l' f (heap w') !! l' = Some (f m)
          /\ mapmutate l' f (heap w') !! l = Some m).
Proof.
  intros Eres Hself Hhas Hbag Hl Hne Hrand.
  destruct (resolveReferences_facts _ _ _ _ _ Eres) as [Hheap _].
  destruct (deriveContext_baggage fuel t operation opts res w1 id w2
              Hself Hhas Hrand) as (d & w3 & Eder & Hcopy).
  cbv zeta in Hcopy. rewrite Hheap in Hcopy.
  assert (Hitems : baggageOf (heap w) (res_parent res) = m).
  { unfold baggageOf. rewrite Hbag, Hl. reflexivity. }
  rewrite Hitems in Hcopy.
  assert (Hsize : (0 <? size m)%nat = true).
  { apply Nat.ltb_lt. apply map_size_non_empty_iff in Hne. lia. }
  rewrite Hsize in Hcopy. destruct Hcopy as [Hb Hh3].
  destruct (startSpanWithOptions_spec _ _ _ _ _ _ _ _ _ Eres Eder)
    as (sp & evs & kept & E & Hsame & _).
  destruct Hsame as (_ & _ & _ & Hbsp & _).
  set (l' := fresh (dom (heap w))) in *.
  assert (Hfresh : heap w !! l' = None) by apply fresh_heap_None.
  assert (Hll : l' <> l) by congruence.
  exists sp. eexists. exists l'.
  split; [exact E|]. cbn [heap]. rewrite Hh3.
  split; [congruence|]. split; [exact Hfresh|]. split; [exact Hll|].
  split; [apply lookup_insert_eq|].
  split; [rewrite lookup_insert_ne by exact Hll; exact Hl|].
  split; [intros l0 Hl0; apply lookup_insert_ne; congruence|].
  intros f. unfold mapmutate. split.
  - rewrite lookup_alter_eq, lookup_insert_eq. reflexivity.
  - rewrite lookup_alter_ne, lookup_insert_ne by exact Hll. exact Hl.
Qed.
End Baggage.

(** C4 (as the specification words it) fails when the call also carries a
    usable self-reference: the resolved parent below carries the baggage
    k=v, and the new span takes the context of the self-reference, whose
    baggage map is nil. *)
Lemma baggage_self_reference_counterexample :
  (resolvedParent <$>
     (fst <$> resolveReferences (Demo.tracer false) Demo.selfRefWithParent
                Demo.world0))
  = Some (Some Demo.ctxB)
  /\ baggageOf (heap Demo.world0) Demo.ctxB = <["k" := "v"]> ∅
  /\ ((fun r => (baggage (context r.1), baggageOf (heap r.2) (context r.1))) <$>
        startSpanWithOptions 5 (Demo.tracer false) "op" Demo.selfRefWithParent
          Demo.world0)
     = Some (None, ∅).
Proof.
  split; [|split]; vm_compute; reflexivity.
Qed.

(** C4 at the demo tracer: a child-of reference to a context whose baggage
    map, at address 0, holds k=v. *)
Lemma StartSpan_copies_baggage_witness :
  exists sp w' l',
    startSpanWithOptions 5 (Demo.tracer false) "op" Demo.childOfB Demo.world0
    = Some (sp, w')
    /\ baggage (context sp) = Some l'
    /\ heap Demo.world0 !! l' = None
    /\ l' <> 0%nat
    /\ heap w' !! l' = Some (<["k" := "v"]> ∅)
    /\ heap w' !! 0%nat = Some (<["k" := "v"]> ∅)
    /\ (forall l0, l0 <> l' -> heap w' !! l0 = heap Demo.world0 !! l0)
    /\ (forall f : gmap string string -> gmap string string,
          mapmutate l' f (heap w') !! l' = Some (f (<["k" := "v"]> ∅))
          /\ mapmutate l' f (heap w') !! 0%nat = Some (<["k" := "v"]> ∅)).
Proof.
  destruct (resolveReferences (Demo.tracer false) Demo.childOfB Demo.world0)
    as [[res w1]|] eqn:Eres; [|vm_compute in Eres; discriminate].
  destruct (randomID 5 (Demo.tracer false) w1) as [[id w2]|] eqn:Erand;
    [|vm_compute in Eres; injection Eres as <- <-; vm_compute in Erand;
      discriminate].
  assert (Hres : res_isSelfRef res = false /\ res_hasParent res = true
                 /\ baggage (res_parent res) = Some 0%nat).
  { vm_compute in Eres. injection Eres as <- <-. repeat split. }
  destruct Hres as (Hself & Hhas & Hbag).
  apply (StartSpan_copies_baggage 5 (Demo.tracer false) "op" Demo.childOfB
           Demo.world0 res w1 id w2 0%nat (<["k" := "v"]> ∅)
           Eres Hself Hhas Hbag).
  - vm_compute. reflexivity.
  - intros Hempty. apply (f_equal (fun m => m !! "k")) in Hempty.
    vm_compute in Hempty. discriminate.
  - exact Erand.
Defined.

Section SamplingPriorityTag.
Context {Env Carrier : Type}.
Implicit Types (w : World Env) (t : Tracer Env Carrier) (res : Resolution).

Lemma testbit_one (i : Z) : Z.testbit 1 i = (i =? 0).
Proof. destruct i; reflexivity. Qed.

(** The bits that [setSamplingPriority] writes. *)
Lemma sampled_after_set (f : Z) :
  (Z.land (Z.lor f flagSampled) flagSampled =? flagSampled) = true.
Proof.
  unfold flagSampled. apply Z.eqb_eq. apply Z.bits_inj'. intros i _.
  rewrite Z.land_spec, Z.lor_spec, testbit_one.
  destruct (i =? 0); [rewrite orb_true_r; reflexivity|apply andb_false_r].
Qed.

Lemma sampled_after_clear (f : Z) :
  (Z.land (Z.land f (Z.lxor 255 flagSampled)) flagSampled =? flagSampled) = false.
Proof.
  unfold flagSampled.
  rewrite <- Z.land_assoc. change (Z.land (Z.lxor 255 1) 1) with 0.
  rewrite Z.land_0_r. reflexivity.
Qed.

Lemma testbit_two (i : Z) : 0 <= i -> Z.testbit 2 i = (i =? 1).
Proof.
  intros Hi. change 2 with (2 ^ 1). rewrite Z.pow2_bits_eqb by lia.
  apply Z.eqb_sym.
Qed.

Lemma debug_after_set (f : Z) :
  (Z.land (Z.lor (Z.lor f flagDebug) flagSampled) flagDebug =? flagDebug) = true.
Proof.
  unfold flagSampled, flagDebug. apply Z.eqb_eq. apply Z.bits_inj'. intros i Hi.
  rewrite Z.land_spec, !Z.lor_spec, testbit_one, testbit_two by exact Hi.
  destruct (i =? 1); [|apply andb_false_r].
  rewrite orb_true_r. reflexivity.
Qed.

Lemma lookupTag_elem k v (l : list (string * TagValue)) :
  lookupTag k l = Some v -> (k, v) ∈ l.
Proof.
  induction l as [|[k' v'] l IH]; cbn; [discriminate|].
  destruct (String.eqb k' k) eqn:E.
  - apply String.eqb_eq in E. intros [= ->]. subst. left.
  - intros H. right. auto.
Qed.

(** C5 (as the code has it, with [setSamplingPriority] and
    [setTagNoLocking] modelled, both being in span.go).  For every
    [StartSpan] call whose tags hold the sampling-priority key with a
    16-bit unsigned value: the value 0 clears the sampled flag, and the tag
    is stored.  A value greater than 0 is forced sampling.  With the
    option [noDebugFlagOnForcedSampling] it sets the sampled flag, and the
    tag is stored.  Without the option the debug throttler is asked, once
    and for the operation of the span, in the environment that the
    construction of the context has left: when the throttler allows, the
    sampled and the debug flag are set, whatever the sampler or the parent
    said, and the tag is stored; when it denies, the context is left as it
    was built, so the span is sampled only if the sampler or the parent
    said so, and the tag is dropped.  The tag is stored exactly when the
    flags were updated, because tracer.go:410-413 skips the tag only when
    [setSamplingPriority] reports [false]. *)
Theorem StartSpan_sampling_priority fuel t (operation : string) opts w res w1
  id w2 (n : Z) :
  resolveReferences t opts w = Some (res, w1) ->
  randomID fuel t w1 = Some (id, w2) ->
  wf_tags (Tags opts) ->
  lookupTag SamplingPriority (Tags opts) = Some (VUint16 n) ->
  0 <= n ->
  exists d w3 sp w',
    deriveContext fuel t operation opts res w1 = Some (d, w3)
    /\ startSpanWithOptions fuel t operation opts w = Some (sp, w')
    /\ sameIdentity (context sp) (d_ctx d)
    /\ (n = 0 ->
        flags (context sp) = Z.land (flags (d_ctx d)) (Z.lxor 255 flagSampled)
        /\ IsSampled (context sp) = false
        /\ tags sp = d_samplerTags d ++ storedTags true (Tags opts)
        /\ filter (fun e => isThrottlerCall e = true) (newCalls w3 w') = [])
    /\ (0 < n -> noDebugFlagOnForcedSampling (options t) = true ->
        flags (context sp) = Z.lor (flags (d_ctx d)) flagSampled
        /\ IsSampled (context sp) = true
        /\ tags sp = d_samplerTags d ++ storedTags true (Tags opts)
        /\ filter (fun e => isThrottlerCall e = true) (newCalls w3 w') = [])
    /\ (0 < n -> noDebugFlagOnForcedSampling (options t) = false ->
        filter (fun e => isThrottlerCall e = true) (newCalls w3 w')
        = [EvIsDebugAllowed operation]
        /\ if (debugThrottler t operation (env w3)).1
           then flags (context sp)
                = Z.lor (Z.lor (flags (d_ctx d)) flagDebug) flagSampled
                /\ IsSampled (context sp) = true
                /\ IsDebug (context sp) = true
                /\ tags sp = d_samplerTags d ++ storedTags true (Tags opts)
           else context sp = d_ctx d
                /\ tags sp = d_samplerTags d ++ storedTags false (Tags opts))
    /\ mkTag SamplingPriority (VUint16 n) ∈ storedTags true (Tags opts)
    /\ mkTag SamplingPriority (VUint16 n) ∉ storedTags false (Tags opts).
Proof.
  intros Eres Hrand Hwf Hlook Hn.
  destruct (deriveContext_total fuel t operation opts res w1 id w2 Hrand)
    as (d & w3 & Eder).
  destruct (startSpanWithOptions_spec _ _ _ _ _ _ _ _ _ Eres Eder)
    as (sp & evs & kept & E & Hid & Htags & _ & _ & _ & _ & Hctx & Hth).
  destruct (Hctx Hwf) as [Hfl Hkept]. clear Hctx.
  rewrite Hlook in Hfl. unfold tagsAccepted in Hkept. rewrite Hlook in Hkept.
  rewrite (throttledTags_wf t _ Hwf), Hlook in Hth.
  assert (Hcalls : filter (fun e => isThrottlerCall e = true)
                     (newCalls w3 (mkWorld (tagEnv t operation (env w3) (Tags opts))
                                     (heap w3) (calls w3 ++ evs)))
                   = (fun _ => EvIsDebugAllowed operation)
                       <$> (if asksThrottler t (VUint16 n)
                            then [(SamplingPriority, VUint16 n)] else [])).
  { rewrite (newCalls_app w3 (mkWorld (tagEnv t operation (env w3) (Tags opts))
                                  (heap w3) (calls w3 ++ evs)) evs)
      by reflexivity.
    exact Hth. }
  subst kept. unfold priorityFlags in Hfl. unfold priorityAccepted in Htags.
  unfold asksThrottler in Hcalls.
  exists d, w3, sp. eexists. split; [exact Eder|]. split; [exact E|].
  split; [exact Hid|].
  split; [|split; [|split; [|split]]].
  - intros ->. cbn [Z.eqb negb andb orb fmap list_fmap] in *.
    split; [exact Hfl|]. split; [|split; [exact Htags|exact Hcalls]].
    unfold IsSampled. rewrite Hfl. apply sampled_after_clear.
  - intros Hpos Hopt.
    replace (n =? 0) with false in * by (symmetry; apply Z.eqb_neq; lia).
    rewrite Hopt in *. cbn [negb andb orb fmap list_fmap] in *.
    split; [exact Hfl|]. split; [|split; [exact Htags|exact Hcalls]].
    unfold IsSampled. rewrite Hfl. apply sampled_after_set.
  - intros Hpos Hopt.
    replace (n =? 0) with false in * by (symmetry; apply Z.eqb_neq; lia).
    rewrite Hopt in *. cbn [negb andb orb fmap list_fmap] in *.
    split; [exact Hcalls|].
    destruct ((debugThrottler t operation (env w3)).1).
    + split; [exact Hfl|]. unfold IsSampled, IsDebug. rewrite Hfl.
      split; [apply sampled_after_set|].
      split; [apply debug_after_set|exact Htags].
    + split; [apply context_eq; [exact Hid|exact Hfl]|exact Htags].
  - unfold storedTags.
    apply (list_elem_of_fmap_2 (fun kv => mkTag kv.1 kv.2)
             _ (SamplingPriority, VUint16 n)).
    apply list_elem_of_filter. split.
    + unfold isStored. apply orb_true_r.
    + apply lookupTag_elem. exact Hlook.
  - unfold storedTags. intros Hin.
    apply list_elem_of_fmap in Hin as ([k v] & Heq & Hin).
    apply list_elem_of_filter in Hin as [Hst _].
    cbn [fst snd] in Heq. injection Heq as <- _.
    unfold isStored in Hst. cbn [fst] in Hst.
    rewrite String.eqb_refl in Hst. discriminate.
Qed.
End SamplingPriorityTag.

(** C5 (as the specification words it) fails twice.  It fails on "forces
    the sampled flag on": with a throttler that denies, the span started
    with the sampling-priority tag 1 is not sampled, the throttler has been
    asked once and the tag is dropped.  It fails on "instead of being
    stored": with a throttler that allows, the span is sampled, carries the
    debug flag as well and carries the tag among its regular tags. *)
Lemma sampling_priority_stored_counterexample :
  lookupTag SamplingPriority (Tags Demo.forcedSampling) = Some (VUint16 1)
  /\ ((fun r => (IsSampled (context r.1), tags r.1,
                 filter (fun e => isThrottlerCall e = true) (calls r.2))) <$>
        startSpanWithOptions 5 Demo.strictTracer "op" Demo.forcedSampling
          Demo.world0)
     = Some (false, [], [EvIsDebugAllowed "op"])
  /\ ((fun r => (IsSampled (context r.1), flags (context r.1), tags r.1)) <$>
        startSpanWithOptions 5 (Demo.tracer false) "op" Demo.forcedSampling
          Demo.world0)
     = Some (true, 3, [mkTag SamplingPriority (VUint16 1)]).
Proof.
  split; [|split]; vm_compute; reflexivity.
Qed.

(** C5 at the demo tracer, whose sampler never samples and whose throttler
    allows everything. *)
Lemma StartSpan_sampling_priority_witness :
  exists sp w',
    startSpanWithOptions 5 (Demo.tracer false) "op" Demo.forcedSampling Demo.world0
    = Some (sp, w')
    /\ IsSampled (context sp) = true
    /\ IsDebug (context sp) = true
    /\ mkTag SamplingPriority (VUint16 1) ∈ tags sp.
Proof.
  destruct (resolveReferences (Demo.tracer false) Demo.forcedSampling Demo.world0)
    as [[res w1]|] eqn:Eres; [|vm_compute in Eres; discriminate].
  destruct (randomID 5 (Demo.tracer false) w1) as [[id w2]|] eqn:Erand;
    [|vm_compute in Eres; injection Eres as <- <-; vm_compute in Erand;
      discriminate].
  destruct (StartSpan_sampling_priority 5 (Demo.tracer false) "op"
              Demo.forcedSampling Demo.world0 res w1 id w2 1 Eres Erand)
    as (d & w3 & sp & w' & _ & Hrun & _ & _ & _ & Hforced & Hin & _).
  - unfold wf_tags. cbn. apply NoDup_singleton.
  - reflexivity.
  - lia.
  - exists sp, w'. split; [exact Hrun|].
    destruct Hforced as (_ & Hallowed); [lia|reflexivity|].
    cbn [Demo.tracer debugThrottler Demo.allowAll fst] in Hallowed.
    destruct Hallowed as (_ & Hs & Hd & Htags).
    split; [exact Hs|]. split; [exact Hd|].
    rewrite Htags. apply elem_of_app. right. exact Hin.
Defined.

(** * Further properties *)

(** ** What reference resolution computes and calls *)

Section ResolutionAnatomy.
Context {Env Carrier : Type}.
Implicit Types (w : World Env) (t : Tracer Env Carrier) (res : Resolution).

Lemma resolveStep_anatomy res ref w :
  resolveStep res ref w
  = Some (mkResolution (res_startTime res)
            (res_references res
               ++ referencesOf (option_list (candidate (heap w) ref)))
            (match candidate (heap w) ref with
             | Some p => if res_hasParent res then res_parent res else p.2
             | None => res_parent res
             end)
            (match candidate (heap w) ref with
             | Some p => res_hasParent res || isChildOf p
             | None => res_hasParent res
             end)
            (default (res_ctx res) (selfCandidate (heap w) ref))
            (res_isSelfRef res || bool_decide (is_Some (selfCandidate (heap w) ref))),
          mkWorld (env w) (heap w) (calls w ++ option_list (foreignError ref))).
Proof.
  unfold resolveStep, candidate, selfCandidate, foreignError.
  destruct res as [st refs p hp c sr].
  destruct (ReferencedContext ref) as [cr|d]; step_m.
  - destruct (isValidReference (heap w) cr); cbn.
    + destruct (Type_ ref); cbn; try (destruct hp; cbn);
        rewrite ?app_nil_r, ?orb_true_r, ?orb_false_r; destruct w; reflexivity.
    + destruct (Type_ ref); cbn;
        rewrite ?app_nil_r, ?orb_false_r; destruct w; reflexivity.
  - cbn. rewrite app_nil_r, orb_false_r. reflexivity.
Qed.

(** The loop: what it records, which self-reference it keeps, and what it
    logs. *)
Lemma resolveLoop_anatomy refs : forall res w,
  exists res',
    resolveLoop res refs w
    = Some (res', mkWorld (env w) (heap w) (calls w ++ foreignErrors refs))
    /\ res_startTime res' = res_startTime res
    /\ res_references res'
       = res_references res ++ referencesOf (candidates (heap w) refs)
    /\ res_ctx res'
       = default (res_ctx res) (last (selfCandidates (heap w) refs))
    /\ res_isSelfRef res'
       = res_isSelfRef res
         || negb (Nat.eqb (length (selfCandidates (heap w) refs)) 0).
Proof.
  induction refs as [|ref refs IH]; intros res w; cbn [resolveLoop].
  - exists res. unfold ret. cbn. rewrite !app_nil_r, orb_false_r.
    destruct w. repeat split.
  - unfold bind at 1. rewrite resolveStep_anatomy.
    match goal with |- context [resolveLoop ?r refs ?w0] =>
      destruct (IH r w0) as (res' & E & Hst & Hrefs & Hctx & Hself) end.
    cbn [env heap calls res_startTime res_references res_ctx res_isSelfRef] in *.
    exists res'. rewrite E.
    unfold foreignErrors, candidates, selfCandidates in *.
    cbn [omap list_omap].
    split.
    { destruct (foreignError ref); cbn [option_list];
        rewrite <- ?app_assoc, ?app_nil_r; reflexivity. }
    split; [exact Hst|].
    split.
    { rewrite Hrefs.
      destruct (candidate (heap w) ref); cbn [option_list referencesOf fmap list_fmap];
        rewrite <- ?app_assoc, ?app_nil_r; reflexivity. }
    split.
    { rewrite Hctx.
      destruct (selfCandidate (heap w) ref) as [c|]; cbn [default from_option id];
        [|reflexivity].
      destruct (omap (selfCandidate (heap w)) refs) as [|x l] eqn:El using rev_ind.
      - reflexivity.
      - rewrite app_comm_cons, !last_snoc. reflexivity. }
    { rewrite Hself.
      destruct (selfCandidate (heap w) ref) as [c|]; cbn.
      - rewrite orb_true_r. reflexivity.
      - rewrite orb_false_r. reflexivity. }
Qed.

(** Lines 217-261 as a whole. *)
Lemma resolveReferences_anatomy t opts w res w1 :
  resolveReferences t opts w = Some (res, w1) ->
  let clock := if StartTime opts =? 0 then timeNow t (env w)
               else (StartTime opts, env w) in
  let refs := References opts in
  w1 = mkWorld clock.2 (heap w)
         (calls w ++ (if StartTime opts =? 0 then [EvTimeNow] else [])
                  ++ foreignErrors refs)
  /\ res_startTime res = clock.1
  /\ res_references res = referencesOf (candidates (heap w) refs)
  /\ res_ctx res = default emptyContext (last (selfCandidates (heap w) refs))
  /\ res_isSelfRef res = negb (Nat.eqb (length (selfCandidates (heap w) refs)) 0)
  /\ resolvedParent res = loopParent (candidates (heap w) refs).
Proof.
  cbv zeta. unfold resolveReferences, bind at 1.
  assert (Hstart :
    (if StartTime opts =? 0 then callTimeNow t else ret (StartTime opts)) w
    = Some ((if StartTime opts =? 0 then timeNow t (env w)
             else (StartTime opts, env w)).1,
            mkWorld (if StartTime opts =? 0 then timeNow t (env w)
                     else (StartTime opts, env w)).2 (heap w)
              (calls w ++ (if StartTime opts =? 0 then [EvTimeNow] else [])))).
  { destruct (StartTime opts =? 0).
    - unfold callTimeNow. step_m. destruct (timeNow t (env w)); reflexivity.
    - step_m. rewrite app_nil_r. destruct w; reflexivity. }
  rewrite Hstart. clear Hstart.
  set (clock := if StartTime opts =? 0 then timeNow t (env w)
                else (StartTime opts, env w)).
  unfold bind at 1.
  match goal with |- context [resolveLoop ?r ?l ?w0] =>
    destruct (resolveLoop_anatomy l r w0) as (acc & E & Hst & Hrefs & Hctx & Hself);
    pose proof (resolveLoop_parent l r w0) as HP
  end.
  rewrite E. specialize (HP _ _ E).
  cbn [env heap calls res_startTime res_references res_ctx res_isSelfRef
       res_hasParent res_parent] in *.
  step_m.
  assert (Hfinal :
    forall r, (if negb (res_hasParent acc) && isValidReference (heap w) (res_parent acc)
               then mkResolution (res_startTime acc) (res_references acc)
                      (res_parent acc) true (res_ctx acc) (res_isSelfRef acc)
               else acc) = r ->
              res_startTime r = clock.1
              /\ res_references r = referencesOf (candidates (heap w) (References opts))
              /\ res_ctx r = default emptyContext
                               (last (selfCandidates (heap w) (References opts)))
              /\ res_isSelfRef r
                 = negb (Nat.eqb (length (selfCandidates (heap w) (References opts))) 0)
              /\ resolvedParent r
                 = loopParent (candidates (heap w) (References opts))).
  { intros r <-. unfold resolvedParent, loopParent.
    destruct (firstChildOf (candidates (heap w) (References opts))) as [c|].
    - destruct HP as [Hp Hh]. rewrite Hh. cbn [negb andb]. rewrite Hh, Hp. auto.
    - destruct HP as [Hp Hh]. rewrite Hh, Hp. cbn [negb andb].
      destruct (last ((candidates (heap w) (References opts)).*2)) as [c|] eqn:Hl;
        cbn [default from_option id].
      + rewrite (candidates_usable (heap w) (References opts) c)
          by (apply last_Some_elem_of; exact Hl).
        cbn. auto.
      + rewrite isValidReference_emptyContext. rewrite Hh. auto. }
  destruct (negb (res_hasParent acc) && isValidReference (heap w) (res_parent acc));
    intros [= <- <-]; (split; [rewrite <- app_assoc; reflexivity|]);
    apply Hfinal; reflexivity.
Qed.
End ResolutionAnatomy.

(** ** What the construction of the context computes and calls *)

Section DeriveAnatomy.
Context {Env Carrier : Type}.
Implicit Types (w : World Env) (t : Tracer Env Carrier) (res : Resolution).

Lemma Forall_replicate_random n :
  Forall (fun e => isRandomCall e = true) (replicate n EvRandomNumber).
Proof. induction n; cbn; constructor; auto. Qed.

Lemma random_is_derive (evs : list Event) :
  Forall (fun e => isRandomCall e = true) evs ->
  Forall (fun e => isDeriveCall e = true) evs.
Proof.
  intros HF. eapply Forall_impl; [exact HF|].
  intros e H. unfold isDeriveCall. rewrite H. reflexivity.
Qed.

(** With a usable self-reference nothing is built: the context of the
    self-reference is taken as it is, whatever the fuel. *)
Lemma deriveContext_selfref fuel t (operation : string) opts res w1 :
  res_isSelfRef res = true ->
  deriveContext fuel t operation opts res w1
  = Some (mkDerived (res_ctx res) [] false (isRPCServer (Tags opts)), w1).
Proof. intros H. unfold deriveContext. rewrite H. reflexivity. Qed.

(** Without a self-reference: everything the later properties need to know
    about a run of lines 270-308 that returned. *)
Lemma deriveContext_anatomy fuel t (operation : string) opts res w1 d w3 :
  res_isSelfRef res = false ->
  res_ctx res = emptyContext ->
  deriveContext fuel t operation opts res w1 = Some (d, w3) ->
  let new := negb (res_hasParent res) || negb (IsValid (res_parent res)) in
  let items := baggageOf (heap w1) (res_parent res) in
  let copied := res_hasParent res && (0 <? size items)%nat in
  d_newTrace d = new
  /\ d_rpcServer d = isRPCServer (Tags opts)
  /\ IsValid (d_ctx d) = true
  /\ d_rpcServer d || (parentID (d_ctx d) =? 0)
     = (if new then true else isRPCServer (Tags opts))
  /\ (new = false ->
      traceID (d_ctx d) = traceID (res_parent res)
      /\ flags (d_ctx d) = flags (res_parent res)
      /\ d_samplerTags d = [])
  /\ (new = true -> spanID (d_ctx d) = Low (traceID (d_ctx d))
                    /\ parentID (d_ctx d) = 0)
  /\ baggage (d_ctx d)
     = (if copied then Some (fresh (dom (heap w1))) else None)
  /\ heap w3
     = (if copied then <[fresh (dom (heap w1)) := items]> (heap w1) else heap w1)
  /\ exists evs,
       calls w3 = calls w1 ++ evs
       /\ Forall (fun e => isDeriveCall e = true) evs
       /\ (new = false -> Forall (fun e => isRandomCall e = true) evs).
Proof.
  intros Hself Hctx0 Hrun. cbv zeta.
  unfold deriveContext in Hrun. rewrite Hself in Hrun.
  destruct (negb (res_hasParent res) || negb (IsValid (res_parent res))) eqn:Hnew.
  - (* a new trace *)
    unfold bind at 1 in Hrun. unfold bind at 1 in Hrun.
    destruct (randomID fuel t w1) as [[low w2]|] eqn:Hrand.
    2:{ unfold startNewTrace, bind at 1 in Hrun. rewrite Hrand in Hrun.
        discriminate. }
    pose proof (randomID_nonzero _ _ _ _ _ Hrand) as Hlow.
    destruct (randomID_calls _ _ _ _ _ Hrand) as (Hheap & k & Hcalls).
    pose proof (startNewTrace_spec fuel t operation res w1 low w2 Hrand) as Hnt.
    cbv zeta in Hnt. rewrite Hctx0 in Hnt.
    cbn [baggage debugID emptyContext traceID High] in Hnt.
    set (hi := if gen128Bit (options t)
               then highTraceIDGenerator (options t) (env w2)
               else (0, env w2)) in *.
    set (consult := res_hasParent res && isDebugIDContainerOnly (res_parent res)) in *.
    set (th := if consult then debugThrottler t operation hi.2 else (false, hi.2)) in *.
    set (sm := sampler t (mkTraceID hi.1 low) operation th.2) in *.
    rewrite Hnt in Hrun. clear Hnt.
    assert (Hvalid : forall h fl b,
               IsValid (mkSpanContext (mkTraceID h low) low 0 fl b "") = true).
    { intros h fl b. unfold IsValid, TraceID_IsValid. cbn.
      apply Z.eqb_neq in Hlow. rewrite Hlow. cbn. rewrite orb_true_r. reflexivity. }
    assert (Hevs : forall evs : list Event,
               evs = [EvIsSampled (mkTraceID hi.1 low) operation] \/ evs = [] ->
               Forall (fun e => isDeriveCall e = true)
                 (replicate (S k) EvRandomNumber
                    ++ (if gen128Bit (options t) then [EvHighTraceID] else [])
                    ++ (if consult then [EvIsDebugAllowed operation] else [])
                    ++ evs)).
    { intros evs Hevs. apply Forall_app. split.
      - apply random_is_derive, Forall_replicate_random.
      - apply Forall_app. split.
        + destruct (gen128Bit (options t)); repeat constructor.
        + apply Forall_app. split.
          * destruct consult; repeat constructor.
          * destruct Hevs as [-> | ->]; repeat constructor. }
    destruct (th.1); [|destruct (sm.1.1)];
      unfold ret at 1 in Hrun; unfold bind in Hrun;
      (destruct (res_hasParent res);
       [rewrite copyBaggage_spec in Hrun; cbv zeta in Hrun;
        cbn [heap env calls] in Hrun; rewrite Hheap in Hrun;
        destruct (0 <? size (baggageOf (heap w1) (res_parent res)))%nat
       |]);
      unfold ret in Hrun; injection Hrun as <- <-; unfold setFlags; cbn;
      rewrite ?Hvalid, ?orb_true_r, ?Hheap;
      repeat (split; [solve [reflexivity|discriminate|auto]|]);
      (eexists; split; [rewrite Hcalls, <- ?app_assoc; reflexivity|];
       split; [|discriminate]);
      first [apply Hevs; auto
            | specialize (Hevs [] (or_intror eq_refl));
              rewrite ?app_nil_r in Hevs; exact Hevs].
  - (* joining the trace of the parent *)
    apply orb_false_elim in Hnew as [Hhas Hval].
    apply negb_false_iff in Hhas, Hval.
    assert (Hpv : TraceID_IsValid (traceID (res_parent res)) = true
                  /\ (spanID (res_parent res) =? 0) = false).
    { unfold IsValid in Hval. apply andb_prop in Hval as [H1 H2].
      apply negb_true_iff in H2. auto. }
    destruct Hpv as [Hptid Hpsid].
    rewrite Hhas in *.
    unfold bind at 1 in Hrun. unfold bind at 1 in Hrun.
    unfold joinTrace in Hrun. rewrite Hctx0 in Hrun.
    cbn [baggage debugID emptyContext] in Hrun.
    destruct (isRPCServer (Tags opts) && zipkinSharedRPCSpan (options t)) eqn:Hshared.
    + apply andb_prop in Hshared as [Hrpc _].
      unfold ret at 1 in Hrun. unfold ret at 1 in Hrun. unfold bind in Hrun.
      rewrite copyBaggage_spec in Hrun. cbv zeta in Hrun.
      destruct (0 <? size (baggageOf (heap w1) (res_parent res)))%nat;
        unfold ret in Hrun; injection Hrun as <- <-; cbn;
        unfold IsValid; cbn; rewrite ?Hptid, ?Hpsid, ?Hrpc; cbn;
        repeat (split; [solve [reflexivity|discriminate|auto]|]);
        (exists []; rewrite app_nil_r; repeat split; constructor).
    + unfold bind at 1 in Hrun.
      destruct (randomID fuel t w1) as [[id w2]|] eqn:Hrand; [|discriminate].
      pose proof (randomID_nonzero _ _ _ _ _ Hrand) as Hid.
      apply Z.eqb_neq in Hid.
      destruct (randomID_calls _ _ _ _ _ Hrand) as (Hheap & k & Hcalls).
      unfold ret at 1 in Hrun. unfold ret at 1 in Hrun. unfold bind in Hrun.
      rewrite copyBaggage_spec in Hrun. cbv zeta in Hrun. rewrite Hheap in Hrun.
      destruct (0 <? size (baggageOf (heap w1) (res_parent res)))%nat;
        unfold ret in Hrun; injection Hrun as <- <-; cbn;
        unfold IsValid; cbn; rewrite ?Hptid, ?Hpsid, ?Hid, ?Hheap, ?orb_false_r; cbn;
        repeat (split; [solve [reflexivity|discriminate|auto]|]);
        (eexists; split; [exact Hcalls|];
         split; [apply random_is_derive|intros _]; apply Forall_replicate_random).
Qed.
End DeriveAnatomy.

(** ** What startSpanInternal and the whole of StartSpan call *)

Section SpanAnatomy.
Context {Env Carrier : Type}.
Implicit Types (w : World Env) (t : Tracer Env Carrier) (res : Resolution)
  (sp : Span).

(** Lines 417-435: one or two increments, and what they add up to. *)
Lemma emitMetrics_spec sp (newTrace : bool) w :
  exists mevs,
    emitMetrics sp newTrace w
    = Some (tt, mkWorld (env w) (heap w) (calls w ++ mevs))
    /\ Forall (fun e => isMetricCall e = true) mevs
    /\ (forall c, counterTotal c mevs
                  = expectedInc c (IsSampled (context sp)) newTrace
                      (firstInProcess sp))
    /\ length mevs = (if newTrace || firstInProcess sp then 2 else 1)%nat.
Proof.
  unfold emitMetrics.
  destruct (IsSampled (context sp)), newTrace, (firstInProcess sp); step_m;
    rewrite <- ?app_assoc; rewrite ?app_nil_r;
    (eexists; split; [try reflexivity; instantiate (1 := [_]); reflexivity|]);
    (split; [repeat constructor|]);
    (split; [intros []; reflexivity|reflexivity]).
Qed.

(** The tags that the loop keeps are tags of the caller, in the caller's
    order. *)
Lemma applyTags_sublist t (spanTags : list (string * TagValue)) :
  forall sp w sp' w',
    applyTags t sp spanTags w = Some (sp', w') ->
    exists kept,
      tags sp' = tags sp ++ kept
      /\ sublist kept ((fun kv => mkTag kv.1 kv.2) <$> spanTags).
Proof.
  induction spanTags as [|[k v] rest IH]; intros sp w sp' w'.
  - cbn. unfold ret. intros [= <- _]. exists []. rewrite app_nil_r.
    split; [reflexivity|constructor].
  - cbn [applyTags]. unfold bind at 1, call. cbn [env heap calls].
    destruct (String.eqb k SamplingPriority).
    + destruct (setSamplingPriority_spec t sp v
                  (mkWorld (env w) (heap w) (calls w ++ [EvOnSetTag k v])))
        as (sp1 & E1 & _ & _ & Htg1 & _).
      unfold bind at 1. rewrite E1.
      destruct (priorityAccepted t (operationName sp) _ v); cbn [negb];
        intros Hrun; destruct (IH _ _ _ _ Hrun) as (kept & Ht & Hsub).
      * exists (mkTag k v :: kept). cbn [setTagNoLocking tags] in Ht.
        rewrite Ht, Htg1, <- app_assoc. split; [reflexivity|].
        cbn [fmap list_fmap fst snd]. apply sublist_skip. exact Hsub.
      * exists kept. rewrite Ht, Htg1. split; [reflexivity|].
        cbn [fmap list_fmap]. apply sublist_cons. exact Hsub.
    + intros Hrun. destruct (IH _ _ _ _ Hrun) as (kept & Ht & Hsub).
      exists (mkTag k v :: kept). cbn [setTagNoLocking tags] in Ht.
      rewrite Ht, <- app_assoc. split; [reflexivity|].
      cbn [fmap list_fmap fst snd]. apply sublist_skip. exact Hsub.
Qed.

Lemma startSpanInternal_anatomy t sp (operation : string) (start : Z)
  (internalTags : list Tag) (spanTags : list (string * TagValue))
  (newTrace rpcServer : bool) (refs : list Reference) w :
  tags sp = [] ->
  exists sp' mevs kept,
    startSpanInternal t sp operation start internalTags spanTags newTrace
      rpcServer refs w
    = Some (sp', mkWorld (tagEnv t operation (env w) spanTags) (heap w)
                   (calls w ++ tagEvents t operation spanTags ++ mevs))
    /\ Forall (fun e => isMetricCall e = true) mevs
    /\ (forall c, counterTotal c mevs
                  = expectedInc c (IsSampled (context sp')) newTrace
                      (firstInProcess sp'))
    /\ length mevs = (if newTrace || firstInProcess sp' then 2 else 1)%nat
    /\ sameIdentity (context sp') (context sp)
    /\ tags sp' = internalTags ++ kept
    /\ operationName sp' = operation
    /\ startTime sp' = start
    /\ duration sp' = 0
    /\ references sp' = refs
    /\ firstInProcess sp' = rpcServer || (parentID (context sp) =? 0)
    /\ (lookupTag SamplingPriority spanTags = None -> context sp' = context sp)
    /\ sublist kept ((fun kv => mkTag kv.1 kv.2) <$> spanTags)
    /\ (lookupTag SamplingPriority spanTags = None ->
        kept = (fun kv => mkTag kv.1 kv.2) <$> spanTags)
    /\ (wf_tags spanTags ->
        flags (context sp')
        = match lookupTag SamplingPriority spanTags with
          | Some v => priorityFlags t operation (env w) (flags (context sp)) v
          | None => flags (context sp)
          end
        /\ kept = storedTags (tagsAccepted t operation (env w) spanTags) spanTags).
Proof.
  intros Hblank. unfold startSpanInternal.
  destruct ((0 <? length spanTags)%nat || (0 <? length internalTags)%nat) eqn:Hlen.
  - match goal with |- context [applyTags t ?s spanTags] =>
      destruct (applyTags_spec t spanTags s w)
        as (sp' & kept & E & Hid & Hhd & Ht & Hno & Hwf);
      destruct (applyTags_sublist t spanTags s w _ _ E) as (kept' & Ht' & Hsub)
    end.
    rewrite Ht in Ht'. apply app_inv_head in Ht'. subst kept'.
    unfold bind at 1. rewrite E.
    cbn [operationName context tags] in Hid, Ht, Hno, Hwf |- *.
    destruct (emitMetrics_spec sp' newTrace
                (mkWorld (tagEnv t operation (env w) spanTags) (heap w)
                   (calls w ++ tagEvents t operation spanTags)))
      as (mevs & Em & Hm1 & Hm2 & Hm3).
    unfold bind. rewrite Em. cbn [env heap calls]. unfold ret.
    exists sp', mevs, kept. rewrite <- app_assoc. split; [reflexivity|].
    destruct Hhd as (Hop & Hst & Hdu & Hre & Hfi). cbn in Hop, Hst, Hdu, Hre, Hfi.
    split; [exact Hm1|]. split; [exact Hm2|]. split; [exact Hm3|].
    split; [exact Hid|]. split; [exact Ht|]. split; [exact Hop|].
    split; [exact Hst|]. split; [exact Hdu|]. split; [exact Hre|].
    split; [exact Hfi|]. split; [intros H; apply Hno; exact H|].
    split; [exact Hsub|]. split; [intros H; apply Hno; exact H|exact Hwf].
  - apply orb_false_elim in Hlen as [H1 H2].
    apply length_zero_nil in H1, H2. subst spanTags internalTags.
    unfold bind at 1, ret at 1.
    match goal with |- context [emitMetrics ?s newTrace] =>
      destruct (emitMetrics_spec s newTrace w) as (mevs & Em & Hm1 & Hm2 & Hm3) end.
    unfold bind. rewrite Em. unfold ret.
    eexists _, mevs, []. split; [reflexivity|]. cbn [context firstInProcess] in Hm2, Hm3.
    cbn. split; [exact Hm1|]. split; [exact Hm2|]. split; [exact Hm3|].
    split; [apply sameIdentity_refl|]. split; [exact Hblank|].
    repeat (split; [first [reflexivity|constructor|intros _; reflexivity]|]).
    reflexivity.
Qed.

(** Everything that a run of [startSpanWithOptions] that returned has
    done, phase by phase. *)
Lemma startSpanWithOptions_anatomy fuel t (operation : string) opts w sp w' :
  startSpanWithOptions fuel t operation opts w = Some (sp, w') ->
  exists res w1 d w3 mevs kept,
    resolveReferences t opts w = Some (res, w1)
    /\ deriveContext fuel t operation opts res w1 = Some (d, w3)
    /\ env w' = tagEnv t operation (env w3) (Tags opts)
    /\ heap w' = heap w3
    /\ calls w'
       = calls w3
         ++ [EvAllocatorGet;
             EvOnStartSpan (setContext blankSpan (d_ctx d)) operation]
         ++ tagEvents t operation (Tags opts)
         ++ mevs
    /\ Forall (fun e => isMetricCall e = true) mevs
    /\ (forall c, counterTotal c mevs
                  = expectedInc c (IsSampled (context sp)) (d_newTrace d)
                      (firstInProcess sp))
    /\ length mevs = (if d_newTrace d || firstInProcess sp then 2 else 1)%nat
    /\ sameIdentity (context sp) (d_ctx d)
    /\ tags sp = d_samplerTags d ++ kept
    /\ operationName sp = operation
    /\ startTime sp = res_startTime res
    /\ duration sp = 0
    /\ references sp = res_references res
    /\ firstInProcess sp = d_rpcServer d || (parentID (d_ctx d) =? 0)
    /\ (lookupTag SamplingPriority (Tags opts) = None -> context sp = d_ctx d)
    /\ sublist kept ((fun kv => mkTag kv.1 kv.2) <$> Tags opts)
    /\ (lookupTag SamplingPriority (Tags opts) = None ->
        kept = (fun kv => mkTag kv.1 kv.2) <$> Tags opts)
    /\ (wf_tags (Tags opts) ->
        flags (context sp)
        = match lookupTag SamplingPriority (Tags opts) with
          | Some v => priorityFlags t operation (env w3) (flags (d_ctx d)) v
          | None => flags (d_ctx d)
          end
        /\ kept = storedTags (tagsAccepted t operation (env w3) (Tags opts))
                    (Tags opts)).
Proof.
  unfold startSpanWithOptions. unfold bind at 1.
  destruct (resolveReferences t opts w) as [[res w1]|] eqn:Eres; [|discriminate].
  unfold bind at 1.
  destruct (deriveContext fuel t operation opts res w1) as [[d w3]|] eqn:Eder;
    [|discriminate].
  unfold newSpan. step_m.
  match goal with |- context [startSpanInternal t ?s _ _ _ _ _ _ _ ?w0] =>
    destruct (startSpanInternal_anatomy t s operation (res_startTime res)
                (d_samplerTags d) (Tags opts) (d_newTrace d) (d_rpcServer d)
                (res_references res) w0 eq_refl)
      as (sp' & mevs & kept & E & H)
  end.
  cbn [env heap calls] in E. rewrite E. intros [= <- <-].
  exists res, w1, d, w3, mevs, kept. cbn [env heap calls].
  split; [reflexivity|]. split; [exact Eder|]. split; [reflexivity|].
  split; [reflexivity|].
  split; [rewrite <- !app_assoc; reflexivity|]. exact H.
Qed.

(** Sums over a trace. *)
Lemma counterTotal_app c (l1 l2 : list Event) :
  counterTotal c (l1 ++ l2) = counterTotal c l1 + counterTotal c l2.
Proof.
  unfold counterTotal. induction l1 as [|e l1 IH]; cbn [foldr app].
  - reflexivity.
  - fold (counterTotal c) in *. destruct e; try exact IH.
    destruct (isIncOf c (EvInc c0 delta)); [|exact IH].
    rewrite IH. lia.
Qed.

Lemma counterTotal_no_metric c (l : list Event) :
  Forall (fun e => isMetricCall e = false) l -> counterTotal c l = 0.
Proof.
  unfold counterTotal. induction 1 as [|e l He _ IH]; [reflexivity|].
  cbn [foldr]. destruct e; try exact IH. discriminate.
Qed.

Lemma filter_none (p : Event -> bool) (l : list Event) :
  Forall (fun e => p e = false) l -> filter (fun e => p e = true) l = [].
Proof.
  induction 1 as [|e l He _ IH]; [reflexivity|].
  rewrite filter_cons_False by (rewrite He; discriminate). exact IH.
Qed.

Lemma filter_all (p : Event -> bool) (l : list Event) :
  Forall (fun e => p e = true) l -> filter (fun e => p e = true) l = l.
Proof.
  induction 1 as [|e l He _ IH]; [reflexivity|].
  rewrite filter_cons_True by exact He. rewrite IH. reflexivity.
Qed.

Lemma Forall_class (p q : Event -> bool) (l : list Event) :
  (forall e, p e = true -> q e = false) ->
  Forall (fun e => p e = true) l -> Forall (fun e => q e = false) l.
Proof. intros Hpq HF. eapply Forall_impl; [exact HF|]. exact Hpq. Qed.
End SpanAnatomy.

Section Summary.
Context {Env Carrier : Type}.
Implicit Types (w : World Env) (t : Tracer Env Carrier) (res : Resolution)
  (sp : Span).

Lemma foreignErrors_logger refs :
  Forall (fun e => isLoggerCall e = true) (foreignErrors refs).
Proof.
  unfold foreignErrors. induction refs as [|ref refs IH]; cbn; [constructor|].
  unfold foreignError at 1. destruct (ReferencedContext ref); cbn; [exact IH|].
  constructor; [reflexivity|exact IH].
Qed.

(** The calls of the loop over the tags: the observer and the throttler
    only, and the observer once for every tag. *)
Lemma tagEvents_class t (operation : string) (spanTags : list (string * TagValue)) :
  Forall (fun e => isTagCall e = true) (tagEvents t operation spanTags).
Proof.
  induction spanTags as [|[k v] rest IH]; cbn [tagEvents]; [constructor|].
  constructor; [reflexivity|].
  destruct (String.eqb k SamplingPriority && asksThrottler t v); cbn [app];
    [constructor; [reflexivity|exact IH]|exact IH].
Qed.


(** A run of [startSpanWithOptions] that returned, in terms of what the
    caller passed: [self] says whether a usable self-reference was given,
    [parent] is the resolved parent, [new] says whether a new trace is
    started and [copied] whether baggage is copied. *)
Lemma startSpanWithOptions_summary fuel t (operation : string) opts w sp w' :
  startSpanWithOptions fuel t operation opts w = Some (sp, w') ->
  let refs := References opts in
  let h := heap w in
  let self := negb (Nat.eqb (length (selfCandidates h refs)) 0) in
  let parent := loopParent (candidates h refs) in
  let new := negb self && match parent with
                          | Some p => negb (IsValid p)
                          | None => true
                          end in
  let items := match parent with Some p => baggageOf h p | None => ∅ end in
  let copied := negb self && (0 <? size items)%nat in
  exists devs mevs built,
    newCalls w w'
    = (if StartTime opts =? 0 then [EvTimeNow] else [])
      ++ foreignErrors refs ++ devs
      ++ [EvAllocatorGet; EvOnStartSpan (setContext blankSpan built) operation]
      ++ tagEvents t operation (Tags opts) ++ mevs
    /\ Forall (fun e => isDeriveCall e = true) devs
    /\ (new = false -> Forall (fun e => isRandomCall e = true) devs)
    /\ (self = true -> devs = [])
    /\ Forall (fun e => isMetricCall e = true) mevs
    /\ (forall c, counterTotal c mevs
                  = expectedInc c (IsSampled (context sp)) new (firstInProcess sp))
    /\ sameIdentity (context sp) built
    /\ (lookupTag SamplingPriority (Tags opts) = None -> context sp = built)
    /\ (self = true -> built = default emptyContext (last (selfCandidates h refs)))
    /\ (self = false ->
        IsValid built = true
        /\ firstInProcess sp = (if new then true else isRPCServer (Tags opts))
        /\ baggage built = (if copied then Some (fresh (dom h)) else None)
        /\ (new = true -> spanID built = Low (traceID built) /\ parentID built = 0))
    /\ heap w' = (if copied then <[fresh (dom h) := items]> h else h)
    /\ startTime sp = (if StartTime opts =? 0 then (timeNow t (env w)).1
                       else StartTime opts)
    /\ references sp = referencesOf (candidates h refs)
    /\ operationName sp = operation
    /\ duration sp = 0
    /\ length mevs = (if new || firstInProcess sp then 2 else 1)%nat
    /\ exists samplerTags kept,
         tags sp = samplerTags ++ kept
         /\ (new = false -> samplerTags = [])
         /\ sublist kept ((fun kv => mkTag kv.1 kv.2) <$> Tags opts)
         /\ (lookupTag SamplingPriority (Tags opts) = None ->
             kept = (fun kv => mkTag kv.1 kv.2) <$> Tags opts).
Proof.
  intros Hrun. cbv zeta.
  destruct (startSpanWithOptions_anatomy _ _ _ _ _ _ _ Hrun)
    as (res & w1 & d & w3 & mevs & kept & Eres & Eder & Henv & Hheap & Hcalls
        & Hm1 & Hm2 & Hm3 & Hid & Htags & Hop & Hst & Hdu & Hrefs & Hfip & Hno
        & Hsub & Hkall & _).
  destruct (resolveReferences_anatomy _ _ _ _ _ Eres)
    as (Hw1 & Hstart & Hrr & Hrctx & Hrself & Hrpar).
  cbv zeta in Hw1, Hstart.
  set (h := heap w) in *. set (refs := References opts) in *.
  assert (Hh1 : heap w1 = h) by (rewrite Hw1; reflexivity).
  assert (Hc1 : calls w1 = calls w ++ (if StartTime opts =? 0 then [EvTimeNow] else [])
                                   ++ foreignErrors refs)
    by (rewrite Hw1; reflexivity).
  assert (Hstart' : res_startTime res
                    = if StartTime opts =? 0 then (timeNow t (env w)).1
                      else StartTime opts).
  { rewrite Hstart. destruct (StartTime opts =? 0); reflexivity. }
  destruct (res_isSelfRef res) eqn:Hself.
  - (* a self-reference *)
    rewrite (deriveContext_selfref _ _ _ _ _ _ Hself) in Eder.
    injection Eder as <- <-. cbn [d_ctx d_newTrace d_samplerTags d_rpcServer] in *.
    rewrite <- Hrself. cbn [negb andb].
    exists [], mevs, (res_ctx res).
    split.
    { apply newCalls_app. rewrite Hcalls, Hc1, <- !app_assoc. reflexivity. }
    split; [constructor|]. split; [intros _; constructor|].
    split; [reflexivity|]. split; [exact Hm1|]. split; [exact Hm2|].
    split; [exact Hid|]. split; [exact Hno|]. split; [intros _; exact Hrctx|].
    split; [discriminate|]. split; [rewrite Hheap; exact Hh1|].
    split; [congruence|]. split; [congruence|]. split; [exact Hop|].
    split; [exact Hdu|]. split; [exact Hm3|].
    exists [], kept. split; [exact Htags|]. split; [reflexivity|].
    split; [exact Hsub|exact Hkall].
  - (* no self-reference *)
    assert (Hctx0 : res_ctx res = emptyContext).
    { destruct (resolveReferences_facts _ _ _ _ _ Eres) as [_ H]. auto. }
    destruct (deriveContext_anatomy _ _ _ _ _ _ _ _ Hself Hctx0 Eder)
      as (Hnew & Hrpc & Hvalid & Hfirst & Hjoin & Hroot & Hbag & Hheap3 & devs
          & Hdcalls & Hdev & Hdrand).
    rewrite <- Hrself. cbn [negb andb].
    rewrite Hh1 in *.
    assert (Hnew' : negb (res_hasParent res) || negb (IsValid (res_parent res))
                    = match loopParent (candidates h refs) with
                      | Some p => negb (IsValid p)
                      | None => true
                      end).
    { rewrite <- Hrpar. unfold resolvedParent.
      destruct (res_hasParent res); reflexivity. }
    assert (Hcopied : res_hasParent res
                      && (0 <? size (baggageOf h (res_parent res)))%nat
                      = (0 <? size match loopParent (candidates h refs) with
                                   | Some p => baggageOf h p
                                   | None => ∅
                                   end)%nat
                      /\ (res_hasParent res
                          && (0 <? size (baggageOf h (res_parent res)))%nat = true ->
                          baggageOf h (res_parent res)
                          = match loopParent (candidates h refs) with
                            | Some p => baggageOf h p
                            | None => ∅
                            end)).
    { rewrite <- Hrpar. unfold resolvedParent.
      destruct (res_hasParent res); cbn; [auto|]. split; [reflexivity|discriminate]. }
    destruct Hcopied as [Hcop Hitems].
    rewrite Hnew' in *. rewrite Hcop in *.
    exists devs, mevs, (d_ctx d).
    split.
    { apply newCalls_app. rewrite Hcalls, Hdcalls, Hc1, <- !app_assoc. reflexivity. }
    split; [exact Hdev|]. split; [exact Hdrand|]. split; [discriminate|].
    split; [exact Hm1|]. split; [rewrite <- Hnew; exact Hm2|].
    split; [exact Hid|]. split; [exact Hno|]. split; [discriminate|].
    split.
    { intros _. split; [exact Hvalid|]. split; [rewrite Hfip; exact Hfirst|].
      split; [exact Hbag|exact Hroot]. }
    split.
    { rewrite Hheap, Hheap3.
      destruct (0 <? size match loopParent (candidates h refs) with
                          | Some p => baggageOf h p
                          | None => ∅
                          end)%nat eqn:Hc; [|reflexivity].
      rewrite (Hitems eq_refl). reflexivity. }
    split; [congruence|]. split; [congruence|]. split; [exact Hop|].
    split; [exact Hdu|]. split; [rewrite <- Hnew; exact Hm3|].
    exists (d_samplerTags d), kept. split; [exact Htags|].
    split; [intros Hn; apply Hjoin; exact Hn|].
    split; [exact Hsub|exact Hkall].
Qed.
End Summary.

(** ** StartSpan: invariants, calls and edge cases *)

(** Rewrites the filter of a segment of calls whose class is known. *)
Ltac class_impl H :=
  eapply Forall_impl; [exact H|];
  intros []; cbn; intros; first [reflexivity|discriminate].

Ltac filter_segments :=
  rewrite ?filter_app;
  repeat match goal with
         | H : Forall (fun e => _ e = true) ?l
           |- context [filter (fun e => ?q e = true) ?l] =>
             first [ rewrite (filter_all q l) by class_impl H
                   | rewrite (filter_none q l) by class_impl H ]
         end.

Section StartSpanExtras.
Context {Env Carrier : Type}.
Implicit Types (w : World Env) (t : Tracer Env Carrier) (sp : Span).

Lemma length_zero_iff_nil {A} (l : list A) :
  negb (Nat.eqb (length l) 0) = false <-> l = [].
Proof. destruct l; cbn; split; intros; congruence. Qed.

Lemma IsValid_sameIdentity c1 c2 :
  sameIdentity c1 c2 -> IsValid c1 = IsValid c2.
Proof. intros (Ht & Hs & _). unfold IsValid. rewrite Ht, Hs. reflexivity. Qed.

(** X1.  Unless the caller passes a usable self-reference, the context of
    every span that [StartSpan] returns is valid: its trace ID and its
    span ID are not zero. *)
Theorem StartSpan_context_valid fuel t (operation : string) opts w sp w' :
  startSpanWithOptions fuel t operation opts w = Some (sp, w') ->
  selfCandidates (heap w) (References opts) = [] ->
  IsValid (context sp) = true.
Proof.
  intros Hrun Hnoself.
  destruct (startSpanWithOptions_summary _ _ _ _ _ _ _ Hrun)
    as (devs & mevs & built & _ & _ & _ & _ & _ & _ & Hid & _ & _ & Hns & _).
  rewrite Hnoself in Hns. destruct (Hns eq_refl) as (Hvalid & _).
  rewrite (IsValid_sameIdentity _ _ Hid). exact Hvalid.
Qed.

(** X2.  With a usable self-reference the new span takes the context of
    the last such reference as it is, including the address of its baggage
    map: this needs no fuel, no identifier is drawn, neither the sampler
    nor the high-word generator is called, no baggage is copied, and the
    span does not count as a new trace.  The debug throttler is asked only
    by the loop over the caller's tags, once for every sampling-priority
    tag that forces sampling, and not at all without such a tag; only such
    a tag can change the flags of the context. *)
Theorem StartSpan_self_reference fuel t (operation : string) opts w
  (c : SpanContext) :
  last (selfCandidates (heap w) (References opts)) = Some c ->
  exists sp w',
    startSpanWithOptions fuel t operation opts w = Some (sp, w')
    /\ sameIdentity (context sp) c
    /\ (lookupTag SamplingPriority (Tags opts) = None -> context sp = c)
    /\ heap w' = heap w
    /\ filter (fun e => isRandomCall e = true) (newCalls w w') = []
    /\ filter (fun e => isHighTraceIDCall e = true) (newCalls w w') = []
    /\ filter (fun e => isSamplerCall e = true) (newCalls w w') = []
    /\ filter (fun e => isThrottlerCall e = true) (newCalls w w')
       = (fun _ => EvIsDebugAllowed operation) <$> throttledTags t (Tags opts)
    /\ (lookupTag SamplingPriority (Tags opts) = None ->
        filter (fun e => isThrottlerCall e = true) (newCalls w w') = [])
    /\ counterTotal TracesStartedSampled (newCalls w w') = 0
    /\ counterTotal TracesStartedNotSampled (newCalls w w') = 0.
Proof.
  intros Hlast.
  assert (Hself : negb (Nat.eqb (length (selfCandidates (heap w) (References opts))) 0)
                  = true).
  { destruct (selfCandidates (heap w) (References opts)); [discriminate|reflexivity]. }
  destruct (resolveReferences_total t opts w) as (res & w1 & Eres & _).
  destruct (resolveReferences_anatomy _ _ _ _ _ Eres) as (_ & _ & _ & _ & Hrself & _).
  rewrite Hself in Hrself.
  pose proof (deriveContext_selfref fuel t operation opts res w1 Hrself) as Eder.
  destruct (startSpanWithOptions_spec _ _ _ _ _ _ _ _ _ Eres Eder)
    as (sp & evs & kept0 & Hrun & _).
  exists sp. eexists. split; [exact Hrun|].
  destruct (startSpanWithOptions_summary _ _ _ _ _ _ _ Hrun)
    as (devs & mevs & built & Hcalls & _ & _ & Hdevs & Hmet & Htot & Hid & Hno
        & Hbuilt & _ & Hheap & _).
  rewrite Hself in *. cbn [negb andb] in *.
  rewrite (Hdevs eq_refl) in Hcalls. rewrite (Hbuilt eq_refl), Hlast in *.
  cbn [default from_option id] in *.
  split; [exact Hid|]. split; [exact Hno|]. split; [exact Hheap|].
  rewrite Hcalls.
  assert (Hclk : Forall (fun e => isClockCall e = true)
                   (if StartTime opts =? 0 then [EvTimeNow] else []))
    by (destruct (StartTime opts =? 0); repeat constructor).
  pose proof (foreignErrors_logger (References opts)) as Hlog.
  pose proof (tagEvents_class t operation (Tags opts)) as Hobs.
  assert (Hthr : filter (fun e => isThrottlerCall e = true)
                   ((if StartTime opts =? 0 then [EvTimeNow] else [])
                    ++ foreignErrors (References opts) ++ []
                    ++ [EvAllocatorGet;
                        EvOnStartSpan (setContext blankSpan c) operation]
                    ++ tagEvents t operation (Tags opts) ++ mevs)
                 = (fun _ => EvIsDebugAllowed operation)
                     <$> throttledTags t (Tags opts)).
  { filter_segments. rewrite tagEvents_throttler, app_nil_r. reflexivity. }
  split; [filter_segments; reflexivity|].
  split; [filter_segments; reflexivity|].
  split; [filter_segments; reflexivity|].
  split; [exact Hthr|].
  split; [intros Hnone; rewrite Hthr, (no_priority_throttled t _ Hnone);
          reflexivity|].
  rewrite !counterTotal_app, !Htot.
  rewrite !(counterTotal_no_metric _ (if StartTime opts =? 0 then _ else _))
    by class_impl Hclk.
  rewrite !(counterTotal_no_metric _ (foreignErrors _)) by class_impl Hlog.
  rewrite !(counterTotal_no_metric _ (tagEvents _ _ _)) by class_impl Hobs.
  cbn. rewrite !andb_false_r. split; reflexivity.
Qed.
End StartSpanExtras.

(** X1 at the demo tracer. *)
Lemma StartSpan_context_valid_witness :
  exists sp w',
    startSpanWithOptions 5 (Demo.tracer false) "op" Demo.mixedOptions Demo.world0
    = Some (sp, w')
    /\ IsValid (context sp) = true.
Proof.
  destruct (startSpanWithOptions 5 (Demo.tracer false) "op" Demo.mixedOptions
              Demo.world0) as [[sp w']|] eqn:Hrun;
    [|vm_compute in Hrun; discriminate].
  exists sp, w'. split; [reflexivity|].
  apply (StartSpan_context_valid 5 (Demo.tracer false) "op" Demo.mixedOptions
           Demo.world0 sp w' Hrun).
  vm_compute. reflexivity.
Defined.

(** X2 at the demo tracer, without any fuel, for a self-reference with
    the sampling-priority tag 1: the throttler is asked once. *)
Lemma StartSpan_self_reference_witness :
  exists sp w',
    startSpanWithOptions 0 (Demo.tracer false) "op" Demo.selfRefForced
      Demo.world0 = Some (sp, w')
    /\ sameIdentity (context sp) Demo.ctxA
    /\ heap w' = heap Demo.world0
    /\ filter (fun e => isRandomCall e = true) (newCalls Demo.world0 w') = []
    /\ filter (fun e => isSamplerCall e = true) (newCalls Demo.world0 w') = []
    /\ filter (fun e => isThrottlerCall e = true) (newCalls Demo.world0 w')
       = [EvIsDebugAllowed "op"].
Proof.
  destruct (StartSpan_self_reference 0 (Demo.tracer false) "op"
              Demo.selfRefForced Demo.world0 Demo.ctxA)
    as (sp & w' & Hrun & Hid & _ & Hheap & Hrand & _ & Hsam & Hthr & _).
  - vm_compute. reflexivity.
  - exists sp, w'. split; [exact Hrun|]. split; [exact Hid|].
    split; [exact Hheap|]. split; [exact Hrand|]. split; [exact Hsam|].
    rewrite Hthr. vm_compute. reflexivity.
Defined.

Section StartSpanCalls.
Context {Env Carrier : Type}.
Implicit Types (w : World Env) (t : Tracer Env Carrier) (sp : Span).

Lemma two_calls (a b : Event) (l : list Event) :
  [a; b] ++ l = [a] ++ [b] ++ l.
Proof. reflexivity. Qed.

Lemma clock_segment (z : Z) :
  Forall (fun e => isClockCall e = true) (if z =? 0 then [EvTimeNow] else []).
Proof. destruct (z =? 0); repeat constructor. Qed.

Lemma allocator_segment :
  Forall (fun e => isAllocatorCall e = true) [EvAllocatorGet].
Proof. repeat constructor. Qed.

Lemma onStartSpan_segment sp (operation : string) :
  Forall (fun e => isObserverCall e = true) [EvOnStartSpan sp operation].
Proof. repeat constructor. Qed.

(** X3.  A span that joins the trace of a valid parent inherits the
    sampling decision: while its context is built neither the sampler, nor
    the debug throttler, nor the high-word generator is called, and no
    sampler tag is attached: the tags of the span are tags of the caller,
    in the caller's order.  The debug throttler is asked only by the loop
    over the caller's tags, once for every sampling-priority tag that
    forces sampling; without a sampling-priority tag it is not asked at
    all and every tag of the caller is stored. *)
Theorem StartSpan_join_consults_nobody fuel t (operation : string) opts w sp w'
  (p : SpanContext) :
  startSpanWithOptions fuel t operation opts w = Some (sp, w') ->
  selfCandidates (heap w) (References opts) = [] ->
  loopParent (candidates (heap w) (References opts)) = Some p ->
  IsValid p = true ->
  filter (fun e => isSamplerCall e = true) (newCalls w w') = []
  /\ filter (fun e => isHighTraceIDCall e = true) (newCalls w w') = []
  /\ filter (fun e => isThrottlerCall e = true) (newCalls w w')
     = (fun _ => EvIsDebugAllowed operation) <$> throttledTags t (Tags opts)
  /\ sublist (tags sp) ((fun kv => mkTag kv.1 kv.2) <$> Tags opts)
  /\ (lookupTag SamplingPriority (Tags opts) = None ->
      filter (fun e => isThrottlerCall e = true) (newCalls w w') = []
      /\ tags sp = (fun kv => mkTag kv.1 kv.2) <$> Tags opts)
  /\ counterTotal TracesStartedSampled (newCalls w w') = 0
  /\ counterTotal TracesStartedNotSampled (newCalls w w') = 0.
Proof.
  intros Hrun Hnoself Hparent Hvalid.
  destruct (startSpanWithOptions_summary _ _ _ _ _ _ _ Hrun)
    as (devs & mevs & built & Hcalls & _ & Hrand & _ & Hmet & Htot & _ & _ & _ & _
        & _ & _ & _ & _ & _ & _ & stags & kept & Htags & Hstags & Hsub & Hkall).
  rewrite Hnoself, Hparent, Hvalid in *. cbn [length Nat.eqb negb andb] in *.
  specialize (Hrand eq_refl). rewrite (Hstags eq_refl) in Htags.
  cbn [app] in Htags.
  rewrite two_calls in Hcalls. rewrite Hcalls.
  pose proof (clock_segment (StartTime opts)) as Hclk.
  pose proof (foreignErrors_logger (References opts)) as Hlog.
  pose proof (tagEvents_class t operation (Tags opts)) as Hobs.
  pose proof allocator_segment as Hget.
  pose proof (onStartSpan_segment (setContext blankSpan built) operation) as Hon.
  assert (Hthr : filter (fun e => isThrottlerCall e = true)
                   ((if StartTime opts =? 0 then [EvTimeNow] else [])
                    ++ foreignErrors (References opts) ++ devs
                    ++ [EvAllocatorGet]
                    ++ [EvOnStartSpan (setContext blankSpan built) operation]
                    ++ tagEvents t operation (Tags opts) ++ mevs)
                 = (fun _ => EvIsDebugAllowed operation)
                     <$> throttledTags t (Tags opts)).
  { filter_segments. rewrite tagEvents_throttler, app_nil_r. reflexivity. }
  split; [filter_segments; reflexivity|].
  split; [filter_segments; reflexivity|].
  split; [exact Hthr|].
  split; [rewrite Htags; exact Hsub|].
  split.
  { intros Hnone. split.
    - rewrite Hthr, (no_priority_throttled t _ Hnone). reflexivity.
    - rewrite Htags. apply Hkall. exact Hnone. }
  rewrite !counterTotal_app, !Htot.
  rewrite !(counterTotal_no_metric _ (if StartTime opts =? 0 then _ else _))
    by class_impl Hclk.
  rewrite !(counterTotal_no_metric _ (foreignErrors _)) by class_impl Hlog.
  rewrite !(counterTotal_no_metric _ devs) by class_impl Hrand.
  rewrite !(counterTotal_no_metric _ (tagEvents _ _ _)) by class_impl Hobs.
  cbn. rewrite !andb_false_r. split; reflexivity.
Qed.

(** X4.  The references of the returned span are exactly the references
    that carry a usable context of this tracer and are no self-references,
    in the caller's order and with their types: a reference of a foreign
    type, an unusable one and a self-reference are not recorded, whether
    or not the reference became the parent. *)
Theorem StartSpan_records_references fuel t (operation : string) opts w sp w' :
  startSpanWithOptions fuel t operation opts w = Some (sp, w') ->
  references sp = referencesOf (candidates (heap w) (References opts))
  /\ (forall r, r ∈ references sp ->
        refType r <> selfRefType
        /\ isValidReference (heap w) (refContext r) = true
        /\ mkSpanReference (refType r) (JaegerContext (refContext r))
           ∈ References opts).
Proof.
  intros Hrun.
  destruct (startSpanWithOptions_summary _ _ _ _ _ _ _ Hrun)
    as (devs & mevs & built & _ & _ & _ & _ & _ & _ & _ & _ & _ & _ & _ & _
        & Hrefs & _).
  split; [exact Hrefs|].
  intros r Hr. rewrite Hrefs in Hr. unfold referencesOf, candidates in Hr.
  apply list_elem_of_fmap in Hr as ([ty c] & -> & Hin).
  apply list_elem_of_omap in Hin as (ref & Hin' & Hc).
  cbn [refType refContext fst snd].
  destruct ref as [ty' c']. unfold candidate in Hc. cbn in Hc.
  destruct c' as [c0|]; [|discriminate].
  destruct ty'; try discriminate;
    destruct (isValidReference (heap w) c0) eqn:Hv; try discriminate;
    injection Hc as <- <-; (split; [discriminate|]); (split; [exact Hv|exact Hin']).
Qed.

(** X5.  [StartSpan] reports to the logger exactly the references whose
    context is not a [SpanContext] of this tracer, once each and in the
    caller's order; it logs nothing else, and such a reference does not
    make the call fail. *)
Theorem StartSpan_logs_foreign_references fuel t (operation : string) opts w
  sp w' :
  startSpanWithOptions fuel t operation opts w = Some (sp, w') ->
  filter (fun e => isLoggerCall e = true) (newCalls w w')
  = foreignErrors (References opts).
Proof.
  intros Hrun.
  destruct (startSpanWithOptions_summary _ _ _ _ _ _ _ Hrun)
    as (devs & mevs & built & Hcalls & Hdev & _ & _ & Hmet & _).
  rewrite two_calls in Hcalls. rewrite Hcalls.
  pose proof (clock_segment (StartTime opts)) as Hclk.
  pose proof (foreignErrors_logger (References opts)) as Hlog.
  pose proof (tagEvents_class t operation (Tags opts)) as Hobs.
  pose proof allocator_segment as Hget.
  pose proof (onStartSpan_segment (setContext blankSpan built) operation) as Hon.
  filter_segments. rewrite app_nil_r. reflexivity.
Qed.

(** X6.  The start time of the span is the caller's start time when one is
    given, and then the clock is not read; when the caller's start time is
    the zero time, the clock is read exactly once, before anything else is
    called, and its value is the start time. *)
Theorem StartSpan_start_time fuel t (operation : string) opts w sp w' :
  startSpanWithOptions fuel t operation opts w = Some (sp, w') ->
  startTime sp = (if StartTime opts =? 0 then (timeNow t (env w)).1
                  else StartTime opts)
  /\ filter (fun e => isClockCall e = true) (newCalls w w')
     = (if StartTime opts =? 0 then [EvTimeNow] else [])
  /\ (if StartTime opts =? 0 then head (newCalls w w') = Some EvTimeNow
      else True).
Proof.
  intros Hrun.
  destruct (startSpanWithOptions_summary _ _ _ _ _ _ _ Hrun)
    as (devs & mevs & built & Hcalls & Hdev & _ & _ & Hmet & _ & _ & _ & _ & _ & _
        & Hstart & _).
  split; [exact Hstart|].
  rewrite two_calls in Hcalls. rewrite Hcalls.
  pose proof (clock_segment (StartTime opts)) as Hclk.
  pose proof (foreignErrors_logger (References opts)) as Hlog.
  pose proof (tagEvents_class t operation (Tags opts)) as Hobs.
  pose proof allocator_segment as Hget.
  pose proof (onStartSpan_segment (setContext blankSpan built) operation) as Hon.
  split.
  - filter_segments. rewrite app_nil_r. reflexivity.
  - destruct (StartTime opts =? 0); [reflexivity|exact I].
Qed.

(** X7.  Every [StartSpan] call increments exactly one of the two
    spans-started counters, by one, according to the sampled flag of the
    span it returns; it increments a traces-started counter exactly when
    it starts a new trace, a traces-joined counter exactly when it does not
    and the span is the first in its process, and never the finished-span
    counter. *)
Theorem StartSpan_metrics fuel t (operation : string) opts w sp w' :
  startSpanWithOptions fuel t operation opts w = Some (sp, w') ->
  let self := negb (Nat.eqb (length (selfCandidates (heap w) (References opts))) 0) in
  let new := negb self
             && match loopParent (candidates (heap w) (References opts)) with
                | Some p => negb (IsValid p)
                | None => true
                end in
  (forall c, counterTotal c (newCalls w w')
             = expectedInc c (IsSampled (context sp)) new (firstInProcess sp))
  /\ counterTotal SpansStartedSampled (newCalls w w')
     + counterTotal SpansStartedNotSampled (newCalls w w') = 1
  /\ counterTotal TracesStartedSampled (newCalls w w')
     + counterTotal TracesStartedNotSampled (newCalls w w')
     + counterTotal TracesJoinedSampled (newCalls w w')
     + counterTotal TracesJoinedNotSampled (newCalls w w')
     = (if new || firstInProcess sp then 1 else 0)
  /\ length (filter (fun e => isMetricCall e = true) (newCalls w w'))
     = (if new || firstInProcess sp then 2 else 1)%nat.
Proof.
  intros Hrun. cbv zeta.
  destruct (startSpanWithOptions_summary _ _ _ _ _ _ _ Hrun)
    as (devs & mevs & built & Hcalls & Hdev & _ & _ & Hmet & Htot & _ & _ & _ & _
        & _ & _ & _ & _ & _ & Hbound & _).
  cbv zeta in Htot.
  set (new := negb (negb (Nat.eqb (length (selfCandidates (heap w) (References opts))) 0))
              && match loopParent (candidates (heap w) (References opts)) with
                 | Some p => negb (IsValid p)
                 | None => true
                 end) in *.
  rewrite two_calls in Hcalls.
  pose proof (clock_segment (StartTime opts)) as Hclk.
  pose proof (foreignErrors_logger (References opts)) as Hlog.
  pose proof (tagEvents_class t operation (Tags opts)) as Hobs.
  pose proof allocator_segment as Hget.
  pose proof (onStartSpan_segment (setContext blankSpan built) operation) as Hon.
  assert (Hall : forall c, counterTotal c (newCalls w w')
                           = expectedInc c (IsSampled (context sp)) new
                               (firstInProcess sp)).
  { intros c. rewrite Hcalls, !counterTotal_app, Htot.
    rewrite (counterTotal_no_metric _ (if StartTime opts =? 0 then _ else _))
      by class_impl Hclk.
    rewrite (counterTotal_no_metric _ (foreignErrors _)) by class_impl Hlog.
    rewrite (counterTotal_no_metric _ devs) by class_impl Hdev.
    rewrite (counterTotal_no_metric _ (tagEvents _ _ _)) by class_impl Hobs.
    change (counterTotal c [EvAllocatorGet]) with 0.
    change (counterTotal c [EvOnStartSpan (setContext blankSpan built) operation])
      with 0.
    lia. }
  split; [exact Hall|]. rewrite !Hall.
  split; [destruct (IsSampled (context sp)); reflexivity|].
  split; [destruct (IsSampled (context sp)), new, (firstInProcess sp); reflexivity|].
  rewrite Hcalls. filter_segments. rewrite !app_nil_l.
  exact Hbound.
Qed.


(** X9.  Unless a usable self-reference is given, the returned span is
    marked first-in-process exactly when it starts a new trace or carries
    the RPC-server span.kind tag: a span that joins the trace of a valid
    parent without that tag is never first-in-process. *)
Theorem StartSpan_first_in_process fuel t (operation : string) opts w sp w' :
  startSpanWithOptions fuel t operation opts w = Some (sp, w') ->
  selfCandidates (heap w) (References opts) = [] ->
  firstInProcess sp
  = match loopParent (candidates (heap w) (References opts)) with
    | Some p => negb (IsValid p) || isRPCServer (Tags opts)
    | None => true
    end.
Proof.
  intros Hrun Hnoself.
  destruct (startSpanWithOptions_summary _ _ _ _ _ _ _ Hrun)
    as (devs & mevs & built & _ & _ & _ & _ & _ & _ & _ & _ & _ & Hns & _).
  rewrite Hnoself in Hns. destruct (Hns eq_refl) as (_ & Hfip & _).
  rewrite Hfip. cbn [length Nat.eqb negb andb].
  destruct (loopParent (candidates (heap w) (References opts))) as [p|];
    [|reflexivity].
  destruct (IsValid p); reflexivity.
Qed.

(** X10.  [StartSpan] never writes into a baggage map that exists: every
    map of the heap is after the call what it was before.  It allocates at
    most one map, at a fresh address, and none at all when a usable
    self-reference is given or when the resolved parent is absent or has no
    baggage; the baggage of the new context is then nil. *)
Theorem StartSpan_heap_frame fuel t (operation : string) opts w sp w' :
  startSpanWithOptions fuel t operation opts w = Some (sp, w') ->
  let items := match loopParent (candidates (heap w) (References opts)) with
               | Some p => baggageOf (heap w) p
               | None => ∅
               end in
  (forall l m, heap w !! l = Some m -> heap w' !! l = Some m)
  /\ (forall l, l <> fresh (dom (heap w)) -> heap w' !! l = heap w !! l)
  /\ (selfCandidates (heap w) (References opts) <> [] -> heap w' = heap w)
  /\ (items = ∅ -> heap w' = heap w)
  /\ (selfCandidates (heap w) (References opts) = [] -> items = ∅ ->
      baggage (context sp) = None).
Proof.
  intros Hrun. cbv zeta.
  destruct (startSpanWithOptions_summary _ _ _ _ _ _ _ Hrun)
    as (devs & mevs & built & _ & _ & _ & _ & _ & _ & Hid & _ & _ & Hns & Hheap & _).
  cbv zeta in Hheap, Hns.
  set (items := match loopParent (candidates (heap w) (References opts)) with
                | Some p => baggageOf (heap w) p
                | None => ∅
                end) in *.
  destruct Hid as (_ & _ & _ & Hbag & _).
  split; [|split; [|split; [|split]]].
  - intros l m Hl. rewrite Hheap.
    match goal with |- context [if ?b then _ else _] => destruct b end;
      [|exact Hl].
    rewrite lookup_insert_ne; [exact Hl|].
    intros <-. rewrite fresh_heap_None in Hl. discriminate.
  - intros l Hl. rewrite Hheap.
    match goal with |- context [if ?b then _ else _] => destruct b end;
      [|reflexivity].
    apply lookup_insert_ne. congruence.
  - intros Hself. rewrite Hheap.
    destruct (selfCandidates (heap w) (References opts)); [congruence|reflexivity].
  - intros Hempty. rewrite Hheap, Hempty. rewrite andb_false_r. reflexivity.
  - intros Hnoself Hempty. rewrite Hnoself in Hns.
    destruct (Hns eq_refl) as (_ & _ & Hb & _).
    rewrite Hbag, Hb, Hempty. rewrite andb_false_r. reflexivity.
Qed.

(** X11.  A call without any usable reference starts a root span: its
    parent ID is 0, its span ID is the low word of its trace ID and is not
    0, it has no reference and no baggage, it is first-in-process, no
    baggage map is allocated, and exactly one traces-started counter is
    incremented (and no traces-joined counter). *)
Theorem StartSpan_root_span fuel t (operation : string) opts w sp w' :
  startSpanWithOptions fuel t operation opts w = Some (sp, w') ->
  candidates (heap w) (References opts) = [] ->
  selfCandidates (heap w) (References opts) = [] ->
  parentID (context sp) = 0
  /\ spanID (context sp) = Low (traceID (context sp))
  /\ spanID (context sp) <> 0
  /\ baggage (context sp) = None
  /\ references sp = []
  /\ firstInProcess sp = true
  /\ heap w' = heap w
  /\ counterTotal TracesStartedSampled (newCalls w w')
     + counterTotal TracesStartedNotSampled (newCalls w w') = 1
  /\ counterTotal TracesJoinedSampled (newCalls w w') = 0
  /\ counterTotal TracesJoinedNotSampled (newCalls w w') = 0.
Proof.
  intros Hrun Hnone Hnoself.
  destruct (startSpanWithOptions_summary _ _ _ _ _ _ _ Hrun)
    as (devs & mevs & built & Hcalls & Hdev & _ & _ & Hmet & Htot & Hid & _ & _
        & Hns & Hheap & _ & Hrefs & _).
  rewrite Hnone, Hnoself in *. cbn [length Nat.eqb negb andb loopParent
    firstChildOf fmap list_fmap last] in *.
  destruct (Hns eq_refl) as (Hvalid & Hfip & Hb & Hroot).
  destruct (Hroot eq_refl) as [Hsid Hpid].
  destruct Hid as (Ht & Hs & Hp & Hbag & _).
  assert (Hnz : spanID built <> 0).
  { unfold IsValid in Hvalid. apply andb_prop in Hvalid as [_ H].
    apply negb_true_iff, Z.eqb_neq in H. exact H. }
  rewrite Hp, Hs, Ht, Hbag, Hb, Hfip, Hrefs, Hheap.
  change (size (∅ : gmap string string)) with 0%nat. cbn [Nat.ltb Nat.leb].
  repeat (split; [solve [assumption|reflexivity]|]).
  rewrite two_calls in Hcalls.
  pose proof (clock_segment (StartTime opts)) as Hclk.
  pose proof (foreignErrors_logger (References opts)) as Hlog.
  pose proof (tagEvents_class t operation (Tags opts)) as Hobs.
  rewrite Hcalls, !counterTotal_app, !Htot.
  rewrite !(counterTotal_no_metric _ (if StartTime opts =? 0 then _ else _))
    by class_impl Hclk.
  rewrite !(counterTotal_no_metric _ (foreignErrors _)) by class_impl Hlog.
  rewrite !(counterTotal_no_metric _ devs) by class_impl Hdev.
  rewrite !(counterTotal_no_metric _ (tagEvents _ _ _)) by class_impl Hobs.
  cbn. rewrite Hfip. destruct (IsSampled (context sp)); cbn; auto.
Qed.
End StartSpanCalls.

(** Runs a demo call for an instance of a property. *)
Ltac run_demo opts :=
  let Hrun := fresh "Hrun" in
  destruct (startSpanWithOptions 5 (Demo.tracer false) "op" opts Demo.world0)
    as [[sp w']|] eqn:Hrun;
  [|vm_compute in Hrun; discriminate];
  exists sp, w'; split; [reflexivity|].

(** X3 at the demo tracer: a child of the valid context [ctxB] with the
    sampling-priority tag 1.  The sampler is not asked; the throttler is
    asked once, by the tag. *)
Lemma StartSpan_join_consults_nobody_witness :
  exists sp w',
    startSpanWithOptions 5 (Demo.tracer false) "op" Demo.childOfBForced
      Demo.world0 = Some (sp, w')
    /\ filter (fun e => isSamplerCall e = true) (newCalls Demo.world0 w') = []
    /\ filter (fun e => isHighTraceIDCall e = true) (newCalls Demo.world0 w') = []
    /\ filter (fun e => isThrottlerCall e = true) (newCalls Demo.world0 w')
       = [EvIsDebugAllowed "op"]
    /\ sublist (tags sp) [mkTag SamplingPriority (VUint16 1)]
    /\ counterTotal TracesStartedSampled (newCalls Demo.world0 w') = 0
    /\ counterTotal TracesStartedNotSampled (newCalls Demo.world0 w') = 0.
Proof.
  run_demo Demo.childOfBForced.
  destruct (StartSpan_join_consults_nobody 5 (Demo.tracer false) "op"
              Demo.childOfBForced Demo.world0 sp w' Demo.ctxB Hrun)
    as (Hsam & Hhigh & Hthr & Hsub & _ & Hc1 & Hc2);
    [vm_compute; reflexivity|vm_compute; reflexivity|vm_compute; reflexivity|].
  split; [exact Hsam|]. split; [exact Hhigh|].
  split; [rewrite Hthr; vm_compute; reflexivity|].
  split; [exact Hsub|]. split; [exact Hc1|exact Hc2].
Defined.

(** X4 at the demo tracer: of three references the foreign one is dropped. *)
Lemma StartSpan_records_references_witness :
  exists sp w',
    startSpanWithOptions 5 (Demo.tracer false) "op" Demo.mixedOptions Demo.world0
    = Some (sp, w')
    /\ references sp
       = referencesOf (candidates (heap Demo.world0) (References Demo.mixedOptions))
    /\ (forall r, r ∈ references sp ->
          refType r <> selfRefType
          /\ isValidReference (heap Demo.world0) (refContext r) = true
          /\ mkSpanReference (refType r) (JaegerContext (refContext r))
             ∈ References Demo.mixedOptions).
Proof.
  run_demo Demo.mixedOptions.
  exact (StartSpan_records_references 5 (Demo.tracer false) "op"
           Demo.mixedOptions Demo.world0 sp w' Hrun).
Defined.

(** X5 at the demo tracer: one foreign reference, one logger call. *)
Lemma StartSpan_logs_foreign_references_witness :
  exists sp w',
    startSpanWithOptions 5 (Demo.tracer false) "op" Demo.mixedOptions Demo.world0
    = Some (sp, w')
    /\ filter (fun e => isLoggerCall e = true) (newCalls Demo.world0 w')
       = foreignErrors (References Demo.mixedOptions).
Proof.
  run_demo Demo.mixedOptions.
  exact (StartSpan_logs_foreign_references 5 (Demo.tracer false) "op"
           Demo.mixedOptions Demo.world0 sp w' Hrun).
Defined.

(** X6 at the demo tracer: the caller's start time 42 is kept. *)
Lemma StartSpan_start_time_witness :
  exists sp w',
    startSpanWithOptions 5 (Demo.tracer false) "op" Demo.mixedOptions Demo.world0
    = Some (sp, w')
    /\ startTime sp
       = (if StartTime Demo.mixedOptions =? 0
          then (timeNow (Demo.tracer false) (env Demo.world0)).1
          else StartTime Demo.mixedOptions)
    /\ filter (fun e => isClockCall e = true) (newCalls Demo.world0 w')
       = (if StartTime Demo.mixedOptions =? 0 then [EvTimeNow] else [])
    /\ (if StartTime Demo.mixedOptions =? 0
        then head (newCalls Demo.world0 w') = Some EvTimeNow
        else True).
Proof.
  run_demo Demo.mixedOptions.
  exact (StartSpan_start_time 5 (Demo.tracer false) "op"
           Demo.mixedOptions Demo.world0 sp w' Hrun).
Defined.

(** X7 at the demo tracer. *)
Lemma StartSpan_metrics_witness :
  exists sp w',
    startSpanWithOptions 5 (Demo.tracer false) "op" Demo.childOfDebug Demo.world0
    = Some (sp, w')
    /\ counterTotal SpansStartedSampled (newCalls Demo.world0 w')
       + counterTotal SpansStartedNotSampled (newCalls Demo.world0 w') = 1
    /\ counterTotal SpansFinished (newCalls Demo.world0 w') = 0.
Proof.
  run_demo Demo.childOfDebug.
  destruct (StartSpan_metrics 5 (Demo.tracer false) "op"
              Demo.childOfDebug Demo.world0 sp w' Hrun) as (Hall & Hone & _).
  split; [exact Hone|]. rewrite Hall. reflexivity.
Defined.


(** X9 at the demo tracer: a child of a valid parent without the
    RPC-server tag. *)
Lemma StartSpan_first_in_process_witness :
  exists sp w',
    startSpanWithOptions 5 (Demo.tracer false) "op" Demo.childOfA Demo.world0
    = Some (sp, w')
    /\ firstInProcess sp
       = match loopParent (candidates (heap Demo.world0)
                             (References Demo.childOfA)) with
         | Some p => negb (IsValid p) || isRPCServer (Tags Demo.childOfA)
         | None => true
         end.
Proof.
  run_demo Demo.childOfA.
  apply (StartSpan_first_in_process 5 (Demo.tracer false) "op" Demo.childOfA
           Demo.world0 sp w' Hrun).
  vm_compute. reflexivity.
Defined.

(** X10 at the demo tracer: the map of the parent at address 0 stays. *)
Lemma StartSpan_heap_frame_witness :
  exists sp w',
    startSpanWithOptions 5 (Demo.tracer false) "op" Demo.childOfB Demo.world0
    = Some (sp, w')
    /\ (forall l m, heap Demo.world0 !! l = Some m -> heap w' !! l = Some m)
    /\ (forall l, l <> fresh (dom (heap Demo.world0)) ->
          heap w' !! l = heap Demo.world0 !! l).
Proof.
  run_demo Demo.childOfB.
  destruct (StartSpan_heap_frame 5 (Demo.tracer false) "op" Demo.childOfB
              Demo.world0 sp w' Hrun) as (H1 & H2 & _).
  split; [exact H1|exact H2].
Defined.

(** X11 at the demo tracer: [StartSpan] without options. *)
Lemma StartSpan_root_span_witness :
  exists sp w',
    StartSpan 5 (Demo.tracer false) "op" [] Demo.world0 = Some (sp, w')
    /\ parentID (context sp) = 0
    /\ spanID (context sp) = Low (traceID (context sp))
    /\ spanID (context sp) <> 0
    /\ baggage (context sp) = None
    /\ references sp = []
    /\ firstInProcess sp = true
    /\ heap w' = heap Demo.world0
    /\ counterTotal TracesStartedSampled (newCalls Demo.world0 w')
       + counterTotal TracesStartedNotSampled (newCalls Demo.world0 w') = 1
    /\ counterTotal TracesJoinedSampled (newCalls Demo.world0 w') = 0
    /\ counterTotal TracesJoinedNotSampled (newCalls Demo.world0 w') = 0.
Proof.
  change (StartSpan 5 (Demo.tracer false) "op" [] Demo.world0)
    with (startSpanWithOptions 5 (Demo.tracer false) "op" Demo.noOptions
            Demo.world0).
  run_demo Demo.noOptions.
  apply (StartSpan_root_span 5 (Demo.tracer false) "op" Demo.noOptions
           Demo.world0 sp w' Hrun); reflexivity.
Defined.

(** ** The random source, once more *)

Section RandomExtras.
Context {Env Carrier : Type}.
Implicit Types (w : World Env) (t : Tracer Env Carrier).

(** X12.  [randomID] returns the first value of the random source that is
    not 0: if the source yields [k] zeros and then a non-zero value, the
    result is that value, exactly [k + 1] values have been drawn, nothing
    else has been called and the heap is as it was. *)
Theorem randomID_first_nonzero_draw t k : forall w fuel,
  (forall j, (j < k)%nat -> nextDraw t (afterDraws t j w) = 0) ->
  nextDraw t (afterDraws t k w) <> 0 ->
  (k <= fuel)%nat ->
  randomID fuel t w
  = Some (nextDraw t (afterDraws t k w), afterDraws t (S k) w)
  /\ newCalls w (afterDraws t (S k) w) = replicate (S k) EvRandomNumber
  /\ heap (afterDraws t (S k) w) = heap w.
Proof.
  induction k as [|k IH]; intros w fuel Hzeros Hnz Hfuel.
  - split; [apply randomID_first; exact Hnz|].
    destruct (afterDraws_frame t 1 w) as [Hh Hc].
    split; [apply newCalls_app; exact Hc|exact Hh].
  - assert (Hz : nextDraw t w = 0) by (apply (Hzeros 0%nat); lia).
    destruct fuel as [|fuel]; [lia|].
    rewrite randomID_retry by exact Hz.
    rewrite !(afterDraws_S t (S k)), (afterDraws_S t k) in *.
    destruct (IH (afterDraws t 1 w) fuel) as (Hrun & _ & _).
    + intros j Hj. rewrite <- afterDraws_S. apply Hzeros. lia.
    + exact Hnz.
    + lia.
    + split; [exact Hrun|].
      rewrite <- !afterDraws_S.
      destruct (afterDraws_frame t (S (S k)) w) as [Hh Hc].
      split; [apply newCalls_app; exact Hc|exact Hh].
Qed.

(** The fuel matters to [startSpanWithOptions] only through
    [randomID]. *)
Lemma startSpanWithOptions_fuel f1 f2 t (operation : string) opts w res w1 :
  resolveReferences t opts w = Some (res, w1) ->
  randomID f1 t w1 = randomID f2 t w1 ->
  startSpanWithOptions f1 t operation opts w
  = startSpanWithOptions f2 t operation opts w.
Proof.
  intros Eres Hrand. unfold startSpanWithOptions, bind at 1.
  unfold bind at 4. rewrite Eres.
  assert (Hder : deriveContext f1 t operation opts res w1
                 = deriveContext f2 t operation opts res w1).
  { unfold deriveContext. destruct (res_isSelfRef res); [reflexivity|].
    destruct (negb (res_hasParent res) || negb (IsValid (res_parent res))).
    - unfold bind at 1. unfold bind at 3. unfold bind at 1. unfold bind at 3.
      unfold startNewTrace, bind at 1. unfold bind at 6. rewrite Hrand.
      reflexivity.
    - unfold bind at 1. unfold bind at 3. unfold bind at 1. unfold bind at 3.
      unfold joinTrace.
      destruct (isRPCServer (Tags opts) && zipkinSharedRPCSpan (options t));
        [reflexivity|].
      unfold bind at 1. unfold bind at 2. rewrite Hrand. reflexivity. }
  unfold bind at 1. unfold bind at 4. rewrite Hder. reflexivity.
Qed.

(** X13.  If the random source of the tracer, from whatever state, yields
    a non-zero value at some point, every [StartSpan] call returns a span:
    the only loop on the way is the one of [randomID]. *)
Theorem StartSpan_returns t (operation : string) opts w :
  (forall w0, exists n, nextDraw t (afterDraws t n w0) <> 0) ->
  exists fuel0 sp w',
    forall fuel, (fuel0 <= fuel)%nat ->
      startSpanWithOptions fuel t operation opts w = Some (sp, w').
Proof.
  intros Hsource.
  destruct (resolveReferences_total t opts w) as (res & w1 & Eres & _).
  destruct (Hsource w1) as [n Hn].
  destruct (randomID_enough_fuel t n w1 Hn) as (v & k & _ & _ & Hrand).
  destruct (deriveContext_total n t operation opts res w1 v _ (Hrand n (le_n n)))
    as (d & w3 & Eder).
  destruct (startSpanWithOptions_spec _ _ _ _ _ _ _ _ _ Eres Eder)
    as (sp & evs & kept & Hrun & _).
  exists n, sp. eexists. intros fuel Hfuel.
  rewrite <- Hrun. apply (startSpanWithOptions_fuel fuel n _ _ _ _ res w1 Eres).
  rewrite (Hrand fuel Hfuel), (Hrand n (le_n n)). reflexivity.
Qed.
End RandomExtras.

(** X12 at the demo tracer: two zeros, then 7. *)
Lemma randomID_first_nonzero_draw_witness :
  randomID 5 (Demo.tracer false) Demo.world0
  = Some (nextDraw (Demo.tracer false) (afterDraws (Demo.tracer false) 2 Demo.world0),
          afterDraws (Demo.tracer false) 3 Demo.world0)
  /\ newCalls Demo.world0 (afterDraws (Demo.tracer false) 3 Demo.world0)
     = replicate 3 EvRandomNumber
  /\ heap (afterDraws (Demo.tracer false) 3 Demo.world0) = heap Demo.world0.
Proof.
  apply (randomID_first_nonzero_draw (Demo.tracer false) 2 Demo.world0 5).
  - intros [|[|j]] Hj; [reflexivity|reflexivity|lia].
  - vm_compute. discriminate.
  - lia.
Defined.

(** X13 at the demo tracer: from any state its source yields 7 after at
    most two draws. *)
Lemma StartSpan_returns_witness :
  exists fuel0 sp w',
    forall fuel, (fuel0 <= fuel)%nat ->
      startSpanWithOptions fuel (Demo.tracer false) "op" Demo.childOfA Demo.world0
      = Some (sp, w').
Proof.
  apply (StartSpan_returns (Demo.tracer false) "op" Demo.childOfA Demo.world0).
  intros w0. exists 2%nat. unfold nextDraw. cbn.
  unfold Demo.zerosThenSeven. cbn. discriminate.
Defined.

(** ** The codec registry, once more *)

Section CodecExtras.
Context {Env Carrier : Type}.
Implicit Types (w : World Env) (t : Tracer Env Carrier) (format : Format).

(** X14.  Registering a codec twice for the same format is the same as
    registering it once: the second [addCodec] changes nothing at all, in
    any field of the tracer. *)
Theorem addCodec_idempotent t format (i i' : Injector Env Carrier)
  (e e' : Extractor Env Carrier) :
  addCodec (addCodec t format i e) format i' e' = addCodec t format i e.
Proof.
  unfold addCodec. cbn [injectors extractors serviceName sampler timeNow
    randomNumber options debugThrottler].
  destruct (injectors t !! format) as [i0|] eqn:Hi;
    destruct (extractors t !! format) as [e0|] eqn:He;
    rewrite ?Hi, ?He, ?lookup_insert_eq; reflexivity.
Qed.

(** X15.  Registrations for two different formats do not interfere: the
    two [addCodec] calls give the same tracer in either order. *)
Theorem addCodec_commute t (f1 f2 : Format) (i1 i2 : Injector Env Carrier)
  (e1 e2 : Extractor Env Carrier) :
  f1 <> f2 ->
  addCodec (addCodec t f1 i1 e1) f2 i2 e2
  = addCodec (addCodec t f2 i2 e2) f1 i1 e1.
Proof.
  intros Hne. unfold addCodec. cbn [injectors extractors serviceName sampler
    timeNow randomNumber options debugThrottler].
  assert (Hi : forall (A : Type) (m : gmap Format A) (a1 a2 : A),
             match (match m !! f1 with Some _ => m | None => <[f1 := a1]> m end) !! f2 with
             | Some _ => match m !! f1 with Some _ => m | None => <[f1 := a1]> m end
             | None => <[f2 := a2]>
                         (match m !! f1 with Some _ => m | None => <[f1 := a1]> m end)
             end
             = match (match m !! f2 with Some _ => m | None => <[f2 := a2]> m end) !! f1 with
               | Some _ => match m !! f2 with Some _ => m | None => <[f2 := a2]> m end
               | None => <[f1 := a1]>
                           (match m !! f2 with Some _ => m | None => <[f2 := a2]> m end)
               end).
  { intros A m a1 a2.
    destruct (m !! f1) as [x1|] eqn:H1; destruct (m !! f2) as [x2|] eqn:H2;
      rewrite ?H1, ?H2, ?lookup_insert_ne, ?H1, ?H2 by congruence;
      try reflexivity.
    apply insert_insert_ne. congruence. }
  rewrite (Hi _ (injectors t) i1 i2), (Hi _ (extractors t) e1 e2). reflexivity.
Qed.

(** X16.  What [Inject] and [Extract] do after an [addCodec] call: on the
    format of the call they run the codec that was registered before, if
    there was one, and the new codec otherwise; on every other format they
    behave as before the call. *)
Theorem Inject_Extract_after_addCodec t format (i : Injector Env Carrier)
  (e : Extractor Env Carrier) (c : SpanContext) (carrier : Carrier) w :
  Inject (addCodec t format i e) (JaegerContext c) format carrier w
  = Some ((default i (injectors t !! format)) c carrier w)
  /\ (forall ctx err w',
        (default e (extractors t !! format)) carrier w = ((ctx, err), w') ->
        Extract (addCodec t format i e) format carrier w
        = Some (match err with
                | Some er => (None, Some er)
                | None => (Some ctx, None)
                end, w'))
  /\ (forall f x, f <> format ->
        Inject (addCodec t format i e) x f carrier w = Inject t x f carrier w
        /\ Extract (addCodec t format i e) f carrier w = Extract t f carrier w).
Proof.
  split; [|split].
  - unfold Inject. destruct (addCodec_lookup t format i e format) as [-> _].
    rewrite decide_True by reflexivity. reflexivity.
  - intros ctx err w' Hx. unfold Extract.
    destruct (addCodec_lookup t format i e format) as [_ ->].
    rewrite decide_True by reflexivity. step_m. rewrite Hx.
    destruct err; reflexivity.
  - intros f x Hne. unfold Inject, Extract.
    destruct (addCodec_lookup t format i e f) as [-> ->].
    rewrite !decide_False by congruence. split; reflexivity.
Qed.

(** X17.  After any sequence of [addCodec] calls the registered formats
    are exactly the ones that were registered before together with the
    ones of the sequence, for injectors and for extractors alike:
    [addCodec] never unregisters a format and registers no other one. *)
Theorem addCodecs_registered t
  (regs : list (Format * Injector Env Carrier * Extractor Env Carrier))
  (format : Format) :
  (is_Some (injectors (addCodecs t regs) !! format)
   <-> is_Some (injectors t !! format) \/ format ∈ regs.*1.*1)
  /\ (is_Some (extractors (addCodecs t regs) !! format)
      <-> is_Some (extractors t !! format) \/ format ∈ regs.*1.*1).
Proof.
  revert t. induction regs as [|[[f i] e] regs IH]; intros t.
  - cbn. split; (split; [auto|intros [H|H]; [exact H|inversion H]]).
  - unfold addCodecs in *. cbn [fold_left fst snd fmap list_fmap].
    destruct (IH (addCodec t f i e)) as [IHi IHe].
    destruct (addCodec_lookup t f i e format) as [Hi He].
    rewrite IHi, IHe, Hi, He.
    destruct (decide (f = format)) as [->|Hne].
    + split; (split; [intros _; right; left|intros _; left; eauto]).
    + split; (split; [intros [H|H]; [left; exact H|right; right; exact H]
                     |intros [H|H]; [left; exact H|]]);
        apply elem_of_cons in H as [H|H]; [congruence|right; exact H
                                         |congruence|right; exact H].
Qed.
End CodecExtras.

(** X15 at the demo tracer. *)
Lemma addCodec_commute_witness :
  addCodec (addCodec (Demo.tracer false) Binary Demo.nullInjector
              Demo.failingExtractor)
    ZipkinSpanFormat Demo.nullInjector Demo.failingExtractor
  = addCodec (addCodec (Demo.tracer false) ZipkinSpanFormat Demo.nullInjector
                Demo.failingExtractor)
      Binary Demo.nullInjector Demo.failingExtractor.
Proof.
  apply (addCodec_commute (Demo.tracer false) Binary ZipkinSpanFormat).
  discriminate.
Defined.

(** ** Construction of a tracer *)

Section ConstructionFacts.
Context {Env Carrier MetricsT ManagerT : Type}.
Implicit Types (pf : Platform Env Carrier MetricsT ManagerT)
  (t : TracerStruct Env Carrier MetricsT ManagerT).

Lemma getTagIn_app (l l' : list Tag) (k : string) :
  getTagIn (l ++ l') k
  = match getTagIn l k with Some v => Some v | None => getTagIn l' k end.
Proof.
  induction l as [|tag l IH]; cbn; [reflexivity|].
  destruct (String.eqb (key tag) k); [reflexivity|exact IH].
Qed.

Lemma getTagIn_None (l : list Tag) (k : string) :
  getTagIn l k = None <-> k ∉ key <$> l.
Proof.
  induction l as [|tag l IH]; cbn.
  - split; [intros _ H; inversion H|reflexivity].
  - destruct (String.eqb (key tag) k) eqn:E.
    + apply String.eqb_eq in E. split; [discriminate|].
      intros H. exfalso. apply H. rewrite E. left.
    + apply String.eqb_neq in E. rewrite IH. split.
      * intros H H'. apply elem_of_cons in H' as [H'|H']; [congruence|auto].
      * intros H H'. apply H. right. exact H'.
Qed.

Lemma getTagIn_Some (l : list Tag) (k : string) (v : TagValue) :
  getTagIn l k = Some v
  <-> exists l1 l2, l = l1 ++ mkTag k v :: l2 /\ k ∉ key <$> l1.
Proof.
  induction l as [|tag l IH]; cbn.
  - split; [discriminate|]. intros (l1 & l2 & H & _).
    destruct l1; discriminate.
  - destruct (String.eqb (key tag) k) eqn:E.
    + apply String.eqb_eq in E. split.
      * intros [= <-]. exists [], l. split.
        -- destruct tag; cbn in *; subst; reflexivity.
        -- intros H; inversion H.
      * intros (l1 & l2 & H & Hn). destruct l1 as [|tag' l1].
        -- cbn in H. injection H as -> _. reflexivity.
        -- cbn in H. injection H as <- _. exfalso. apply Hn. rewrite <- E.
           left.
    + apply String.eqb_neq in E. rewrite IH. split.
      * intros (l1 & l2 & -> & Hn). exists (tag :: l1), l2. split; [reflexivity|].
        intros H. apply elem_of_cons in H as [H|H]; [congruence|auto].
      * intros (l1 & l2 & H & Hn). destruct l1 as [|tag' l1].
        -- cbn in H. injection H as -> _. cbn in E. congruence.
        -- cbn in H. injection H as <- ->. exists l1, l2. split; [reflexivity|].
           intros H. apply Hn. right. exact H.
Qed.

Lemma getTagIn_single (tag : Tag) (k : string) :
  getTagIn [tag] k = if String.eqb (key tag) k then Some (value tag) else None.
Proof. reflexivity. Qed.

(** The codecs after lines 97-112. *)
Lemma registerCodecs_core pf t :
  core (registerCodecs pf t) = addCodecs (core t) (builtinCodecs pf (metrics t)).
Proof. reflexivity. Qed.

Lemma addCodecs_lookup (c : Tracer Env Carrier)
  (regs : list (Format * Injector Env Carrier * Extractor Env Carrier))
  (f : Format) :
  injectors (addCodecs c regs) !! f
  = match injectors c !! f with
    | Some i => Some i
    | None => fst <$> firstRegistration f regs
    end
  /\ extractors (addCodecs c regs) !! f
     = match extractors c !! f with
       | Some e => Some e
       | None => snd <$> firstRegistration f regs
       end.
Proof.
  revert c. induction regs as [|[[g i] e] regs IH]; intros c.
  - cbn. split; [destruct (injectors c !! f)|destruct (extractors c !! f)];
      reflexivity.
  - unfold addCodecs in *. cbn [fold_left fst snd firstRegistration].
    destruct (IH (addCodec c g i e)) as [-> ->].
    destruct (addCodec_lookup c g i e f) as [-> ->].
    destruct (decide (g = f)) as [->|Hne].
    + split; [destruct (injectors c !! f)|destruct (extractors c !! f)];
        reflexivity.
    + split; reflexivity.
Qed.

(** Lines 144-151 touch nothing but the tags and the environment. *)
Lemma addHostTags_spec pf t w :
  exists hostPart e1,
    addHostTags pf t w
    = Some (setTracerTags t (tracerTags t ++ versionTag pf :: hostPart),
            mkWorld e1 (heap w) (calls w))
    /\ (is_Some (getTagIn (tracerTags t ++ [versionTag pf]) (TracerHostnameTagKey pf))
        /\ hostPart = [] /\ e1 = env w
        \/ getTagIn (tracerTags t ++ [versionTag pf]) (TracerHostnameTagKey pf) = None
           /\ e1 = (os_Hostname pf (env w)).2
           /\ hostPart
              = match (os_Hostname pf (env w)).1 with
                | Some h => [mkTag (TracerHostnameTagKey pf) (VString h)]
                | None => []
                end).
Proof.
  unfold addHostTags, getTag. cbn [tracerTags setTracerTags].
  fold (versionTag pf).
  destruct (getTagIn (tracerTags t ++ [versionTag pf]) (TracerHostnameTagKey pf))
    as [v|] eqn:Hg.
  - exists [], (env w). split; [|left; eauto].
    unfold ret. destruct w; reflexivity.
  - step_m. destruct (os_Hostname pf (env w)) as [[h|] e1] eqn:Hos; cbn.
    + exists [mkTag (TracerHostnameTagKey pf) (VString h)], e1.
      split; [|right; auto].
      unfold setTracerTags; cbn. rewrite <- app_assoc. reflexivity.
    + exists [], e1. split; [|right; auto]. reflexivity.
Qed.

(** Lines 168-178 touch the options, the flag of the generator and the
    call trace. *)
Lemma finishOptions_spec pf t w :
  exists t',
    finishOptions pf t w
    = Some (t', mkWorld (env w) (heap w)
                  (calls w
                     ++ (if gen128Bit (options (core t)) then []
                         else if highTraceIDGeneratorSet t then [generatorError]
                              else [])))
    /\ core t'
       = setOptions (core t)
           (mkTracerOptions (gen128Bit (options (core t)))
              (zipkinSharedRPCSpan (options (core t)))
              (if gen128Bit (options (core t)) && negb (highTraceIDGeneratorSet t)
               then randomNumber (core t)
               else highTraceIDGenerator (options (core t)))
              (if maxTagValueLength (options (core t)) =? 0
               then DefaultMaxTagValueLength pf
               else maxTagValueLength (options (core t)))
              (noDebugFlagOnForcedSampling (options (core t))))
    /\ highTraceIDGeneratorSet t'
       = (gen128Bit (options (core t)) || highTraceIDGeneratorSet t)
    /\ timeNowSet t' = timeNowSet t
    /\ randomNumberSet t' = randomNumberSet t
    /\ debugThrottlerSet t' = debugThrottlerSet t
    /\ loggerSet t' = loggerSet t
    /\ processSetter t' = processSetter t
    /\ hostIPv4 t' = hostIPv4 t
    /\ metrics t' = metrics t
    /\ tracerTags t' = tracerTags t
    /\ process t' = process t
    /\ baggageRestrictionManager t' = baggageRestrictionManager t
    /\ baggageSetter t' = baggageSetter t.
Proof.
  destruct t as [c tn rn hg dt lg ps ip m tg p brm bs].
  destruct c as [sn sm clk rnd o inj ext thr].
  destruct o as [g z h mx nd].
  unfold finishOptions. cbn [core options gen128Bit highTraceIDGeneratorSet
    zipkinSharedRPCSpan maxTagValueLength noDebugFlagOnForcedSampling
    highTraceIDGenerator randomNumber].
  destruct w as [e0 h0 c0].
  destruct g, hg; step_m; cbn;
    destruct (mx =? 0) eqn:Hmx; cbn; rewrite ?app_nil_r;
    eexists; (split; [reflexivity|]);
    cbn; rewrite ?Hmx; repeat split; reflexivity.
Qed.

(** Lines 179-186 draw one random number, fill the process and announce it. *)
Lemma describeProcess_spec pf name t w :
  let draw := randomNumber (core t) (env w) in
  let p := mkProcess name (FormatUint16 pf draw.1) (tracerTags t) in
  exists t',
    describeProcess pf name t w
    = Some (t', mkWorld (match processSetter t with
                         | Some SetProcess => SetProcess p draw.2
                         | None => draw.2
                         end) (heap w) (calls w ++ [EvRandomNumber]))
    /\ process t' = p
    /\ core t' = core t
    /\ highTraceIDGeneratorSet t' = highTraceIDGeneratorSet t
    /\ timeNowSet t' = timeNowSet t
    /\ randomNumberSet t' = randomNumberSet t
    /\ debugThrottlerSet t' = debugThrottlerSet t
    /\ loggerSet t' = loggerSet t
    /\ processSetter t' = processSetter t
    /\ hostIPv4 t' = hostIPv4 t
    /\ metrics t' = metrics t
    /\ tracerTags t' = tracerTags t
    /\ baggageRestrictionManager t' = baggageRestrictionManager t
    /\ baggageSetter t' = baggageSetter t.
Proof.
  intros draw p. subst draw p.
  unfold describeProcess, callRandomNumber. step_m.
  destruct (randomNumber (core t) (env w)) as [n e1] eqn:Hr. cbn.
  destruct (processSetter t) as [sp|] eqn:Hps; cbn; rewrite ?Hps;
    eexists; (split; [reflexivity|]); cbn; repeat split; auto.
Qed.

(** Lines 153-166 touch the tags, [hostIPv4], the environment and the call
    trace. *)
Lemma addIPTag_spec pf t w :
  exists r evs e',
    addIPTag pf t w = Some (r, mkWorld e' (heap w) (calls w ++ evs))
    /\ match r with Returned t' => sameButHost t t' | Panicked _ => True end
    /\ match getTagIn (tracerTags t) (TracerIPTagKey pf) with
       | Some v =>
           e' = env w
           /\ match v with
              | VString s =>
                  match ParseIPToUint32 pf s with
                  | inl ip => r = Returned (setHostIPv4 t ip) /\ evs = []
                  | inr err => r = Returned (setHostIPv4 t 0)
                               /\ evs = [ipParseError err]
                  end
              | _ => isPanicked r = true /\ evs = []
              end
       | None =>
           e' = (HostIP pf (env w)).2
           /\ match (HostIP pf (env w)).1 with
              | inl ip =>
                  r = Returned
                        (setHostIPv4
                           (setTracerTags t
                              (tracerTags t
                                 ++ [mkTag (TracerIPTagKey pf)
                                           (VString (IP_String pf ip))]))
                           (PackIPAsUint32 pf ip))
                  /\ evs = []
              | inr err => r = Returned t /\ evs = [hostIPError err]
              end
       end.
Proof.
  unfold addIPTag, getTag, sameButHost. destruct w as [e0 h0 c0].
  destruct (getTagIn (tracerTags t) (TracerIPTagKey pf)) as [v|] eqn:Hg.
  - destruct v as [s| | | |];
      try (eexists _, [], _; rewrite app_nil_r;
           split; [reflexivity|]; split; [exact I|]; cbn; auto).
    destruct (ParseIPToUint32 pf s) as [ip|err] eqn:Hp; step_m.
    + eexists _, [], _. rewrite app_nil_r. split; [reflexivity|].
      cbn. repeat split; reflexivity.
    + eexists _, _, _. split; [reflexivity|]. cbn.
      repeat split; reflexivity.
  - step_m. destruct (HostIP pf e0) as [[ip|err] e1] eqn:Hh; cbn.
    + eexists _, [], _. rewrite app_nil_r. split; [reflexivity|].
      cbn. repeat split; reflexivity.
    + eexists _, _, _. split; [reflexivity|]. cbn. repeat split; reflexivity.
Qed.

(** The whole run of [NewTracer], block by block. *)
Lemma NewTracer_anatomy pf name smp opts w :
  let cfg := configured pf name smp opts in
  let t1 := installDefaults pf (registerCodecs pf cfg) in
  exists hostPart e1 r3 w3,
    (is_Some (getTagIn (tracerTags cfg ++ [versionTag pf]) (TracerHostnameTagKey pf))
     /\ hostPart = [] /\ e1 = env w
     \/ getTagIn (tracerTags cfg ++ [versionTag pf]) (TracerHostnameTagKey pf) = None
        /\ e1 = (os_Hostname pf (env w)).2
        /\ hostPart
           = match (os_Hostname pf (env w)).1 with
             | Some h => [mkTag (TracerHostnameTagKey pf) (VString h)]
             | None => []
             end)
    /\ addIPTag pf (setTracerTags t1 (tracerTags cfg ++ versionTag pf :: hostPart))
         (mkWorld e1 (heap w) (calls w))
       = Some (r3, w3)
    /\ match r3 with
       | Panicked reason =>
           NewTracer pf name smp opts w = Some (Panicked reason, w3)
       | Returned t3 =>
           let draw := randomNumber (core t3) (env w3) in
           let p := mkProcess name (FormatUint16 pf draw.1) (tracerTags t3) in
           let o := options (core t3) in
           exists t5,
             NewTracer pf name smp opts w
             = Some (Returned t5,
                     mkWorld (match processSetter t3 with
                              | Some SetProcess => SetProcess p draw.2
                              | None => draw.2
                              end) (heap w3)
                       (calls w3
                          ++ (if gen128Bit o then []
                              else if highTraceIDGeneratorSet t3
                                   then [generatorError] else [])
                          ++ [EvRandomNumber]))
             /\ process t5 = p
             /\ core t5
                = setOptions (core t3)
                    (mkTracerOptions (gen128Bit o) (zipkinSharedRPCSpan o)
                       (if gen128Bit o && negb (highTraceIDGeneratorSet t3)
                        then randomNumber (core t3)
                        else highTraceIDGenerator o)
                       (if maxTagValueLength o =? 0
                        then DefaultMaxTagValueLength pf
                        else maxTagValueLength o)
                       (noDebugFlagOnForcedSampling o))
             /\ highTraceIDGeneratorSet t5
                = (gen128Bit o || highTraceIDGeneratorSet t3)
             /\ timeNowSet t5 = timeNowSet t3
             /\ randomNumberSet t5 = randomNumberSet t3
             /\ debugThrottlerSet t5 = debugThrottlerSet t3
             /\ loggerSet t5 = loggerSet t3
             /\ processSetter t5 = processSetter t3
             /\ hostIPv4 t5 = hostIPv4 t3
             /\ metrics t5 = metrics t3
             /\ tracerTags t5 = tracerTags t3
             /\ baggageRestrictionManager t5 = baggageRestrictionManager t3
             /\ baggageSetter t5 = baggageSetter t3
       end.
Proof.
  intros cfg t1.
  destruct (addHostTags_spec pf t1 w) as (hostPart & e1 & Hrun & Hhost).
  change (tracerTags t1) with (tracerTags cfg) in Hrun, Hhost.
  destruct (addIPTag pf (setTracerTags t1 (tracerTags cfg ++ versionTag pf :: hostPart))
              (mkWorld e1 (heap w) (calls w))) as [[r3 w3]|] eqn:Hip.
  2:{ destruct (addIPTag_spec pf
                  (setTracerTags t1 (tracerTags cfg ++ versionTag pf :: hostPart))
                  (mkWorld e1 (heap w) (calls w))) as (? & ? & ? & H & _).
      congruence. }
  exists hostPart, e1, r3, w3. split; [exact Hhost|]. split; [exact Hip|].
  assert (Hnt : NewTracer pf name smp opts w
                = (let* t := addHostTags pf t1 in
                   let* r := addIPTag pf t in
                   match r with
                   | Panicked reason => ret (Panicked reason)
                   | Returned t =>
                       let* t := finishOptions pf t in
                       let* t := describeProcess pf name t in
                       ret (Returned t)
                   end) w).
  { reflexivity. }
  destruct r3 as [t3|reason]; cbv zeta.
  2:{ rewrite Hnt. unfold bind at 1. rewrite Hrun. unfold bind at 1. rewrite Hip.
      reflexivity. }
  destruct (finishOptions_spec pf t3 w3)
    as (t4 & Hfin & Hcore & Hhg & Htn & Hrn & Hdt & Hlg & Hps & Hipv & Hme & Htg
        & Hpr & Hbrm & Hbs).
  destruct (describeProcess_spec pf name t4
              (mkWorld (env w3) (heap w3)
                 (calls w3
                    ++ (if gen128Bit (options (core t3)) then []
                        else if highTraceIDGeneratorSet t3 then [generatorError]
                             else []))))
    as (t5 & Hdes & Hp5 & Hc5 & Hhg5 & Htn5 & Hrn5 & Hdt5 & Hlg5 & Hps5 & Hip5
        & Hme5 & Htg5 & Hbrm5 & Hbs5).
  cbn [env heap calls] in Hdes.
  exists t5. rewrite Hnt. unfold bind at 1. rewrite Hrun. unfold bind at 1.
  rewrite Hip. unfold bind at 1. rewrite Hfin. unfold bind at 1. rewrite Hdes.
  unfold ret.
  assert (Hrand : randomNumber (core t4) = randomNumber (core t3))
    by (rewrite Hcore; reflexivity).
  rewrite Hps, Hrand, Htg, <- app_assoc.
  split; [reflexivity|].
  split; [rewrite Hp5, Hrand, Htg; reflexivity|].
  split; [congruence|]. split; [congruence|].
  repeat (split; [congruence|]). congruence.
Qed.
End ConstructionFacts.

Section ConstructionRun.
Context {Env Carrier MetricsT ManagerT : Type}.
Implicit Types (pf : Platform Env Carrier MetricsT ManagerT)
  (t : TracerStruct Env Carrier MetricsT ManagerT).

(** What a returning call of [NewTracer] leaves, in terms of the tracer
    that the options configured. *)
Lemma NewTracer_returned pf name smp opts w t w' :
  NewTracer pf name smp opts w = Some (Returned t, w') ->
  let cfg := configured pf name smp opts in
  let t1 := installDefaults pf (registerCodecs pf cfg) in
  exists hostPart ipPart e1 e3 evs3,
    (is_Some (getTagIn (tracerTags cfg ++ [versionTag pf]) (TracerHostnameTagKey pf))
     /\ hostPart = [] /\ e1 = env w
     \/ getTagIn (tracerTags cfg ++ [versionTag pf]) (TracerHostnameTagKey pf) = None
        /\ e1 = (os_Hostname pf (env w)).2
        /\ hostPart
           = match (os_Hostname pf (env w)).1 with
             | Some h => [mkTag (TracerHostnameTagKey pf) (VString h)]
             | None => []
             end)
    /\ tracerTags t = tracerTags cfg ++ versionTag pf :: hostPart ++ ipPart
    /\ match getTagIn (tracerTags cfg ++ versionTag pf :: hostPart)
               (TracerIPTagKey pf) with
       | Some v =>
           e3 = e1 /\ ipPart = []
           /\ exists s, v = VString s
                /\ match ParseIPToUint32 pf s with
                   | inl ip => hostIPv4 t = ip /\ evs3 = []
                   | inr err => hostIPv4 t = 0 /\ evs3 = [ipParseError err]
                   end
       | None =>
           e3 = (HostIP pf e1).2
           /\ match (HostIP pf e1).1 with
              | inl ip =>
                  ipPart = [mkTag (TracerIPTagKey pf) (VString (IP_String pf ip))]
                  /\ hostIPv4 t = PackIPAsUint32 pf ip /\ evs3 = []
              | inr err =>
                  ipPart = [] /\ hostIPv4 t = hostIPv4 cfg
                  /\ evs3 = [hostIPError err]
              end
       end
    /\ w' = mkWorld (match processSetter t1 with
                     | Some SetProcess =>
                         SetProcess (process t) (randomNumber (core t1) e3).2
                     | None => (randomNumber (core t1) e3).2
                     end) (heap w)
              (calls w ++ evs3
                 ++ (if gen128Bit (options (core cfg)) then []
                     else if highTraceIDGeneratorSet cfg then [generatorError]
                          else [])
                 ++ [EvRandomNumber])
    /\ process t
       = mkProcess name (FormatUint16 pf (randomNumber (core t1) e3).1)
           (tracerTags t)
    /\ core t
       = setOptions (core t1)
           (mkTracerOptions (gen128Bit (options (core cfg)))
              (zipkinSharedRPCSpan (options (core cfg)))
              (if gen128Bit (options (core cfg))
                  && negb (highTraceIDGeneratorSet cfg)
               then randomNumber (core t1)
               else highTraceIDGenerator (options (core cfg)))
              (if maxTagValueLength (options (core cfg)) =? 0
               then DefaultMaxTagValueLength pf
               else maxTagValueLength (options (core cfg)))
              (noDebugFlagOnForcedSampling (options (core cfg))))
    /\ highTraceIDGeneratorSet t
       = (gen128Bit (options (core cfg)) || highTraceIDGeneratorSet cfg)
    /\ timeNowSet t = true
    /\ randomNumberSet t = true
    /\ debugThrottlerSet t = true
    /\ loggerSet t = true
    /\ processSetter t = processSetter t1
    /\ metrics t = metrics cfg
    /\ baggageRestrictionManager t = baggageRestrictionManager cfg
    /\ baggageSetter t = baggageSetter t1.
Proof.
  intros Hrun cfg t1.
  destruct (NewTracer_anatomy pf name smp opts w)
    as (hostPart & e1 & r3 & w3 & Hhost & Hip & Hrest).
  fold cfg in Hhost, Hip, Hrest. fold t1 in Hip, Hrest.
  destruct (addIPTag_spec pf
              (setTracerTags t1 (tracerTags cfg ++ versionTag pf :: hostPart))
              (mkWorld e1 (heap w) (calls w)))
    as (r & evs3 & e3 & Hip' & Hsame & Hcases).
  rewrite Hip in Hip'. injection Hip' as -> ->.
  cbn [tracerTags setTracerTags env heap calls] in Hcases.
  destruct r as [t3|reason]; [|rewrite Hrest in Hrun; discriminate].
  cbv zeta in Hrest. destruct Hrest as (t5 & Hnt & Hp5 & Hc5 & Hhg5 & Htn5 & Hrn5
    & Hdt5 & Hlg5 & Hps5 & Hip5 & Hme5 & Htg5 & Hbrm5 & Hbs5).
  rewrite Hnt in Hrun. injection Hrun as <- <-.
  destruct Hsame as (Sc & Stn & Srn & Shg & Sdt & Slg & Sps & Sme & Spr & Sbrm & Sbs).
  cbn [core setTracerTags timeNowSet randomNumberSet highTraceIDGeneratorSet
         debugThrottlerSet loggerSet processSetter metrics process
         baggageRestrictionManager baggageSetter] in Sc, Stn, Srn, Shg, Sdt, Slg,
         Sps, Sme, Spr, Sbrm, Sbs.
  cbn [env heap calls] in *.
  assert (Hopts : options (core t3) = options (core cfg))
    by (rewrite Sc; reflexivity).
  assert (Htags_ip : exists ipPart,
             tracerTags t3 = tracerTags cfg ++ versionTag pf :: hostPart ++ ipPart
             /\ match getTagIn (tracerTags cfg ++ versionTag pf :: hostPart)
                        (TracerIPTagKey pf) with
                | Some v =>
                    e3 = e1 /\ ipPart = []
                    /\ exists s, v = VString s
                         /\ match ParseIPToUint32 pf s with
                            | inl ip => hostIPv4 t3 = ip /\ evs3 = []
                            | inr err => hostIPv4 t3 = 0 /\ evs3 = [ipParseError err]
                            end
                | None =>
                    e3 = (HostIP pf e1).2
                    /\ match (HostIP pf e1).1 with
                       | inl ip =>
                           ipPart = [mkTag (TracerIPTagKey pf)
                                       (VString (IP_String pf ip))]
                           /\ hostIPv4 t3 = PackIPAsUint32 pf ip /\ evs3 = []
                       | inr err =>
                           ipPart = [] /\ hostIPv4 t3 = hostIPv4 cfg
                           /\ evs3 = [hostIPError err]
                       end
                end).
  { destruct (getTagIn (tracerTags cfg ++ versionTag pf :: hostPart)
                (TracerIPTagKey pf)) as [v|].
    - destruct Hcases as [-> Hv].
      destruct v as [s| | | |]; try (destruct Hv as [Hv _]; discriminate Hv).
      exists []. rewrite app_nil_r.
      assert (Ht3 : tracerTags t3 = tracerTags cfg ++ versionTag pf :: hostPart).
      { destruct (ParseIPToUint32 pf s); destruct Hv as [[= ->] _]; reflexivity. }
      split; [exact Ht3|]. split; [reflexivity|]. split; [reflexivity|].
      exists s. split; [reflexivity|].
      destruct (ParseIPToUint32 pf s) as [ip|err]; destruct Hv as [[= ->] ->];
        split; reflexivity.
    - destruct Hcases as [-> Hv].
      destruct ((HostIP pf e1).1) as [ip|err]; destruct Hv as [[= Ht3] ->].
      + exists [mkTag (TracerIPTagKey pf) (VString (IP_String pf ip))].
        split; [rewrite Ht3; cbn; rewrite <- app_assoc; reflexivity|].
        split; [reflexivity|]. split; [reflexivity|]. rewrite Ht3.
        split; reflexivity.
      + exists []. rewrite app_nil_r. rewrite Ht3.
        split; [reflexivity|]. split; [reflexivity|]. split; [reflexivity|].
        split; reflexivity. }
  destruct Htags_ip as (ipPart & Htags3 & Hipc).
  exists hostPart, ipPart, e1, e3, evs3.
  split; [exact Hhost|]. split; [congruence|].
  split.
  { rewrite Hip5. exact Hipc. }
  split.
  { rewrite Sps, Hopts, Shg, Hp5, Sc, Htags3, <- app_assoc. reflexivity. }
  split; [rewrite Hp5, Sc, Htg5; reflexivity|].
  split; [rewrite Hc5, Hopts, Sc, Shg; reflexivity|].
  split; [rewrite Hhg5, Hopts, Shg; reflexivity|].
  split; [rewrite Htn5, Stn; reflexivity|].
  split; [rewrite Hrn5, Srn; reflexivity|].
  split; [rewrite Hdt5, Sdt; reflexivity|].
  split; [rewrite Hlg5, Slg; reflexivity|].
  split; [congruence|]. split; [rewrite Hme5, Sme; reflexivity|].
  split; [rewrite Hbrm5, Sbrm; reflexivity|]. congruence.
Qed.
End ConstructionRun.

Section ConstructionProperties.
Context {Env Carrier MetricsT ManagerT : Type}.
Implicit Types (pf : Platform Env Carrier MetricsT ManagerT)
  (t : TracerStruct Env Carrier MetricsT ManagerT).

Lemma getTagIn_skip (l l' : list Tag) (k : string) :
  Forall (fun tag => key tag <> k) l' ->
  getTagIn (l ++ l') k = getTagIn l k.
Proof.
  intros Hl'. rewrite getTagIn_app.
  destruct (getTagIn l k); [reflexivity|].
  induction Hl' as [|tag l' Hk _ IH]; [reflexivity|].
  cbn. apply String.eqb_neq in Hk. rewrite Hk. exact IH.
Qed.

Lemma builtin_registered pf (m : MetricsT) (f : Format) :
  is_Some (firstRegistration f (builtinCodecs pf m))
  <-> f ∈ [TextMap; HTTPHeaders; Binary; SpanContextFormat; ZipkinSpanFormat].
Proof.
  unfold builtinCodecs. cbn [firstRegistration].
  repeat (destruct (decide (_ = f)) as [<-|?]; [split; [set_solver|eauto]|]).
  split; [intros [? [=]]|].
  intros H. repeat (apply elem_of_cons in H as [->|H]; [congruence|]).
  inversion H.
Qed.

(** [NewTracer] always ends: with a tracer, or with the panic of the type
    assertion of line 154. *)
Lemma NewTracer_outcome pf name smp opts w :
  exists r w' hostPart,
    NewTracer pf name smp opts w = Some (r, w')
    /\ Forall (fun tag => key tag = TracerHostnameTagKey pf) hostPart
    /\ (isPanicked r = true
        <-> exists v,
              getTagIn (tracerTags (configured pf name smp opts)
                          ++ versionTag pf :: hostPart) (TracerIPTagKey pf)
              = Some v
              /\ isStringValue v = false)
    /\ (isPanicked r = true -> calls w' = calls w /\ heap w' = heap w).
Proof.
  destruct (NewTracer_anatomy pf name smp opts w)
    as (hostPart & e1 & r3 & w3 & Hhost & Hip & Hrest).
  destruct (addIPTag_spec pf
              (setTracerTags (installDefaults pf
                                (registerCodecs pf (configured pf name smp opts)))
                 (tracerTags (configured pf name smp opts)
                    ++ versionTag pf :: hostPart))
              (mkWorld e1 (heap w) (calls w)))
    as (r & evs3 & e3 & Hip' & _ & Hcases).
  rewrite Hip in Hip'. injection Hip' as -> ->.
  cbn [tracerTags setTracerTags env heap calls] in Hcases.
  assert (Hkeys : Forall (fun tag => key tag = TracerHostnameTagKey pf) hostPart).
  { destruct Hhost as [(_ & -> & _)|(_ & _ & ->)]; [constructor|].
    destruct ((os_Hostname pf (env w)).1); repeat constructor. }
  assert (Hpan : (isPanicked r = true
                  <-> exists v,
                        getTagIn (tracerTags (configured pf name smp opts)
                                    ++ versionTag pf :: hostPart) (TracerIPTagKey pf)
                        = Some v
                        /\ isStringValue v = false)
                 /\ (isPanicked r = true -> evs3 = [])).
  { destruct (getTagIn (tracerTags (configured pf name smp opts)
                          ++ versionTag pf :: hostPart) (TracerIPTagKey pf))
      as [v|].
    - destruct Hcases as [_ Hv]. destruct v as [s| | | |];
        try (destruct Hv as [Hv ->]; split; [|reflexivity];
             split; [intros _; eexists; split; reflexivity|intros _; exact Hv]).
      assert (Hr : isPanicked r = false)
        by (destruct (ParseIPToUint32 pf s); destruct Hv as [-> _]; reflexivity).
      rewrite Hr. split; [|discriminate]. split; [discriminate|].
      intros (v & [= <-] & Hv'). discriminate Hv'.
    - destruct Hcases as [_ Hv].
      assert (Hr : isPanicked r = false)
        by (destruct ((HostIP pf e1).1); destruct Hv as [-> _]; reflexivity).
      rewrite Hr. split; [|discriminate]. split; [discriminate|].
      intros (v & [=] & _). }
  destruct Hpan as [Hiff Hevs].
  destruct r as [t3|reason].
  - cbv zeta in Hrest. destruct Hrest as (t5 & Hnt & _).
    eexists _, _, hostPart. split; [exact Hnt|]. split; [exact Hkeys|].
    split; [exact Hiff|]. discriminate.
  - eexists _, _, hostPart. split; [exact Hrest|]. split; [exact Hkeys|].
    split; [exact Hiff|]. intros H. rewrite (Hevs H), app_nil_r.
    split; reflexivity.
Qed.

(** X18.  The codecs of a new tracer: a codec that an option registered for
    a format is kept, and each of the five built-in formats that the
    options left free gets its built-in codec, the injector and the
    extractor separately.  So the five built-in formats are always
    registered, and no format is registered besides them and the ones of
    the options. *)
Theorem NewTracer_codecs pf name smp opts w t w' (f : Format) :
  NewTracer pf name smp opts w = Some (Returned t, w') ->
  injectors (core t) !! f
  = match injectors (core (configured pf name smp opts)) !! f with
    | Some i => Some i
    | None => fst <$> firstRegistration f
                        (builtinCodecs pf (metrics (configured pf name smp opts)))
    end
  /\ extractors (core t) !! f
     = match extractors (core (configured pf name smp opts)) !! f with
       | Some e => Some e
       | None => snd <$> firstRegistration f
                           (builtinCodecs pf (metrics (configured pf name smp opts)))
       end
  /\ (f ∈ [TextMap; HTTPHeaders; Binary; SpanContextFormat; ZipkinSpanFormat] ->
      is_Some (injectors (core t) !! f) /\ is_Some (extractors (core t) !! f))
  /\ (is_Some (injectors (core t) !! f) ->
      is_Some (injectors (core (configured pf name smp opts)) !! f)
      \/ f ∈ [TextMap; HTTPHeaders; Binary; SpanContextFormat; ZipkinSpanFormat])
  /\ (is_Some (extractors (core t) !! f) ->
      is_Some (extractors (core (configured pf name smp opts)) !! f)
      \/ f ∈ [TextMap; HTTPHeaders; Binary; SpanContextFormat; ZipkinSpanFormat]).
Proof.
  intros Hrun.
  destruct (NewTracer_returned pf name smp opts w t w' Hrun)
    as (hostPart & ipPart & e1 & e3 & evs3 & _ & _ & _ & _ & _ & Hcore & _).
  set (cfg := configured pf name smp opts) in *.
  assert (Hi : injectors (core t)
               = injectors (addCodecs (core cfg) (builtinCodecs pf (metrics cfg))))
    by (rewrite Hcore; reflexivity).
  assert (He : extractors (core t)
               = extractors (addCodecs (core cfg) (builtinCodecs pf (metrics cfg))))
    by (rewrite Hcore; reflexivity).
  destruct (addCodecs_lookup (core cfg) (builtinCodecs pf (metrics cfg)) f)
    as [Li Le].
  rewrite Hi, He, Li, Le.
  pose proof (builtin_registered pf (metrics cfg) f) as Hb.
  split; [reflexivity|]. split; [reflexivity|].
  split; [|split].
  - intros Hin. apply Hb in Hin as [[i e] Hreg]. rewrite Hreg.
    split; [destruct (injectors (core cfg) !! f)
           |destruct (extractors (core cfg) !! f)]; cbn; eauto.
  - destruct (injectors (core cfg) !! f); [eauto|].
    intros [i Hreg]. right. apply Hb.
    destruct (firstRegistration f (builtinCodecs pf (metrics cfg)));
      [eauto|discriminate].
  - destruct (extractors (core cfg) !! f); [eauto|].
    intros [i Hreg]. right. apply Hb.
    destruct (firstRegistration f (builtinCodecs pf (metrics cfg)));
      [eauto|discriminate].
Qed.

(** X19.  [NewTracer] always ends, and it panics exactly when an option has
    given a tag with the key of the IP address whose value is not a string
    (the type assertion of line 154).  The panic comes before anything is
    logged and before the random source is used.  The three tag keys of
    the tracer are taken to differ. *)
Theorem NewTracer_panics_on_ip_tag pf name smp opts w :
  TracerIPTagKey pf <> JaegerClientVersionTagKey pf ->
  TracerIPTagKey pf <> TracerHostnameTagKey pf ->
  exists r w',
    NewTracer pf name smp opts w = Some (r, w')
    /\ (isPanicked r = true
        <-> exists v,
              getTag (configured pf name smp opts) (TracerIPTagKey pf) = Some v
              /\ isStringValue v = false)
    /\ (isPanicked r = true -> calls w' = calls w /\ heap w' = heap w).
Proof.
  intros Hver Hhost.
  destruct (NewTracer_outcome pf name smp opts w)
    as (r & w' & hostPart & Hrun & Hkeys & Hiff & Hcalls).
  exists r, w'. split; [exact Hrun|]. split; [|exact Hcalls].
  rewrite Hiff. unfold getTag. rewrite getTagIn_skip; [reflexivity|].
  constructor; [cbn; congruence|].
  eapply Forall_impl; [exact Hkeys|]. cbn. intros tag ->. congruence.
Qed.

(** X20.  Defaults never override an option.  In a new tracer the clock,
    the random source, the debug throttler, the logger and the baggage
    setter are all set: each is the one that the options gave, and the
    default only where the options gave none.  The bound on tag values is
    the default only when the options left it at zero.  The service name,
    the sampler and the switches of the options are unchanged. *)
Theorem NewTracer_defaults pf name smp opts w t w' :
  NewTracer pf name smp opts w = Some (Returned t, w') ->
  timeNowSet t = true /\ randomNumberSet t = true
  /\ debugThrottlerSet t = true /\ loggerSet t = true
  /\ timeNow (core t)
     = (if timeNowSet (configured pf name smp opts)
        then timeNow (core (configured pf name smp opts)) else time_Now pf)
  /\ randomNumber (core t)
     = (if randomNumberSet (configured pf name smp opts)
        then randomNumber (core (configured pf name smp opts))
        else pooledRandomNumber pf)
  /\ debugThrottler (core t)
     = (if debugThrottlerSet (configured pf name smp opts)
        then debugThrottler (core (configured pf name smp opts))
        else DefaultThrottler pf)
  /\ processSetter t
     = (if debugThrottlerSet (configured pf name smp opts)
        then processSetter (configured pf name smp opts)
        else DefaultThrottler_SetProcess pf)
  /\ baggageSetter t
     = Some (default (NewDefaultRestrictionManager pf)
               (baggageRestrictionManager (configured pf name smp opts)),
             metrics (configured pf name smp opts))
  /\ maxTagValueLength (options (core t))
     = (if maxTagValueLength (options (core (configured pf name smp opts))) =? 0
        then DefaultMaxTagValueLength pf
        else maxTagValueLength (options (core (configured pf name smp opts))))
  /\ serviceName (core t) = serviceName (core (configured pf name smp opts))
  /\ sampler (core t) = sampler (core (configured pf name smp opts))
  /\ gen128Bit (options (core t))
     = gen128Bit (options (core (configured pf name smp opts)))
  /\ zipkinSharedRPCSpan (options (core t))
     = zipkinSharedRPCSpan (options (core (configured pf name smp opts)))
  /\ noDebugFlagOnForcedSampling (options (core t))
     = noDebugFlagOnForcedSampling (options (core (configured pf name smp opts)))
  /\ metrics t = metrics (configured pf name smp opts)
  /\ baggageRestrictionManager t
     = baggageRestrictionManager (configured pf name smp opts).
Proof.
  intros Hrun.
  destruct (NewTracer_returned pf name smp opts w t w' Hrun)
    as (hostPart & ipPart & e1 & e3 & evs3 & _ & _ & _ & _ & _ & Hcore & _ & Htn
        & Hrn & Hdt & Hlg & Hps & Hme & Hbrm & Hbs).
  set (cfg := configured pf name smp opts) in *.
  rewrite Hcore, Hps, Hbs.
  split; [exact Htn|]. split; [exact Hrn|]. split; [exact Hdt|].
  split; [exact Hlg|].
  split; [reflexivity|]. split; [reflexivity|]. split; [reflexivity|].
  split; [reflexivity|].
  split; [cbn; destruct (baggageRestrictionManager cfg); reflexivity|].
  split; [reflexivity|]. split; [reflexivity|]. split; [reflexivity|].
  split; [reflexivity|]. split; [reflexivity|]. split; [reflexivity|].
  split; [exact Hme|exact Hbrm].
Qed.

(** X21.  The tags of a new tracer are the tags of the options, in their
    order, followed by the version tag and then by at most a host name tag
    and an IP tag.  As [getTag] returns the first match, a tag that an
    option gave is what [getTag] returns for its key, also when the key is
    one of the three that [NewTracer] adds; the version tag itself is
    always among the tags that [Tags] returns, and the process carries the
    tags of the tracer. *)
Theorem NewTracer_option_tags_first pf name smp opts w t w' :
  NewTracer pf name smp opts w = Some (Returned t, w') ->
  (exists added,
      tracerTags t
      = tracerTags (configured pf name smp opts) ++ versionTag pf :: added
      /\ (length added <= 2)%nat
      /\ Forall (fun tag => key tag = TracerHostnameTagKey pf
                            \/ key tag = TracerIPTagKey pf) added)
  /\ (forall k v,
        getTag (configured pf name smp opts) k = Some v -> getTag t k = Some v)
  /\ is_Some (getTag t (JaegerClientVersionTagKey pf))
  /\ (JaegerClientVersionTagKey pf, VString (JaegerClientVersion pf))
     ∈ Tracer_Tags t
  /\ ProcessTags (process t) = tracerTags t.
Proof.
  intros Hrun.
  destruct (NewTracer_returned pf name smp opts w t w' Hrun)
    as (hostPart & ipPart & e1 & e3 & evs3 & Hhost & Htags & Hip & _ & Hproc & _).
  set (cfg := configured pf name smp opts) in *.
  assert (Hadded : (length (hostPart ++ ipPart) <= 2)%nat
                   /\ Forall (fun tag => key tag = TracerHostnameTagKey pf
                                         \/ key tag = TracerIPTagKey pf)
                        (hostPart ++ ipPart)).
  { assert (Hh : (length hostPart <= 1)%nat
                 /\ Forall (fun tag => key tag = TracerHostnameTagKey pf
                                       \/ key tag = TracerIPTagKey pf) hostPart).
    { destruct Hhost as [(_ & -> & _)|(_ & _ & ->)]; [cbn; split; [lia|constructor]|].
      destruct ((os_Hostname pf (env w)).1); cbn; split; try lia;
        repeat constructor. }
    assert (Hi : (length ipPart <= 1)%nat
                 /\ Forall (fun tag => key tag = TracerHostnameTagKey pf
                                       \/ key tag = TracerIPTagKey pf) ipPart).
    { destruct (getTagIn (tracerTags cfg ++ versionTag pf :: hostPart)
                  (TracerIPTagKey pf)).
      - destruct Hip as (_ & -> & _). cbn. split; [lia|constructor].
      - destruct Hip as (_ & Hip). destruct ((HostIP pf e1).1).
        + destruct Hip as (-> & _). cbn. split; [lia|].
          constructor; [right; reflexivity|constructor].
        + destruct Hip as (-> & _). cbn. split; [lia|constructor]. }
    destruct Hh as [Hh1 Hh2], Hi as [Hi1 Hi2].
    rewrite length_app. split; [lia|]. apply Forall_app. split; assumption. }
  split; [exists (hostPart ++ ipPart); split; [exact Htags|exact Hadded]|].
  split.
  { intros k v Hk. unfold getTag in *. rewrite Htags, getTagIn_app, Hk.
    reflexivity. }
  split.
  { unfold getTag. rewrite Htags, getTagIn_app.
    destruct (getTagIn (tracerTags cfg) (JaegerClientVersionTagKey pf));
      [eauto|].
    cbn. rewrite String.eqb_refl. eauto. }
  split.
  { unfold Tracer_Tags. rewrite Htags. apply list_elem_of_fmap.
    exists (versionTag pf). split; [reflexivity|].
    apply elem_of_app. right. left. }
  rewrite Hproc. reflexivity.
Qed.

End ConstructionProperties.

Section ConstructionHost.
Context {Env Carrier MetricsT ManagerT : Type}.
Implicit Types (pf : Platform Env Carrier MetricsT ManagerT)
  (t : TracerStruct Env Carrier MetricsT ManagerT).

(** The logger calls and the draws among the calls of a construction. *)
Lemma construction_calls (evs gen : list Event) :
  Forall (fun e => isLoggerCall e = true) evs ->
  Forall (fun e => isLoggerCall e = true) gen ->
  filter (fun e => isLoggerCall e = true) (evs ++ gen ++ [EvRandomNumber])
  = evs ++ gen
  /\ filter (fun e => isRandomCall e = true) (evs ++ gen ++ [EvRandomNumber])
     = [EvRandomNumber].
Proof.
  intros He Hg. rewrite !filter_app. split.
  - rewrite (filter_all isLoggerCall _ He), (filter_all isLoggerCall _ Hg).
    rewrite filter_cons_False by (cbn; discriminate).
    rewrite filter_nil, app_nil_r. reflexivity.
  - rewrite (filter_none isRandomCall evs), (filter_none isRandomCall gen);
      [rewrite filter_cons_True by reflexivity; reflexivity| |].
    + eapply Forall_impl; [exact Hg|]. intros [] H; cbn in *; congruence.
    + eapply Forall_impl; [exact He|]. intros [] H; cbn in *; congruence.
Qed.

Lemma generator_calls_logger (b c : bool) :
  Forall (fun e => isLoggerCall e = true)
    (if b then [] else if c then [generatorError] else []).
Proof. destruct b, c; repeat constructor. Qed.

(** X22.  A host name tag and an IP tag with a string value that the
    options gave are used as they are: [NewTracer] then asks the operating
    system for neither (the environment goes unchanged to the one draw of
    the random source), adds only the version tag, and takes [hostIPv4]
    from the given address, or 0 with a logged error when the address does
    not parse. *)
Theorem NewTracer_uses_given_host_identity pf name smp opts w hv s :
  getTag (configured pf name smp opts) (TracerHostnameTagKey pf) = Some hv ->
  getTag (configured pf name smp opts) (TracerIPTagKey pf) = Some (VString s) ->
  exists t w',
    NewTracer pf name smp opts w = Some (Returned t, w')
    /\ tracerTags t = tracerTags (configured pf name smp opts) ++ [versionTag pf]
    /\ hostIPv4 t = match ParseIPToUint32 pf s with inl ip => ip | inr _ => 0 end
    /\ filter (fun e => isLoggerCall e = true) (newCalls w w')
       = match ParseIPToUint32 pf s with
         | inl _ => []
         | inr err => [ipParseError err]
         end
         ++ (if gen128Bit (options (core t)) then []
             else if highTraceIDGeneratorSet t then [generatorError] else [])
    /\ env w' = match processSetter t with
                | Some SetProcess =>
                    SetProcess (process t) (randomNumber (core t) (env w)).2
                | None => (randomNumber (core t) (env w)).2
                end
    /\ UUID (process t) = FormatUint16 pf (randomNumber (core t) (env w)).1.
Proof.
  intros Hhn Hipt. unfold getTag in Hhn, Hipt.
  destruct (NewTracer_outcome pf name smp opts w)
    as (r & w' & hostPart0 & Hrun & _ & Hiff & _).
  destruct r as [t|reason].
  2:{ destruct Hiff as [Hiff _]. destruct (Hiff eq_refl) as (v & Hv & Hns).
      rewrite getTagIn_app, Hipt in Hv. injection Hv as <-. discriminate Hns. }
  clear Hiff hostPart0. exists t, w'. split; [exact Hrun|].
  destruct (NewTracer_returned pf name smp opts w t w' Hrun)
    as (hostPart & ipPart & e1 & e3 & evs3 & Hhost & Htags & Hip & Hw & Hproc
        & Hcore & Hhg & _ & _ & _ & _ & Hps & _).
  set (cfg := configured pf name smp opts) in *.
  destruct Hhost as [(_ & -> & ->)|(Hnone & _)];
    [|rewrite getTagIn_app, Hhn in Hnone; discriminate].
  rewrite getTagIn_app, Hipt in Hip. destruct Hip as (-> & -> & s' & [= <-] & Hparse).
  assert (Hrand : randomNumber (core t)
                  = randomNumber (core (installDefaults pf (registerCodecs pf cfg))))
    by (rewrite Hcore; reflexivity).
  assert (Hgen : gen128Bit (options (core t)) = gen128Bit (options (core cfg)))
    by (rewrite Hcore; reflexivity).
  split; [exact Htags|].
  split; [destruct (ParseIPToUint32 pf s); tauto|].
  split.
  { rewrite (newCalls_app w w' _ (f_equal calls Hw)).
    assert (Hevs : evs3 = match ParseIPToUint32 pf s with
                          | inl _ => []
                          | inr err => [ipParseError err]
                          end)
      by (destruct (ParseIPToUint32 pf s); tauto).
    rewrite Hgen, Hhg.
    assert (Hsame : (if gen128Bit (options (core cfg)) then []
                     else if gen128Bit (options (core cfg))
                             || highTraceIDGeneratorSet cfg
                          then [generatorError] else [])
                    = (if gen128Bit (options (core cfg)) then []
                       else if highTraceIDGeneratorSet cfg
                            then [generatorError] else []))
      by (destruct (gen128Bit (options (core cfg))); reflexivity).
    rewrite Hsame.
    rewrite <- Hevs. apply construction_calls.
    - rewrite Hevs. destruct (ParseIPToUint32 pf s); repeat constructor.
    - apply generator_calls_logger. }
  split.
  { rewrite Hw, Hps, Hrand. reflexivity. }
  rewrite Hproc, Hrand. reflexivity.
Qed.

(** X23.  Without a host name tag and an IP tag from the options,
    [NewTracer] asks the operating system, first for the host name and
    then for the address.  A host name that cannot be determined is passed
    over in silence.  An address that cannot be determined is logged, and
    then no IP tag is added and [hostIPv4] stays as the options left it.
    The three tag keys of the tracer are taken to differ. *)
Theorem NewTracer_detects_host_identity pf name smp opts w :
  TracerHostnameTagKey pf <> JaegerClientVersionTagKey pf ->
  TracerIPTagKey pf <> JaegerClientVersionTagKey pf ->
  TracerIPTagKey pf <> TracerHostnameTagKey pf ->
  getTag (configured pf name smp opts) (TracerHostnameTagKey pf) = None ->
  getTag (configured pf name smp opts) (TracerIPTagKey pf) = None ->
  exists t w',
    NewTracer pf name smp opts w = Some (Returned t, w')
    /\ tracerTags t
       = tracerTags (configured pf name smp opts)
           ++ versionTag pf
           :: match (os_Hostname pf (env w)).1 with
              | Some h => [mkTag (TracerHostnameTagKey pf) (VString h)]
              | None => []
              end
           ++ match (HostIP pf (os_Hostname pf (env w)).2).1 with
              | inl ip => [mkTag (TracerIPTagKey pf) (VString (IP_String pf ip))]
              | inr _ => []
              end
    /\ hostIPv4 t
       = match (HostIP pf (os_Hostname pf (env w)).2).1 with
         | inl ip => PackIPAsUint32 pf ip
         | inr _ => hostIPv4 (configured pf name smp opts)
         end
    /\ filter (fun e => isLoggerCall e = true) (newCalls w w')
       = match (HostIP pf (os_Hostname pf (env w)).2).1 with
         | inl _ => []
         | inr err => [hostIPError err]
         end
         ++ (if gen128Bit (options (core t)) then []
             else if highTraceIDGeneratorSet t then [generatorError] else [])
    /\ UUID (process t)
       = FormatUint16 pf
           (randomNumber (core t)
              (HostIP pf (os_Hostname pf (env w)).2).2).1.
Proof.
  intros Hhv Hiv Hih Hhn Hipt. unfold getTag in Hhn, Hipt.
  assert (Hhn' : getTagIn (tracerTags (configured pf name smp opts) ++ [versionTag pf])
                   (TracerHostnameTagKey pf) = None).
  { rewrite getTagIn_skip; [exact Hhn|]. constructor; [cbn; congruence|constructor]. }
  assert (Hskip : forall hostPart,
             Forall (fun tag => key tag = TracerHostnameTagKey pf) hostPart ->
             getTagIn (tracerTags (configured pf name smp opts)
                         ++ versionTag pf :: hostPart) (TracerIPTagKey pf) = None).
  { intros hostPart Hkeys. rewrite getTagIn_skip; [exact Hipt|].
    constructor; [cbn; congruence|].
    eapply Forall_impl; [exact Hkeys|]. cbn. intros tag ->. congruence. }
  destruct (NewTracer_outcome pf name smp opts w)
    as (r & w' & hostPart0 & Hrun & Hkeys0 & Hiff & _).
  destruct r as [t|reason].
  2:{ destruct Hiff as [Hiff _]. destruct (Hiff eq_refl) as (v & Hv & _).
      rewrite (Hskip _ Hkeys0) in Hv. discriminate. }
  clear Hiff Hkeys0 hostPart0. exists t, w'. split; [exact Hrun|].
  destruct (NewTracer_returned pf name smp opts w t w' Hrun)
    as (hostPart & ipPart & e1 & e3 & evs3 & Hhost & Htags & Hip & Hw & Hproc
        & Hcore & Hhg & _).
  set (cfg := configured pf name smp opts) in *.
  destruct Hhost as [([? Hsome] & _)|(_ & -> & ->)]; [congruence|].
  rewrite Hskip in Hip
    by (destruct ((os_Hostname pf (env w)).1); repeat constructor).
  destruct Hip as (-> & Hip).
  assert (Hrand : randomNumber (core t)
                  = randomNumber (core (installDefaults pf (registerCodecs pf cfg))))
    by (rewrite Hcore; reflexivity).
  assert (Hgen : gen128Bit (options (core t)) = gen128Bit (options (core cfg)))
    by (rewrite Hcore; reflexivity).
  split; [rewrite Htags; destruct ((HostIP pf (os_Hostname pf (env w)).2).1);
          destruct Hip as (-> & _); reflexivity|].
  split; [destruct ((HostIP pf (os_Hostname pf (env w)).2).1); tauto|].
  split.
  { rewrite (newCalls_app w w' _ (f_equal calls Hw)).
    assert (Hevs : evs3 = match (HostIP pf (os_Hostname pf (env w)).2).1 with
                          | inl _ => []
                          | inr err => [hostIPError err]
                          end)
      by (destruct ((HostIP pf (os_Hostname pf (env w)).2).1); tauto).
    rewrite Hgen, Hhg.
    assert (Hsame : (if gen128Bit (options (core cfg)) then []
                     else if gen128Bit (options (core cfg))
                             || highTraceIDGeneratorSet cfg
                          then [generatorError] else [])
                    = (if gen128Bit (options (core cfg)) then []
                       else if highTraceIDGeneratorSet cfg
                            then [generatorError] else []))
      by (destruct (gen128Bit (options (core cfg))); reflexivity).
    rewrite Hsame.
    rewrite <- Hevs. apply construction_calls.
    - rewrite Hevs. destruct ((HostIP pf (os_Hostname pf (env w)).2).1);
        repeat constructor.
    - apply generator_calls_logger. }
  rewrite Hproc, Hrand. reflexivity.
Qed.

(** X24.  The process of a new tracer: the service name that was passed to
    [NewTracer] (not the one that an option may have put into the tracer),
    the tags of the tracer, and as UUID the formatted value of one draw of
    the tracer's random source.  The draw is the only one of the
    construction and its last call, it is taken as it comes, zero included,
    and a debug throttler that wants the process gets the finished process
    after the draw.  The heap is left alone. *)
Theorem NewTracer_process pf name smp opts w t w' :
  NewTracer pf name smp opts w = Some (Returned t, w') ->
  exists e,
    process t
    = mkProcess name (FormatUint16 pf (randomNumber (core t) e).1) (tracerTags t)
    /\ env w' = match processSetter t with
                | Some SetProcess =>
                    SetProcess (process t) (randomNumber (core t) e).2
                | None => (randomNumber (core t) e).2
                end
    /\ filter (fun e => isRandomCall e = true) (newCalls w w') = [EvRandomNumber]
    /\ last (calls w') = Some EvRandomNumber
    /\ heap w' = heap w.
Proof.
  intros Hrun.
  destruct (NewTracer_returned pf name smp opts w t w' Hrun)
    as (hostPart & ipPart & e1 & e3 & evs3 & _ & _ & Hip & Hw & Hproc
        & Hcore & _ & _ & _ & _ & _ & Hps & _).
  set (cfg := configured pf name smp opts) in *.
  assert (Hrand : randomNumber (core t)
                  = randomNumber (core (installDefaults pf (registerCodecs pf cfg))))
    by (rewrite Hcore; reflexivity).
  exists e3. split; [rewrite Hproc, Hrand; reflexivity|].
  split; [rewrite Hw, Hps, Hrand; reflexivity|].
  split.
  { rewrite (newCalls_app w w' _ (f_equal calls Hw)).
    apply construction_calls; [|apply generator_calls_logger].
    destruct (getTagIn (tracerTags cfg ++ versionTag pf :: hostPart)
                (TracerIPTagKey pf)).
    - destruct Hip as (_ & _ & s & _ & Hp).
      destruct (ParseIPToUint32 pf s); destruct Hp as [_ ->]; repeat constructor.
    - destruct Hip as (_ & Hp).
      destruct ((HostIP pf e1).1); destruct Hp as (_ & _ & ->);
        repeat constructor. }
  split; [|rewrite Hw; reflexivity].
  rewrite Hw. cbn [calls]. rewrite !app_assoc. apply last_snoc.
Qed.

(** X25.  The generator of the high word of trace IDs.  With 128-bit trace
    IDs switched on the generator is set after the construction: the one
    of the options, or else the random source of the tracer itself, and
    nothing is logged about it.  With 128-bit trace IDs off, a generator
    that the options gave is reported to the logger once, and is neither
    removed nor does it switch 128-bit trace IDs on. *)
Theorem NewTracer_high_word_generator pf name smp opts w t w' :
  NewTracer pf name smp opts w = Some (Returned t, w') ->
  gen128Bit (options (core t))
  = gen128Bit (options (core (configured pf name smp opts)))
  /\ highTraceIDGeneratorSet t
     = (gen128Bit (options (core (configured pf name smp opts)))
        || highTraceIDGeneratorSet (configured pf name smp opts))
  /\ highTraceIDGenerator (options (core t))
     = (if gen128Bit (options (core (configured pf name smp opts)))
           && negb (highTraceIDGeneratorSet (configured pf name smp opts))
        then randomNumber (core t)
        else highTraceIDGenerator (options (core (configured pf name smp opts))))
  /\ filter (fun e => isGeneratorError e = true) (newCalls w w')
     = (if negb (gen128Bit (options (core (configured pf name smp opts))))
           && highTraceIDGeneratorSet (configured pf name smp opts)
        then [generatorError] else []).
Proof.
  intros Hrun.
  destruct (NewTracer_returned pf name smp opts w t w' Hrun)
    as (hostPart & ipPart & e1 & e3 & evs3 & _ & _ & Hip & Hw & _
        & Hcore & Hhg & _).
  set (cfg := configured pf name smp opts) in *.
  split; [rewrite Hcore; reflexivity|]. split; [exact Hhg|].
  split; [rewrite Hcore; reflexivity|].
  rewrite (newCalls_app w w' _ (f_equal calls Hw)).
  assert (Hevs : filter (fun e => isGeneratorError e = true) evs3 = []).
  { destruct (getTagIn (tracerTags cfg ++ versionTag pf :: hostPart)
                (TracerIPTagKey pf)).
    - destruct Hip as (_ & _ & s & _ & Hp).
      destruct (ParseIPToUint32 pf s); destruct Hp as [_ ->]; [reflexivity|].
      rewrite filter_cons_False by (vm_compute; discriminate). reflexivity.
    - destruct Hip as (_ & Hp).
      destruct ((HostIP pf e1).1); destruct Hp as (_ & _ & ->); [reflexivity|].
      rewrite filter_cons_False by (vm_compute; discriminate). reflexivity. }
  rewrite !filter_app, Hevs.
  rewrite (filter_cons_False _ EvRandomNumber) by (vm_compute; discriminate).
  destruct (gen128Bit (options (core cfg))), (highTraceIDGeneratorSet cfg);
    cbn [negb andb app]; reflexivity.
Qed.

(** X26.  [getTag] returns the value of the first tag with the key: it
    finds a value exactly when the tags split into tags with other keys, a
    tag with the key and that value, and the rest; it finds nothing exactly
    when no tag has the key. *)
Theorem getTag_first_match t (k : string) :
  (forall v, getTag t k = Some v
             <-> exists l1 l2, tracerTags t = l1 ++ mkTag k v :: l2
                               /\ k ∉ key <$> l1)
  /\ (getTag t k = None <-> k ∉ key <$> tracerTags t).
Proof.
  split; [intros v; apply getTagIn_Some|apply getTagIn_None].
Qed.
End ConstructionHost.

(** Runs a demo construction for an instance of a property. *)
Ltac run_construction pf opts :=
  let Hrun := fresh "Hrun" in
  destruct (NewTracer pf "svc" Demo.neverSample opts DemoPlatform.world)
    as [[[t|reason] w']|] eqn:Hrun;
  [|vm_compute in Hrun; discriminate|vm_compute in Hrun; discriminate];
  exists t, w'; split; [reflexivity|].

(** X18 at the demo platform: an option has registered an injector for the
    text map format, so the built-in injector is not installed, while the
    built-in extractor is. *)
Lemma NewTracer_codecs_witness :
  exists t w',
    NewTracer DemoPlatform.platform "svc" Demo.neverSample
      [DemoPlatform.injectorOption TextMap Demo.nullInjector] DemoPlatform.world
    = Some (Returned t, w')
    /\ injectors (core t) !! TextMap = Some Demo.nullInjector
    /\ extractors (core t) !! TextMap = Some DemoPlatform.textExtractor
    /\ is_Some (injectors (core t) !! ZipkinSpanFormat).
Proof.
  run_construction DemoPlatform.platform
    [DemoPlatform.injectorOption TextMap Demo.nullInjector].
  destruct (NewTracer_codecs DemoPlatform.platform "svc" Demo.neverSample
              [DemoPlatform.injectorOption TextMap Demo.nullInjector]
              DemoPlatform.world t w' TextMap Hrun) as (Hi & He & _).
  destruct (NewTracer_codecs DemoPlatform.platform "svc" Demo.neverSample
              [DemoPlatform.injectorOption TextMap Demo.nullInjector]
              DemoPlatform.world t w' ZipkinSpanFormat Hrun)
    as (_ & _ & Hz & _).
  split; [rewrite Hi; vm_compute; reflexivity|].
  split; [rewrite He; vm_compute; reflexivity|].
  apply Hz. do 4 right. left.
Defined.

(** X19 at the demo platform: an IP tag with an integer value. *)
Lemma NewTracer_panics_on_ip_tag_witness :
  exists r w',
    NewTracer DemoPlatform.platform "svc" Demo.neverSample
      [DemoPlatform.tagOption "ip" (VInt 4)] DemoPlatform.world
    = Some (r, w')
    /\ isPanicked r = true
    /\ calls w' = calls DemoPlatform.world.
Proof.
  destruct (NewTracer_panics_on_ip_tag DemoPlatform.platform "svc"
              Demo.neverSample [DemoPlatform.tagOption "ip" (VInt 4)]
              DemoPlatform.world)
    as (r & w' & Hrun & Hiff & Hcalls); [discriminate|discriminate|].
  exists r, w'. split; [exact Hrun|].
  assert (Hp : isPanicked r = true).
  { apply Hiff. exists (VInt 4). split; reflexivity. }
  split; [exact Hp|]. apply Hcalls. exact Hp.
Defined.

(** X20 at the demo platform: the options give a random source and nothing
    else. *)
Lemma NewTracer_defaults_witness :
  exists t w',
    NewTracer DemoPlatform.platform "svc" Demo.neverSample
      [DemoPlatform.randomOption Demo.zerosThenSeven] DemoPlatform.world
    = Some (Returned t, w')
    /\ randomNumber (core t) = Demo.zerosThenSeven
    /\ timeNow (core t) = time_Now DemoPlatform.platform
    /\ maxTagValueLength (options (core t)) = 256
    /\ baggageSetter t = Some (tt, tt).
Proof.
  run_construction DemoPlatform.platform
    [DemoPlatform.randomOption Demo.zerosThenSeven].
  destruct (NewTracer_defaults DemoPlatform.platform "svc" Demo.neverSample
              [DemoPlatform.randomOption Demo.zerosThenSeven]
              DemoPlatform.world t w' Hrun)
    as (_ & _ & _ & _ & Hclock & Hrand & _ & _ & Hbs & Hmax & _).
  split; [rewrite Hrand; reflexivity|].
  split; [rewrite Hclock; reflexivity|].
  split; [rewrite Hmax; reflexivity|].
  rewrite Hbs. reflexivity.
Defined.

(** X21 at the demo platform: the options give a host name and a version
    tag of their own. *)
Lemma NewTracer_option_tags_first_witness :
  exists t w',
    NewTracer DemoPlatform.platform "svc" Demo.neverSample
      [DemoPlatform.tagOption "hostname" (VString "custom");
       DemoPlatform.tagOption "jaeger.version" (VString "mine")]
      DemoPlatform.world
    = Some (Returned t, w')
    /\ getTag t "hostname" = Some (VString "custom")
    /\ getTag t "jaeger.version" = Some (VString "mine")
    /\ ("jaeger.version", VString "Go-2.15.0") ∈ Tracer_Tags t
    /\ ProcessTags (process t) = tracerTags t.
Proof.
  run_construction DemoPlatform.platform
    [DemoPlatform.tagOption "hostname" (VString "custom");
     DemoPlatform.tagOption "jaeger.version" (VString "mine")].
  destruct (NewTracer_option_tags_first DemoPlatform.platform "svc"
              Demo.neverSample
              [DemoPlatform.tagOption "hostname" (VString "custom");
               DemoPlatform.tagOption "jaeger.version" (VString "mine")]
              DemoPlatform.world t w' Hrun)
    as (_ & Hfirst & _ & Hver & Hproc).
  split; [apply Hfirst; reflexivity|].
  split; [apply Hfirst; reflexivity|].
  split; [exact Hver|exact Hproc].
Defined.

(** X22 at the demo platform: the options give the host name and an
    address that parses. *)
Lemma NewTracer_uses_given_host_identity_witness :
  exists t w',
    NewTracer DemoPlatform.platform "svc" Demo.neverSample
      [DemoPlatform.tagOption "hostname" (VString "custom");
       DemoPlatform.tagOption "ip" (VString "10.0.0.1")]
      DemoPlatform.world
    = Some (Returned t, w')
    /\ tracerTags t
       = [mkTag "hostname" (VString "custom"); mkTag "ip" (VString "10.0.0.1");
          mkTag "jaeger.version" (VString "Go-2.15.0")]
    /\ hostIPv4 t = 167772161
    /\ filter (fun e => isLoggerCall e = true) (newCalls DemoPlatform.world w') = []
    /\ env w' = 1%nat.
Proof.
  destruct (NewTracer_uses_given_host_identity DemoPlatform.platform "svc"
              Demo.neverSample
              [DemoPlatform.tagOption "hostname" (VString "custom");
               DemoPlatform.tagOption "ip" (VString "10.0.0.1")]
              DemoPlatform.world (VString "custom") "10.0.0.1")
    as (t & w' & Hrun & Htags & Hip & Hlog & Henv & _);
    [reflexivity|reflexivity|].
  exists t, w'. split; [exact Hrun|].
  vm_compute in Hrun. injection Hrun as <- <-.
  split; [reflexivity|]. split; [reflexivity|]. split; reflexivity.
Defined.

(** X23 at a platform without network. *)
Lemma NewTracer_detects_host_identity_witness :
  exists t w',
    NewTracer DemoPlatform.offline "svc" Demo.neverSample [] DemoPlatform.world
    = Some (Returned t, w')
    /\ tracerTags t = [mkTag "jaeger.version" (VString "Go-2.15.0")]
    /\ hostIPv4 t = 0
    /\ filter (fun e => isLoggerCall e = true) (newCalls DemoPlatform.world w')
       = [hostIPError "no address"].
Proof.
  destruct (NewTracer_detects_host_identity DemoPlatform.offline "svc"
              Demo.neverSample [] DemoPlatform.world)
    as (t & w' & Hrun & Htags & Hip & Hlog & _);
    [discriminate|discriminate|discriminate|reflexivity|reflexivity|].
  exists t, w'. split; [exact Hrun|].
  split; [rewrite Htags; reflexivity|]. split; [rewrite Hip; reflexivity|].
  rewrite Hlog. vm_compute in Hrun. injection Hrun as <- <-. reflexivity.
Defined.

(** X24 at the demo platform, with a throttler that wants the process. *)
Lemma NewTracer_process_witness :
  exists t w',
    NewTracer DemoPlatform.platform "svc" Demo.neverSample
      [DemoPlatform.throttlerOption] DemoPlatform.world
    = Some (Returned t, w')
    /\ Service (process t) = "svc"
    /\ ProcessTags (process t) = tracerTags t
    /\ filter (fun e => isRandomCall e = true) (newCalls DemoPlatform.world w')
       = [EvRandomNumber]
    /\ last (calls w') = Some EvRandomNumber.
Proof.
  run_construction DemoPlatform.platform [DemoPlatform.throttlerOption].
  destruct (NewTracer_process DemoPlatform.platform "svc" Demo.neverSample
              [DemoPlatform.throttlerOption] DemoPlatform.world t w' Hrun)
    as (e & Hproc & _ & Hdraw & Hlast & _).
  rewrite Hproc. split; [reflexivity|]. split; [reflexivity|].
  split; [exact Hdraw|exact Hlast].
Defined.

(** X25 at the demo platform: a generator without 128-bit trace IDs. *)
Lemma NewTracer_high_word_generator_witness :
  exists t w',
    NewTracer DemoPlatform.platform "svc" Demo.neverSample
      [DemoPlatform.highGeneratorOption Demo.zerosThenSeven] DemoPlatform.world
    = Some (Returned t, w')
    /\ gen128Bit (options (core t)) = false
    /\ highTraceIDGeneratorSet t = true
    /\ highTraceIDGenerator (options (core t)) = Demo.zerosThenSeven
    /\ filter (fun e => isGeneratorError e = true) (newCalls DemoPlatform.world w')
       = [generatorError].
Proof.
  run_construction DemoPlatform.platform
    [DemoPlatform.highGeneratorOption Demo.zerosThenSeven].
  destruct (NewTracer_high_word_generator DemoPlatform.platform "svc"
              Demo.neverSample
              [DemoPlatform.highGeneratorOption Demo.zerosThenSeven]
              DemoPlatform.world t w' Hrun)
    as (Hgen & Hset & Hfun & Hlog).
  split; [rewrite Hgen; reflexivity|]. split; [rewrite Hset; reflexivity|].
  split; [rewrite Hfun; reflexivity|]. rewrite Hlog. reflexivity.
Defined.
